(** * Content-creator dashboard: the in-memory store, the automation
    pipeline and the text-to-speech voice check, embedded in Rocq.

    Sources embedded here (several source files hold more than one module
    of the repository, one after the other):
    - class [MemStorage] of [server/storage.ts], the map-backed store, in
      its version with scripts and AI configs
      ([src/server/scripts.ts], from [export class MemStorage] to
      [export const storage]);
    - the [POST /create-content] handler of
      [server/routes/automationRoutes.ts] ([src/unnamed/part_011]);
    - the [/api/trending-topics] handlers of [src/server/routes.ts];
    - the tables and insert schemas of [shared/schema.ts]
      ([src/shared/schema.ts], and [src/unnamed/part_012] for scripts and
      AI configs);
    - class [LocalTTS] of [server/services/zeroAI/localTTS.ts]
      (second half of [src/server/routes/aiToolsRoutes.ts]);
    - the result shapes of [LocalImageGenerator] and [VideoGenerator]
      ([src/server/services/zeroAI/localImageGenerator.ts]) and of
      [LocalLLM] ([src/server/services/zeroAI/localLLM.ts]);
    - the trend form schema of the dashboard ([src/unnamed/part_008]).

    Number model.  TypeScript [number]s that the code uses as ids, counters,
    limits, scores and millisecond timestamps are integers; they are
    embedded as [Z].  JavaScript computes exactly on integers of magnitude
    below 2^53, which is the range every run of the program stays in.
    Numbers that arrive in JSON bodies or sit in open [jsonb] bags are
    embedded as rationals. *)

From Stdlib Require Import ZArith List String Ascii Bool Lia QArith.
From Stdlib Require Import DecimalString.
From Stdlib Require DecimalPos DecimalZ.
From Stdlib Require Import Sorting.Sorted Sorting.Permutation.
Import ListNotations.
Local Open Scope string_scope.
Local Open Scope list_scope.
Local Open Scope Z_scope.

Set Implicit Arguments.
Local Set Warnings "-register-all".

(* ===================================================================== *)
(** * JavaScript runtime fragments used by the sources                    *)
(* ===================================================================== *)

(** ** [Map<number, V>]

    A JavaScript [Map] iterates in insertion order; [set] on a key that is
    already present replaces the value in place, [set] on a new key
    appends, [delete] removes the entry.  Order is observable through
    [Array.from(map.values())], so the map is an association list with
    unique keys rather than an unordered finite map. *)
Module JsMap.
Section Defs.
Variable V : Type.

Definition t := list (Z * V).

Definition empty : t := [].

Fixpoint get (k : Z) (m : t) : option V :=
  match m with
  | [] => None
  | (k', v) :: m' => if k' =? k then Some v else get k m'
  end.

Definition has (k : Z) (m : t) : bool :=
  match get k m with Some _ => true | None => false end.

Fixpoint set (k : Z) (v : V) (m : t) : t :=
  match m with
  | [] => [(k, v)]
  | (k', v') :: m' =>
      if k' =? k then (k, v) :: m' else (k', v') :: set k v m'
  end.

(** [Map.prototype.delete]: the boolean tells whether the key existed. *)
Fixpoint delete (k : Z) (m : t) : bool * t :=
  match m with
  | [] => (false, [])
  | (k', v') :: m' =>
      if k' =? k then (true, m')
      else let (b, r) := delete k m' in (b, (k', v') :: r)
  end.

Definition keys (m : t) : list Z := map fst m.

(** [Array.from(map.values())] *)
Definition values (m : t) : list V := map snd m.
End Defs.

Arguments empty {V}.
End JsMap.

(** ** Arrays *)
Module JsArray.
Section Defs.
Variable A : Type.

(** [arr.slice(0, limit)]: a negative [limit] counts from the end, a
    [limit] beyond the length is clamped. *)
Definition slice0 (limit : Z) (l : list A) : list A :=
  let len := Z.of_nat (List.length l) in
  let final := if limit <? 0 then Z.max (len + limit) 0
               else Z.min limit len in
  firstn (Z.to_nat final) l.

(** [arr.sort(cmp)].  ECMAScript requires the sort to be stable, and for
    a consistent comparator the result of a stable sort is unique; it is
    the one computed by this insertion sort.  [cmp a b < 0] puts [a]
    first; on [cmp a b = 0] the earlier element stays first. *)
Fixpoint insert (cmp : A -> A -> Z) (x : A) (l : list A) : list A :=
  match l with
  | [] => [x]
  | y :: l' => if cmp x y <=? 0 then x :: y :: l'
               else y :: insert cmp x l'
  end.

Fixpoint sort (cmp : A -> A -> Z) (l : list A) : list A :=
  match l with
  | [] => []
  | x :: l' => insert cmp x (sort cmp l')
  end.

(** [arr.filter(p)] is [List.filter]; [arr.length] is [List.length]. *)

(** Ascending order of a key, the order a comparator
    [(a, b) => key(a) - key(b)] sorts into. *)
Definition ascending (key : A -> Z) : A -> A -> Prop :=
  fun a b => key a <= key b.
End Defs.
End JsArray.

(** ** Truthiness and [||] defaults *)

(** [s || d] for a possibly-undefined string: [undefined] and the empty
    string are falsy. *)
Definition or_default_str (o : option string) (d : string) : string :=
  match o with
  | Some s => if String.eqb s "" then d else s
  | None => d
  end.

(** [s || null] for a string that may be [undefined] or [null]. *)
Definition or_null_str (o : option string) : option string :=
  match o with
  | Some s => if String.eqb s "" then None else Some s
  | None => None
  end.

(** [n || null] for a number that may be [undefined] or [null]: [0] is
    falsy. *)
Definition or_null_num (o : option Z) : option Z :=
  match o with
  | Some n => if n =? 0 then None else Some n
  | None => None
  end.

(** A number received in a JSON body is a rational; it denotes a key of
    the store only when it is an integer. *)
Definition Qint (q : Q) : option Z :=
  let d := Z.pos (Qden q) in
  if Qnum q mod d =? 0 then Some (Qnum q / d) else None.

(** Truthiness of an optional number, as in [if (request.topicId)]:
    [undefined] and [0] are falsy. *)
Definition truthy_num (o : option Q) : bool :=
  match o with
  | Some q => negb (Qnum q =? 0)
  | None => false
  end.

(** Truthiness of an optional boolean, as in
    [request.scheduleImmediately && ...]. *)
Definition truthy_bool (o : option bool) : bool :=
  match o with Some b => b | None => false end.

(** ** JSON values: the contents of [jsonb] columns and request bodies *)
Inductive Json : Type :=
| JNull
| JBool (b : bool)
| JNum (q : Q)
| JStr (s : string)
| JArr (items : list Json)
| JObj (props : list (string * Json)).

Definition JInt (n : Z) : Json := JNum (inject_Z n).

Definition truthy_json (j : Json) : bool :=
  match j with
  | JNull => false
  | JBool b => b
  | JNum q => negb (Qeq_bool q 0)
  | JStr s => negb (String.eqb s "")
  | JArr _ | JObj _ => true
  end.

(** [j || {}] *)
Definition or_empty_obj (o : option Json) : Json :=
  match o with
  | Some j => if truthy_json j then j else JObj []
  | None => JObj []
  end.

(** Property read [obj.key] on a JSON object built by an object literal
    with distinct keys. *)
Fixpoint assoc (k : string) (props : list (string * Json)) : option Json :=
  match props with
  | [] => None
  | (k', v) :: rest => if String.eqb k' k then Some v else assoc k rest
  end.

Definition prop (k : string) (j : Json) : option Json :=
  match j with
  | JObj props => assoc k props
  | _ => None
  end.

(** [{...a, ...b}] on one field: the field of [b] wins when present. *)
Definition spread {A : Type} (old : A) (upd : option A) : A :=
  match upd with
  | Some v => v
  | None => old
  end.

(* ===================================================================== *)
(** * Data model ([shared/schema.ts])                                     *)
(* ===================================================================== *)

(** A [Date] is embedded as its millisecond timestamp.  For every table
    [X] there are three shapes: the stored row [X], the insert shape
    [InsertX] (an optional key that is [undefined] or [null] is [None];
    the store treats both alike through [||]) and the update payload
    [PartialX], where [None] means that the key is absent from the payload
    and, for a nullable column, [Some None] means an explicit [null]. *)

Record User := {
  user_id : Z;
  user_username : string;
  user_password : string }.

Record InsertUser := {
  ins_user_username : string;
  ins_user_password : string }.

Record Script := {
  script_id : Z;
  script_title : string;
  script_topic : string;
  script_format : string;
  script_content : string;
  script_duration : option Z;
  script_tone : option string;
  script_targetAudience : option string;
  script_createdAt : Z;
  script_audioPath : option string;
  script_status : string }.

Record InsertScript := {
  ins_script_title : string;
  ins_script_topic : string;
  ins_script_format : string;
  ins_script_content : string;
  ins_script_duration : option Z;
  ins_script_tone : option string;
  ins_script_targetAudience : option string;
  ins_script_audioPath : option string;
  ins_script_status : option string }.

Record PartialScript := {
  upd_script_title : option string;
  upd_script_topic : option string;
  upd_script_format : option string;
  upd_script_content : option string;
  upd_script_duration : option (option Z);
  upd_script_tone : option (option string);
  upd_script_targetAudience : option (option string);
  upd_script_audioPath : option (option string);
  upd_script_status : option string }.

Record AiConfig := {
  aiConfig_id : Z;
  aiConfig_name : string;
  aiConfig_modelType : string;
  aiConfig_modelName : string;
  aiConfig_active : bool;
  aiConfig_settings : Json;
  aiConfig_capabilities : Json;
  aiConfig_lastUpdated : Z;
  aiConfig_downloadStatus : option string }.

Record InsertAiConfig := {
  ins_aiConfig_name : string;
  ins_aiConfig_modelType : string;
  ins_aiConfig_modelName : string;
  ins_aiConfig_active : option bool;
  ins_aiConfig_settings : option Json;
  ins_aiConfig_capabilities : option Json;
  ins_aiConfig_downloadStatus : option string }.

Record PartialAiConfig := {
  upd_aiConfig_name : option string;
  upd_aiConfig_modelType : option string;
  upd_aiConfig_modelName : option string;
  upd_aiConfig_active : option bool;
  upd_aiConfig_settings : option Json;
  upd_aiConfig_capabilities : option Json;
  upd_aiConfig_downloadStatus : option (option string) }.

Record Platform := {
  platform_id : Z;
  platform_name : string;
  platform_icon : string;
  platform_active : bool }.

Record InsertPlatform := {
  ins_platform_name : string;
  ins_platform_icon : string;
  ins_platform_active : option bool }.

Record PartialPlatform := {
  upd_platform_name : option string;
  upd_platform_icon : option string;
  upd_platform_active : option bool }.

Record PlatformAccount := {
  account_id : Z;
  account_platformId : Z;
  account_name : string;
  account_username : string;
  account_accessToken : option string;
  account_refreshToken : option string;
  account_tokenExpiry : option Z;
  account_followerCount : option Z;
  account_active : bool;
  account_metadata : Json }.

Record InsertPlatformAccount := {
  ins_account_platformId : Z;
  ins_account_name : string;
  ins_account_username : string;
  ins_account_accessToken : option string;
  ins_account_refreshToken : option string;
  ins_account_tokenExpiry : option Z;
  ins_account_followerCount : option Z;
  ins_account_active : option bool;
  ins_account_metadata : option Json }.

Record PartialPlatformAccount := {
  upd_account_platformId : option Z;
  upd_account_name : option string;
  upd_account_username : option string;
  upd_account_accessToken : option (option string);
  upd_account_refreshToken : option (option string);
  upd_account_tokenExpiry : option (option Z);
  upd_account_followerCount : option (option Z);
  upd_account_active : option bool;
  upd_account_metadata : option Json }.

Record Content := {
  content_id : Z;
  content_title : string;
  content_description : option string;
  content_contentType : string;
  content_status : string;
  content_filePath : option string;
  content_thumbnailPath : option string;
  content_metadata : Json;
  content_createdAt : Z }.

Record InsertContent := {
  ins_content_title : string;
  ins_content_description : option string;
  ins_content_contentType : string;
  ins_content_status : option string;
  ins_content_filePath : option string;
  ins_content_thumbnailPath : option string;
  ins_content_metadata : option Json }.

Record PartialContent := {
  upd_content_title : option string;
  upd_content_description : option (option string);
  upd_content_contentType : option string;
  upd_content_status : option string;
  upd_content_filePath : option (option string);
  upd_content_thumbnailPath : option (option string);
  upd_content_metadata : option Json }.

Record ScheduledPost := {
  post_id : Z;
  post_contentId : Z;
  post_platformAccountId : Z;
  post_scheduledTime : Z;
  post_status : string;
  post_postId : option string;
  post_error : option string }.

Record InsertScheduledPost := {
  ins_post_contentId : Z;
  ins_post_platformAccountId : Z;
  ins_post_scheduledTime : Z;
  ins_post_status : option string }.

Record PartialScheduledPost := {
  upd_post_contentId : option Z;
  upd_post_platformAccountId : option Z;
  upd_post_scheduledTime : option Z;
  upd_post_status : option string }.

Record TrendingTopic := {
  topic_id : Z;
  topic_topic : string;
  topic_category : string;
  topic_description : option string;
  topic_trendScore : Z;
  topic_discoveredAt : Z }.

Record InsertTrendingTopic := {
  ins_topic_topic : string;
  ins_topic_category : string;
  ins_topic_description : option string;
  ins_topic_trendScore : Z }.

Record PartialTrendingTopic := {
  upd_topic_topic : option string;
  upd_topic_category : option string;
  upd_topic_description : option (option string);
  upd_topic_trendScore : option Z }.

(* ===================================================================== *)
(** * The store ([server/storage.ts], class [MemStorage])                 *)
(* ===================================================================== *)

Record MemStorage := {
  users : JsMap.t User;
  scripts : JsMap.t Script;
  aiConfigs : JsMap.t AiConfig;
  platforms : JsMap.t Platform;
  platformAccounts : JsMap.t PlatformAccount;
  contents : JsMap.t Content;
  scheduledPosts : JsMap.t ScheduledPost;
  trendingTopics : JsMap.t TrendingTopic;
  userId : Z;
  scriptId : Z;
  aiConfigId : Z;
  platformId : Z;
  accountId : Z;
  contentId : Z;
  postId : Z;
  topicId : Z }.

(** Field assignments [this.f = v]. *)
Definition set_users (v : JsMap.t User) (s : MemStorage) : MemStorage :=
  {| users := v;
     scripts := scripts s;
     aiConfigs := aiConfigs s;
     platforms := platforms s;
     platformAccounts := platformAccounts s;
     contents := contents s;
     scheduledPosts := scheduledPosts s;
     trendingTopics := trendingTopics s;
     userId := userId s;
     scriptId := scriptId s;
     aiConfigId := aiConfigId s;
     platformId := platformId s;
     accountId := accountId s;
     contentId := contentId s;
     postId := postId s;
     topicId := topicId s |}.

Definition set_scripts (v : JsMap.t Script) (s : MemStorage) : MemStorage :=
  {| users := users s;
     scripts := v;
     aiConfigs := aiConfigs s;
     platforms := platforms s;
     platformAccounts := platformAccounts s;
     contents := contents s;
     scheduledPosts := scheduledPosts s;
     trendingTopics := trendingTopics s;
     userId := userId s;
     scriptId := scriptId s;
     aiConfigId := aiConfigId s;
     platformId := platformId s;
     accountId := accountId s;
     contentId := contentId s;
     postId := postId s;
     topicId := topicId s |}.

Definition set_aiConfigs (v : JsMap.t AiConfig) (s : MemStorage) : MemStorage :=
  {| users := users s;
     scripts := scripts s;
     aiConfigs := v;
     platforms := platforms s;
     platformAccounts := platformAccounts s;
     contents := contents s;
     scheduledPosts := scheduledPosts s;
     trendingTopics := trendingTopics s;
     userId := userId s;
     scriptId := scriptId s;
     aiConfigId := aiConfigId s;
     platformId := platformId s;
     accountId := accountId s;
     contentId := contentId s;
     postId := postId s;
     topicId := topicId s |}.

Definition set_platforms (v : JsMap.t Platform) (s : MemStorage) : MemStorage :=
  {| users := users s;
     scripts := scripts s;
     aiConfigs := aiConfigs s;
     platforms := v;
     platformAccounts := platformAccounts s;
     contents := contents s;
     scheduledPosts := scheduledPosts s;
     trendingTopics := trendingTopics s;
     userId := userId s;
     scriptId := scriptId s;
     aiConfigId := aiConfigId s;
     platformId := platformId s;
     accountId := accountId s;
     contentId := contentId s;
     postId := postId s;
     topicId := topicId s |}.

Definition set_platformAccounts (v : JsMap.t PlatformAccount) (s : MemStorage) : MemStorage :=
  {| users := users s;
     scripts := scripts s;
     aiConfigs := aiConfigs s;
     platforms := platforms s;
     platformAccounts := v;
     contents := contents s;
     scheduledPosts := scheduledPosts s;
     trendingTopics := trendingTopics s;
     userId := userId s;
     scriptId := scriptId s;
     aiConfigId := aiConfigId s;
     platformId := platformId s;
     accountId := accountId s;
     contentId := contentId s;
     postId := postId s;
     topicId := topicId s |}.

Definition set_contents (v : JsMap.t Content) (s : MemStorage) : MemStorage :=
  {| users := users s;
     scripts := scripts s;
     aiConfigs := aiConfigs s;
     platforms := platforms s;
     platformAccounts := platformAccounts s;
     contents := v;
     scheduledPosts := scheduledPosts s;
     trendingTopics := trendingTopics s;
     userId := userId s;
     scriptId := scriptId s;
     aiConfigId := aiConfigId s;
     platformId := platformId s;
     accountId := accountId s;
     contentId := contentId s;
     postId := postId s;
     topicId := topicId s |}.

Definition set_scheduledPosts (v : JsMap.t ScheduledPost) (s : MemStorage) : MemStorage :=
  {| users := users s;
     scripts := scripts s;
     aiConfigs := aiConfigs s;
     platforms := platforms s;
     platformAccounts := platformAccounts s;
     contents := contents s;
     scheduledPosts := v;
     trendingTopics := trendingTopics s;
     userId := userId s;
     scriptId := scriptId s;
     aiConfigId := aiConfigId s;
     platformId := platformId s;
     accountId := accountId s;
     contentId := contentId s;
     postId := postId s;
     topicId := topicId s |}.

Definition set_trendingTopics (v : JsMap.t TrendingTopic) (s : MemStorage) : MemStorage :=
  {| users := users s;
     scripts := scripts s;
     aiConfigs := aiConfigs s;
     platforms := platforms s;
     platformAccounts := platformAccounts s;
     contents := contents s;
     scheduledPosts := scheduledPosts s;
     trendingTopics := v;
     userId := userId s;
     scriptId := scriptId s;
     aiConfigId := aiConfigId s;
     platformId := platformId s;
     accountId := accountId s;
     contentId := contentId s;
     postId := postId s;
     topicId := topicId s |}.

Definition set_userId (v : Z) (s : MemStorage) : MemStorage :=
  {| users := users s;
     scripts := scripts s;
     aiConfigs := aiConfigs s;
     platforms := platforms s;
     platformAccounts := platformAccounts s;
     contents := contents s;
     scheduledPosts := scheduledPosts s;
     trendingTopics := trendingTopics s;
     userId := v;
     scriptId := scriptId s;
     aiConfigId := aiConfigId s;
     platformId := platformId s;
     accountId := accountId s;
     contentId := contentId s;
     postId := postId s;
     topicId := topicId s |}.

Definition set_scriptId (v : Z) (s : MemStorage) : MemStorage :=
  {| users := users s;
     scripts := scripts s;
     aiConfigs := aiConfigs s;
     platforms := platforms s;
     platformAccounts := platformAccounts s;
     contents := contents s;
     scheduledPosts := scheduledPosts s;
     trendingTopics := trendingTopics s;
     userId := userId s;
     scriptId := v;
     aiConfigId := aiConfigId s;
     platformId := platformId s;
     accountId := accountId s;
     contentId := contentId s;
     postId := postId s;
     topicId := topicId s |}.

Definition set_aiConfigId (v : Z) (s : MemStorage) : MemStorage :=
  {| users := users s;
     scripts := scripts s;
     aiConfigs := aiConfigs s;
     platforms := platforms s;
     platformAccounts := platformAccounts s;
     contents := contents s;
     scheduledPosts := scheduledPosts s;
     trendingTopics := trendingTopics s;
     userId := userId s;
     scriptId := scriptId s;
     aiConfigId := v;
     platformId := platformId s;
     accountId := accountId s;
     contentId := contentId s;
     postId := postId s;
     topicId := topicId s |}.

Definition set_platformId (v : Z) (s : MemStorage) : MemStorage :=
  {| users := users s;
     scripts := scripts s;
     aiConfigs := aiConfigs s;
     platforms := platforms s;
     platformAccounts := platformAccounts s;
     contents := contents s;
     scheduledPosts := scheduledPosts s;
     trendingTopics := trendingTopics s;
     userId := userId s;
     scriptId := scriptId s;
     aiConfigId := aiConfigId s;
     platformId := v;
     accountId := accountId s;
     contentId := contentId s;
     postId := postId s;
     topicId := topicId s |}.

Definition set_accountId (v : Z) (s : MemStorage) : MemStorage :=
  {| users := users s;
     scripts := scripts s;
     aiConfigs := aiConfigs s;
     platforms := platforms s;
     platformAccounts := platformAccounts s;
     contents := contents s;
     scheduledPosts := scheduledPosts s;
     trendingTopics := trendingTopics s;
     userId := userId s;
     scriptId := scriptId s;
     aiConfigId := aiConfigId s;
     platformId := platformId s;
     accountId := v;
     contentId := contentId s;
     postId := postId s;
     topicId := topicId s |}.

Definition set_contentId (v : Z) (s : MemStorage) : MemStorage :=
  {| users := users s;
     scripts := scripts s;
     aiConfigs := aiConfigs s;
     platforms := platforms s;
     platformAccounts := platformAccounts s;
     contents := contents s;
     scheduledPosts := scheduledPosts s;
     trendingTopics := trendingTopics s;
     userId := userId s;
     scriptId := scriptId s;
     aiConfigId := aiConfigId s;
     platformId := platformId s;
     accountId := accountId s;
     contentId := v;
     postId := postId s;
     topicId := topicId s |}.

Definition set_postId (v : Z) (s : MemStorage) : MemStorage :=
  {| users := users s;
     scripts := scripts s;
     aiConfigs := aiConfigs s;
     platforms := platforms s;
     platformAccounts := platformAccounts s;
     contents := contents s;
     scheduledPosts := scheduledPosts s;
     trendingTopics := trendingTopics s;
     userId := userId s;
     scriptId := scriptId s;
     aiConfigId := aiConfigId s;
     platformId := platformId s;
     accountId := accountId s;
     contentId := contentId s;
     postId := v;
     topicId := topicId s |}.

Definition set_topicId (v : Z) (s : MemStorage) : MemStorage :=
  {| users := users s;
     scripts := scripts s;
     aiConfigs := aiConfigs s;
     platforms := platforms s;
     platformAccounts := platformAccounts s;
     contents := contents s;
     scheduledPosts := scheduledPosts s;
     trendingTopics := trendingTopics s;
     userId := userId s;
     scriptId := scriptId s;
     aiConfigId := aiConfigId s;
     platformId := platformId s;
     accountId := accountId s;
     contentId := contentId s;
     postId := postId s;
     topicId := v |}.

(** ** Shallow merges [{ ...existing, ...update }], one per table *)

Definition mergeScript (e : Script) (u : PartialScript) : Script :=
  {| script_id := script_id e;
     script_title := spread (script_title e) (upd_script_title u);
     script_topic := spread (script_topic e) (upd_script_topic u);
     script_format := spread (script_format e) (upd_script_format u);
     script_content := spread (script_content e) (upd_script_content u);
     script_duration := spread (script_duration e) (upd_script_duration u);
     script_tone := spread (script_tone e) (upd_script_tone u);
     script_targetAudience :=
       spread (script_targetAudience e) (upd_script_targetAudience u);
     script_createdAt := script_createdAt e;
     script_audioPath := spread (script_audioPath e) (upd_script_audioPath u);
     script_status := spread (script_status e) (upd_script_status u) |}.

(** [{ ...existingConfig, ...configUpdate, lastUpdated: new Date() }] *)
Definition mergeAiConfig (now : Z) (e : AiConfig) (u : PartialAiConfig)
  : AiConfig :=
  {| aiConfig_id := aiConfig_id e;
     aiConfig_name := spread (aiConfig_name e) (upd_aiConfig_name u);
     aiConfig_modelType :=
       spread (aiConfig_modelType e) (upd_aiConfig_modelType u);
     aiConfig_modelName :=
       spread (aiConfig_modelName e) (upd_aiConfig_modelName u);
     aiConfig_active := spread (aiConfig_active e) (upd_aiConfig_active u);
     aiConfig_settings :=
       spread (aiConfig_settings e) (upd_aiConfig_settings u);
     aiConfig_capabilities :=
       spread (aiConfig_capabilities e) (upd_aiConfig_capabilities u);
     aiConfig_lastUpdated := now;
     aiConfig_downloadStatus :=
       spread (aiConfig_downloadStatus e) (upd_aiConfig_downloadStatus u) |}.

Definition mergePlatform (e : Platform) (u : PartialPlatform) : Platform :=
  {| platform_id := platform_id e;
     platform_name := spread (platform_name e) (upd_platform_name u);
     platform_icon := spread (platform_icon e) (upd_platform_icon u);
     platform_active := spread (platform_active e) (upd_platform_active u) |}.

Definition mergePlatformAccount (e : PlatformAccount)
  (u : PartialPlatformAccount) : PlatformAccount :=
  {| account_id := account_id e;
     account_platformId :=
       spread (account_platformId e) (upd_account_platformId u);
     account_name := spread (account_name e) (upd_account_name u);
     account_username := spread (account_username e) (upd_account_username u);
     account_accessToken :=
       spread (account_accessToken e) (upd_account_accessToken u);
     account_refreshToken :=
       spread (account_refreshToken e) (upd_account_refreshToken u);
     account_tokenExpiry :=
       spread (account_tokenExpiry e) (upd_account_tokenExpiry u);
     account_followerCount :=
       spread (account_followerCount e) (upd_account_followerCount u);
     account_active := spread (account_active e) (upd_account_active u);
     account_metadata :=
       spread (account_metadata e) (upd_account_metadata u) |}.

Definition mergeContent (e : Content) (u : PartialContent) : Content :=
  {| content_id := content_id e;
     content_title := spread (content_title e) (upd_content_title u);
     content_description :=
       spread (content_description e) (upd_content_description u);
     content_contentType :=
       spread (content_contentType e) (upd_content_contentType u);
     content_status := spread (content_status e) (upd_content_status u);
     content_filePath := spread (content_filePath e) (upd_content_filePath u);
     content_thumbnailPath :=
       spread (content_thumbnailPath e) (upd_content_thumbnailPath u);
     content_metadata := spread (content_metadata e) (upd_content_metadata u);
     content_createdAt := content_createdAt e |}.

Definition mergeScheduledPost (e : ScheduledPost) (u : PartialScheduledPost)
  : ScheduledPost :=
  {| post_id := post_id e;
     post_contentId := spread (post_contentId e) (upd_post_contentId u);
     post_platformAccountId :=
       spread (post_platformAccountId e) (upd_post_platformAccountId u);
     post_scheduledTime :=
       spread (post_scheduledTime e) (upd_post_scheduledTime u);
     post_status := spread (post_status e) (upd_post_status u);
     post_postId := post_postId e;
     post_error := post_error e |}.

Definition mergeTrendingTopic (e : TrendingTopic) (u : PartialTrendingTopic)
  : TrendingTopic :=
  {| topic_id := topic_id e;
     topic_topic := spread (topic_topic e) (upd_topic_topic u);
     topic_category := spread (topic_category e) (upd_topic_category u);
     topic_description :=
       spread (topic_description e) (upd_topic_description u);
     topic_trendScore := spread (topic_trendScore e) (upd_topic_trendScore u);
     topic_discoveredAt := topic_discoveredAt e |}.

(** ** Methods.  A method that reads the clock ([new Date()]) takes the
    reading [now] as an argument; a method that mutates the store returns
    the new store next to its result. *)

(** *** Users *)
Definition getUser (id : Z) (s : MemStorage) : option User :=
  JsMap.get id (users s).

Definition getUserByUsername (username : string) (s : MemStorage)
  : option User :=
  find (fun u => String.eqb (user_username u) username)
       (JsMap.values (users s)).

Definition createUser (i : InsertUser) (s : MemStorage) : User * MemStorage :=
  let id := userId s in
  let user := {| user_id := id;
                 user_username := ins_user_username i;
                 user_password := ins_user_password i |} in
  (user, set_users (JsMap.set id user (users s)) (set_userId (id + 1) s)).

(** *** Scripts *)
Definition getScripts (s : MemStorage) : list Script :=
  JsMap.values (scripts s).

Definition getScript (id : Z) (s : MemStorage) : option Script :=
  JsMap.get id (scripts s).

Definition getRecentScripts (limit : Z) (s : MemStorage) : list Script :=
  JsArray.slice0 limit
    (JsArray.sort (fun a b => script_createdAt b - script_createdAt a)
       (JsMap.values (scripts s))).

Definition createScript (now : Z) (i : InsertScript) (s : MemStorage)
  : Script * MemStorage :=
  let id := scriptId s in
  let script :=
    {| script_id := id;
       script_content := ins_script_content i;
       script_format := ins_script_format i;
       script_title := ins_script_title i;
       script_topic := ins_script_topic i;
       script_status := or_default_str (ins_script_status i) "draft";
       script_audioPath := or_null_str (ins_script_audioPath i);
       script_duration := or_null_num (ins_script_duration i);
       script_tone := or_null_str (ins_script_tone i);
       script_targetAudience := or_null_str (ins_script_targetAudience i);
       script_createdAt := now |} in
  (script,
   set_scripts (JsMap.set id script (scripts s)) (set_scriptId (id + 1) s)).

Definition updateScript (id : Z) (u : PartialScript) (s : MemStorage)
  : option Script * MemStorage :=
  match JsMap.get id (scripts s) with
  | None => (None, s)
  | Some existing =>
      let updated := mergeScript existing u in
      (Some updated, set_scripts (JsMap.set id updated (scripts s)) s)
  end.

Definition deleteScript (id : Z) (s : MemStorage) : bool * MemStorage :=
  let (b, m) := JsMap.delete id (scripts s) in (b, set_scripts m s).

(** *** AI configs *)
Definition getAiConfigs (s : MemStorage) : list AiConfig :=
  JsMap.values (aiConfigs s).

Definition getAiConfig (id : Z) (s : MemStorage) : option AiConfig :=
  JsMap.get id (aiConfigs s).

Definition getAiConfigsByType (modelType : string) (s : MemStorage)
  : list AiConfig :=
  filter (fun c => String.eqb (aiConfig_modelType c) modelType)
         (JsMap.values (aiConfigs s)).

Definition createAiConfig (now : Z) (i : InsertAiConfig) (s : MemStorage)
  : AiConfig * MemStorage :=
  let id := aiConfigId s in
  let config :=
    {| aiConfig_id := id;
       aiConfig_name := ins_aiConfig_name i;
       aiConfig_modelType := ins_aiConfig_modelType i;
       aiConfig_modelName := ins_aiConfig_modelName i;
       aiConfig_active :=
         match ins_aiConfig_active i with Some b => b | None => true end;
       aiConfig_settings := or_empty_obj (ins_aiConfig_settings i);
       aiConfig_capabilities := or_empty_obj (ins_aiConfig_capabilities i);
       aiConfig_lastUpdated := now;
       aiConfig_downloadStatus :=
         Some (or_default_str (ins_aiConfig_downloadStatus i)
                              "not_downloaded") |} in
  (config,
   set_aiConfigs (JsMap.set id config (aiConfigs s))
                 (set_aiConfigId (id + 1) s)).

Definition updateAiConfig (now : Z) (id : Z) (u : PartialAiConfig)
  (s : MemStorage) : option AiConfig * MemStorage :=
  match JsMap.get id (aiConfigs s) with
  | None => (None, s)
  | Some existing =>
      let updated := mergeAiConfig now existing u in
      (Some updated, set_aiConfigs (JsMap.set id updated (aiConfigs s)) s)
  end.

Definition deleteAiConfig (id : Z) (s : MemStorage) : bool * MemStorage :=
  let (b, m) := JsMap.delete id (aiConfigs s) in (b, set_aiConfigs m s).

(** *** Platforms *)
Definition getPlatforms (s : MemStorage) : list Platform :=
  JsMap.values (platforms s).

Definition getPlatform (id : Z) (s : MemStorage) : option Platform :=
  JsMap.get id (platforms s).

Definition createPlatform (i : InsertPlatform) (s : MemStorage)
  : Platform * MemStorage :=
  let id := platformId s in
  let platform :=
    {| platform_id := id;
       platform_name := ins_platform_name i;
       platform_active :=
         match ins_platform_active i with Some b => b | None => true end;
       platform_icon := ins_platform_icon i |} in
  (platform,
   set_platforms (JsMap.set id platform (platforms s))
                 (set_platformId (id + 1) s)).

Definition updatePlatform (id : Z) (u : PartialPlatform) (s : MemStorage)
  : option Platform * MemStorage :=
  match JsMap.get id (platforms s) with
  | None => (None, s)
  | Some existing =>
      let updated := mergePlatform existing u in
      (Some updated, set_platforms (JsMap.set id updated (platforms s)) s)
  end.

Definition deletePlatform (id : Z) (s : MemStorage) : bool * MemStorage :=
  let (b, m) := JsMap.delete id (platforms s) in (b, set_platforms m s).

(** *** Platform accounts *)
Definition getPlatformAccounts (s : MemStorage) : list PlatformAccount :=
  JsMap.values (platformAccounts s).

Definition getPlatformAccount (id : Z) (s : MemStorage)
  : option PlatformAccount :=
  JsMap.get id (platformAccounts s).

Definition getPlatformAccountsByPlatform (pid : Z) (s : MemStorage)
  : list PlatformAccount :=
  filter (fun account => account_platformId account =? pid)
         (JsMap.values (platformAccounts s)).

Definition createPlatformAccount (i : InsertPlatformAccount) (s : MemStorage)
  : PlatformAccount * MemStorage :=
  let id := accountId s in
  let account :=
    {| account_id := id;
       account_name := ins_account_name i;
       account_username := ins_account_username i;
       account_active :=
         match ins_account_active i with Some b => b | None => true end;
       account_platformId := ins_account_platformId i;
       account_accessToken := or_null_str (ins_account_accessToken i);
       account_refreshToken := or_null_str (ins_account_refreshToken i);
       (* [tokenExpiry || null]: a Date object is always truthy *)
       account_tokenExpiry := ins_account_tokenExpiry i;
       account_followerCount := or_null_num (ins_account_followerCount i);
       account_metadata := or_empty_obj (ins_account_metadata i) |} in
  (account,
   set_platformAccounts (JsMap.set id account (platformAccounts s))
                        (set_accountId (id + 1) s)).

Definition updatePlatformAccount (id : Z) (u : PartialPlatformAccount)
  (s : MemStorage) : option PlatformAccount * MemStorage :=
  match JsMap.get id (platformAccounts s) with
  | None => (None, s)
  | Some existing =>
      let updated := mergePlatformAccount existing u in
      (Some updated,
       set_platformAccounts (JsMap.set id updated (platformAccounts s)) s)
  end.

Definition deletePlatformAccount (id : Z) (s : MemStorage)
  : bool * MemStorage :=
  let (b, m) := JsMap.delete id (platformAccounts s) in
  (b, set_platformAccounts m s).

(** *** Content *)
Definition getContents (s : MemStorage) : list Content :=
  JsMap.values (contents s).

Definition getContent (id : Z) (s : MemStorage) : option Content :=
  JsMap.get id (contents s).

Definition getRecentContents (limit : Z) (s : MemStorage) : list Content :=
  JsArray.slice0 limit
    (JsArray.sort (fun a b => content_createdAt b - content_createdAt a)
       (JsMap.values (contents s))).

Definition createContent (now : Z) (i : InsertContent) (s : MemStorage)
  : Content * MemStorage :=
  let id := contentId s in
  let content :=
    {| content_id := id;
       content_title := ins_content_title i;
       content_contentType := ins_content_contentType i;
       content_status := or_default_str (ins_content_status i) "draft";
       content_metadata := or_empty_obj (ins_content_metadata i);
       content_description := or_null_str (ins_content_description i);
       content_filePath := or_null_str (ins_content_filePath i);
       content_thumbnailPath := or_null_str (ins_content_thumbnailPath i);
       content_createdAt := now |} in
  (content,
   set_contents (JsMap.set id content (contents s))
                (set_contentId (id + 1) s)).

Definition updateContent (id : Z) (u : PartialContent) (s : MemStorage)
  : option Content * MemStorage :=
  match JsMap.get id (contents s) with
  | None => (None, s)
  | Some existing =>
      let updated := mergeContent existing u in
      (Some updated, set_contents (JsMap.set id updated (contents s)) s)
  end.

Definition deleteContent (id : Z) (s : MemStorage) : bool * MemStorage :=
  let (b, m) := JsMap.delete id (contents s) in (b, set_contents m s).

(** *** Scheduled posts *)
Definition getScheduledPosts (s : MemStorage) : list ScheduledPost :=
  JsMap.values (scheduledPosts s).

Definition getScheduledPost (id : Z) (s : MemStorage)
  : option ScheduledPost :=
  JsMap.get id (scheduledPosts s).

Definition getUpcomingScheduledPosts (now : Z) (limit : Z) (s : MemStorage)
  : list ScheduledPost :=
  JsArray.slice0 limit
    (JsArray.sort (fun a b => post_scheduledTime a - post_scheduledTime b)
       (filter (fun post => post_scheduledTime post >? now)
               (JsMap.values (scheduledPosts s)))).

Definition createScheduledPost (i : InsertScheduledPost) (s : MemStorage)
  : ScheduledPost * MemStorage :=
  let id := postId s in
  let post :=
    {| post_id := id;
       post_contentId := ins_post_contentId i;
       post_platformAccountId := ins_post_platformAccountId i;
       post_scheduledTime := ins_post_scheduledTime i;
       post_status := or_default_str (ins_post_status i) "pending";
       post_postId := None;
       post_error := None |} in
  (post,
   set_scheduledPosts (JsMap.set id post (scheduledPosts s))
                      (set_postId (id + 1) s)).

Definition updateScheduledPost (id : Z) (u : PartialScheduledPost)
  (s : MemStorage) : option ScheduledPost * MemStorage :=
  match JsMap.get id (scheduledPosts s) with
  | None => (None, s)
  | Some existing =>
      let updated := mergeScheduledPost existing u in
      (Some updated,
       set_scheduledPosts (JsMap.set id updated (scheduledPosts s)) s)
  end.

Definition deleteScheduledPost (id : Z) (s : MemStorage)
  : bool * MemStorage :=
  let (b, m) := JsMap.delete id (scheduledPosts s) in
  (b, set_scheduledPosts m s).

(** *** Trending topics *)
Definition getTrendingTopics (s : MemStorage) : list TrendingTopic :=
  JsMap.values (trendingTopics s).

Definition getTrendingTopic (id : Z) (s : MemStorage)
  : option TrendingTopic :=
  JsMap.get id (trendingTopics s).

Definition getTopTrendingTopics (limit : Z) (s : MemStorage)
  : list TrendingTopic :=
  JsArray.slice0 limit
    (JsArray.sort (fun a b => topic_trendScore b - topic_trendScore a)
       (JsMap.values (trendingTopics s))).

Definition createTrendingTopic (now : Z) (i : InsertTrendingTopic)
  (s : MemStorage) : TrendingTopic * MemStorage :=
  let id := topicId s in
  let topic :=
    {| topic_id := id;
       topic_topic := ins_topic_topic i;
       topic_description := or_null_str (ins_topic_description i);
       topic_category := ins_topic_category i;
       topic_trendScore := ins_topic_trendScore i;
       topic_discoveredAt := now |} in
  (topic,
   set_trendingTopics (JsMap.set id topic (trendingTopics s))
                      (set_topicId (id + 1) s)).

Definition updateTrendingTopic (id : Z) (u : PartialTrendingTopic)
  (s : MemStorage) : option TrendingTopic * MemStorage :=
  match JsMap.get id (trendingTopics s) with
  | None => (None, s)
  | Some existing =>
      let updated := mergeTrendingTopic existing u in
      (Some updated,
       set_trendingTopics (JsMap.set id updated (trendingTopics s)) s)
  end.

Definition deleteTrendingTopic (id : Z) (s : MemStorage)
  : bool * MemStorage :=
  let (b, m) := JsMap.delete id (trendingTopics s) in
  (b, set_trendingTopics m s).

(** ** The constructor and [seedInitialData] *)

(** The state after the field initialisers of the constructor: empty maps,
    every counter at 1. *)
Definition emptyStorage : MemStorage :=
  {| users := JsMap.empty; scripts := JsMap.empty;
     aiConfigs := JsMap.empty; platforms := JsMap.empty;
     platformAccounts := JsMap.empty; contents := JsMap.empty;
     scheduledPosts := JsMap.empty; trendingTopics := JsMap.empty;
     userId := 1; scriptId := 1; aiConfigId := 1; platformId := 1;
     accountId := 1; contentId := 1; postId := 1; topicId := 1 |}.

Definition hour_ms : Z := 60 * 60 * 1000.
Definition day_ms : Z := 24 * hour_ms.

(** [seedInitialData]: rows are written directly, each taking its id from
    the counter of its table ([id: this.xId++]).  The three seeded
    scheduled posts take their [contentId] from [this.contentId++] as
    well, so the content counter ends at 7 with three contents stored.
    [now] is the clock reading during construction. *)
Definition seedInitialData (now : Z) (s : MemStorage) : MemStorage :=
  (* AI configs *)
  let llama3Config :=
    {| aiConfig_id := aiConfigId s; aiConfig_name := "Llama 3";
       aiConfig_modelType := "llm"; aiConfig_modelName := "llama3";
       aiConfig_active := true;
       aiConfig_settings :=
         JObj [("maxTokens", JInt 2048); ("temperature", JNum (7 # 10));
               ("topP", JNum (9 # 10))];
       aiConfig_capabilities :=
         JObj [("scriptGeneration", JBool true);
               ("contentCreation", JBool true);
               ("trendAnalysis", JBool true);
               ("summarization", JBool true)];
       aiConfig_lastUpdated := now;
       aiConfig_downloadStatus := Some "not_downloaded" |} in
  let s := set_aiConfigId (aiConfigId s + 1) s in
  let s := set_aiConfigs
             (JsMap.set (aiConfig_id llama3Config) llama3Config (aiConfigs s))
             s in
  let ttsConfig :=
    {| aiConfig_id := aiConfigId s; aiConfig_name := "Local TTS";
       aiConfig_modelType := "tts"; aiConfig_modelName := "professional-male";
       aiConfig_active := true;
       aiConfig_settings :=
         JObj [("speed", JInt 1); ("format", JStr "mp3")];
       aiConfig_capabilities :=
         JObj [("voiceGeneration", JBool true); ("scriptToAudio", JBool true);
               ("voiceStyles",
                JArr [JStr "professional"; JStr "casual"; JStr "energetic"])];
       aiConfig_lastUpdated := now;
       aiConfig_downloadStatus := Some "available" |} in
  let s := set_aiConfigId (aiConfigId s + 1) s in
  let s := set_aiConfigs
             (JsMap.set (aiConfig_id ttsConfig) ttsConfig (aiConfigs s)) s in
  let imageConfig :=
    {| aiConfig_id := aiConfigId s; aiConfig_name := "SVG Generator";
       aiConfig_modelType := "image"; aiConfig_modelName := "svg-generator";
       aiConfig_active := true;
       aiConfig_settings :=
         JObj [("size", JStr "1024x1024"); ("style", JStr "artistic")];
       aiConfig_capabilities :=
         JObj [("thumbnailGeneration", JBool true);
               ("imageGeneration", JBool true);
               ("supportedSizes",
                JArr [JStr "512x512"; JStr "1024x1024"; JStr "1280x720"])];
       aiConfig_lastUpdated := now;
       aiConfig_downloadStatus := Some "available" |} in
  let s := set_aiConfigId (aiConfigId s + 1) s in
  let s := set_aiConfigs
             (JsMap.set (aiConfig_id imageConfig) imageConfig (aiConfigs s))
             s in
  (* scripts *)
  let videoScript :=
    {| script_id := scriptId s;
       script_title := "Creating Zero-Cost Content with AI";
       script_topic := "AI content creation"; script_format := "video";
       script_content := "# INTRODUCTION

Welcome to this guide on creating content with zero-cost AI tools. Today we'll explore how you can leverage free open-source models to create high-quality content without any subscription fees.

# SECTION 1: LOCAL LLMS

Let's start with text generation. There are several open-source language models that can run on consumer hardware with surprisingly good results. These include models like Llama 3 and Mistral, which can be downloaded and run locally.

# SECTION 2: TEXT-TO-SPEECH

Next, let's look at converting your scripts to audio. Open-source TTS systems have made remarkable progress, offering near commercial-quality voices without any API costs.

# SECTION 3: IMAGE GENERATION

For thumbnails and visuals, local Stable Diffusion or even SVG generators can create eye-catching graphics completely free.

# CONCLUSION

By combining these tools, you can build a complete content creation pipeline that operates entirely on your own hardware, with zero ongoing costs. Thanks for watching!";
       script_duration := Some 360; script_tone := Some "educational";
       script_targetAudience := Some "content creators";
       script_createdAt := now - 2 * day_ms;
       script_audioPath := None; script_status := "draft" |} in
  let s := set_scriptId (scriptId s + 1) s in
  let s := set_scripts
             (JsMap.set (script_id videoScript) videoScript (scripts s)) s in
  let shortScript :=
    {| script_id := scriptId s;
       script_title := "5 AI Tools Every Creator Needs";
       script_topic := "AI tools"; script_format := "short";
       script_content := "Did you know you can create professional content without spending a dime? Here are 5 free AI tools that every creator should be using right now:

1. Open source language models for scriptwriting
2. Free text-to-speech for voiceovers
3. Local image generation for thumbnails
4. Open source video editors
5. Free automation tools for posting

The best part? All of these can run on your own computer with zero subscription fees. Follow for more tips on building your content creation pipeline without breaking the bank!";
       script_duration := Some 60; script_tone := Some "enthusiastic";
       script_targetAudience := Some "social media creators";
       script_createdAt := now - 1 * day_ms;
       script_audioPath := Some "/content/audio/5-ai-tools.mp3";
       script_status := "finalized" |} in
  let s := set_scriptId (scriptId s + 1) s in
  let s := set_scripts
             (JsMap.set (script_id shortScript) shortScript (scripts s)) s in
  (* platforms *)
  let youtubePlatform :=
    {| platform_id := platformId s; platform_name := "YouTube";
       platform_icon := "smart_display"; platform_active := true |} in
  let s := set_platformId (platformId s + 1) s in
  let s := set_platforms
             (JsMap.set (platform_id youtubePlatform) youtubePlatform
                        (platforms s)) s in
  let instagramPlatform :=
    {| platform_id := platformId s; platform_name := "Instagram";
       platform_icon := "photo_camera"; platform_active := true |} in
  let s := set_platformId (platformId s + 1) s in
  let s := set_platforms
             (JsMap.set (platform_id instagramPlatform) instagramPlatform
                        (platforms s)) s in
  let twitterPlatform :=
    {| platform_id := platformId s; platform_name := "Twitter";
       platform_icon := "tag"; platform_active := true |} in
  let s := set_platformId (platformId s + 1) s in
  let s := set_platforms
             (JsMap.set (platform_id twitterPlatform) twitterPlatform
                        (platforms s)) s in
  (* platform accounts *)
  let youtubeAccount :=
    {| account_id := accountId s;
       account_platformId := platform_id youtubePlatform;
       account_name := "Tech Channel"; account_username := "TechChannel";
       account_followerCount := Some 15200; account_active := true;
       account_accessToken := None; account_refreshToken := None;
       account_tokenExpiry := None;
       account_metadata := JObj [("subscriberCount", JInt 15200)] |} in
  let s := set_accountId (accountId s + 1) s in
  let s := set_platformAccounts
             (JsMap.set (account_id youtubeAccount) youtubeAccount
                        (platformAccounts s)) s in
  let instagramAccount :=
    {| account_id := accountId s;
       account_platformId := platform_id instagramPlatform;
       account_name := "@techinsider"; account_username := "techinsider";
       account_followerCount := Some 8700; account_active := true;
       account_accessToken := None; account_refreshToken := None;
       account_tokenExpiry := None;
       account_metadata := JObj [("followersCount", JInt 8700)] |} in
  let s := set_accountId (accountId s + 1) s in
  let s := set_platformAccounts
             (JsMap.set (account_id instagramAccount) instagramAccount
                        (platformAccounts s)) s in
  let twitterAccount :=
    {| account_id := accountId s;
       account_platformId := platform_id twitterPlatform;
       account_name := "@TechDaily"; account_username := "TechDaily";
       account_followerCount := Some 12400; account_active := true;
       account_accessToken := None; account_refreshToken := None;
       account_tokenExpiry := None;
       account_metadata := JObj [("followersCount", JInt 12400)] |} in
  let s := set_accountId (accountId s + 1) s in
  let s := set_platformAccounts
             (JsMap.set (account_id twitterAccount) twitterAccount
                        (platformAccounts s)) s in
  (* content *)
  let content1 :=
    {| content_id := contentId s;
       content_title := "Top 10 AI Tools for Content Creators in 2023";
       content_description :=
         Some "A comprehensive guide to the best AI tools for content creators in 2023.";
       content_contentType := "video"; content_status := "published";
       content_filePath := Some "/content/videos/top-10-ai-tools.mp4";
       content_thumbnailPath := Some "/content/thumbnails/top-10-ai-tools.jpg";
       content_metadata :=
         JObj [("duration", JStr "12:45"); ("views", JInt 2400);
               ("likes", JInt 187)];
       content_createdAt := now - 3 * day_ms |} in
  let s := set_contentId (contentId s + 1) s in
  let s := set_contents
             (JsMap.set (content_id content1) content1 (contents s)) s in
  let content2 :=
    {| content_id := contentId s;
       content_title := "The Future of Self-Hosted AI Applications";
       content_description :=
         Some "Exploring how AI can be used in self-hosted applications.";
       content_contentType := "image"; content_status := "published";
       content_filePath := Some "/content/images/self-hosted-ai.jpg";
       content_thumbnailPath := Some "/content/thumbnails/self-hosted-ai.jpg";
       content_metadata := JObj [("likes", JInt 845); ("comments", JInt 32)];
       content_createdAt := now - 5 * day_ms |} in
  let s := set_contentId (contentId s + 1) s in
  let s := set_contents
             (JsMap.set (content_id content2) content2 (contents s)) s in
  let content3 :=
    {| content_id := contentId s;
       content_title := "Building a Zero-Cost Content Creation Pipeline";
       content_description :=
         Some "How to build a content creation pipeline with zero ongoing costs.";
       content_contentType := "text"; content_status := "published";
       content_filePath := None;
       content_thumbnailPath :=
         Some "/content/thumbnails/zero-cost-pipeline.jpg";
       content_metadata := JObj [("retweets", JInt 126); ("likes", JInt 248)];
       content_createdAt := now - 7 * day_ms |} in
  let s := set_contentId (contentId s + 1) s in
  let s := set_contents
             (JsMap.set (content_id content3) content3 (contents s)) s in
  (* scheduled posts *)
  let scheduledPost1 :=
    {| post_id := postId s; post_contentId := contentId s;
       post_platformAccountId := account_id twitterAccount;
       post_scheduledTime := now + 2 * hour_ms; post_status := "pending";
       post_postId := None; post_error := None |} in
  let s := set_contentId (contentId s + 1) (set_postId (postId s + 1) s) in
  let s := set_scheduledPosts
             (JsMap.set (post_id scheduledPost1) scheduledPost1
                        (scheduledPosts s)) s in
  let scheduledPost2 :=
    {| post_id := postId s; post_contentId := contentId s;
       post_platformAccountId := account_id youtubeAccount;
       post_scheduledTime := now + 24 * hour_ms; post_status := "pending";
       post_postId := None; post_error := None |} in
  let s := set_contentId (contentId s + 1) (set_postId (postId s + 1) s) in
  let s := set_scheduledPosts
             (JsMap.set (post_id scheduledPost2) scheduledPost2
                        (scheduledPosts s)) s in
  let scheduledPost3 :=
    {| post_id := postId s; post_contentId := contentId s;
       post_platformAccountId := account_id instagramAccount;
       post_scheduledTime := now + 5 * day_ms; post_status := "draft";
       post_postId := None; post_error := None |} in
  let s := set_contentId (contentId s + 1) (set_postId (postId s + 1) s) in
  let s := set_scheduledPosts
             (JsMap.set (post_id scheduledPost3) scheduledPost3
                        (scheduledPosts s)) s in
  (* trending topics *)
  let topic1 :=
    {| topic_id := topicId s; topic_topic := "Open Source AI Models";
       topic_category := "Tech";
       topic_description :=
         Some "Rising interest in locally hosted, free AI tools for content creators and developers.";
       topic_trendScore := 78; topic_discoveredAt := now |} in
  let s := set_topicId (topicId s + 1) s in
  let s := set_trendingTopics
             (JsMap.set (topic_id topic1) topic1 (trendingTopics s)) s in
  let topic2 :=
    {| topic_id := topicId s; topic_topic := "Self-Hosted Content Creation";
       topic_category := "Productivity";
       topic_description :=
         Some "Growing demand for subscription-free tools that work offline for creators.";
       topic_trendScore := 65; topic_discoveredAt := now |} in
  let s := set_topicId (topicId s + 1) s in
  let s := set_trendingTopics
             (JsMap.set (topic_id topic2) topic2 (trendingTopics s)) s in
  let topic3 :=
    {| topic_id := topicId s; topic_topic := "Voice Generation Technology";
       topic_category := "AI";
       topic_description :=
         Some "New advancements in high-quality offline voice synthesis for content creators.";
       topic_trendScore := 92; topic_discoveredAt := now |} in
  let s := set_topicId (topicId s + 1) s in
  set_trendingTopics
    (JsMap.set (topic_id topic3) topic3 (trendingTopics s)) s.

(** [new MemStorage()] *)
Definition newMemStorage (now : Z) : MemStorage :=
  seedInitialData now emptyStorage.

(** The seeding is evaluated by the virtual machine only. *)
#[global] Opaque seedInitialData.

(* ===================================================================== *)
(** * Request validation (zod)                                            *)
(* ===================================================================== *)

(** What a handler's [try] block can throw: a [ZodError] from
    [schema.parse] (the list names the offending keys) or any other
    [Error] with its message. *)
Inductive Thrown : Type :=
| ZodError (issues : list string)
| JsError (message : string).

(** One key of a [z.object]: the parser of the value found under the key
    ([None] when the key is absent) either yields the parsed field or
    reports an issue. *)
Definition zod_field (A : Type) := option Json -> option A.

(** [z.number().optional()] *)
Definition z_number_optional : zod_field (option Q) := fun v =>
  match v with
  | None => Some None
  | Some (JNum q) => Some (Some q)
  | Some _ => None
  end.

(** [z.boolean().optional()] *)
Definition z_boolean_optional : zod_field (option bool) := fun v =>
  match v with
  | None => Some None
  | Some (JBool b) => Some (Some b)
  | Some _ => None
  end.

(** [z.enum(values).optional()] *)
Definition z_enum_optional (values : list string)
  : zod_field (option string) := fun v =>
  match v with
  | None => Some None
  | Some (JStr s) =>
      if existsb (String.eqb s) values then Some (Some s) else None
  | Some _ => None
  end.

(** [z.string()] of a [notNull] text column. *)
Definition z_string : zod_field string := fun v =>
  match v with
  | Some (JStr s) => Some s
  | _ => None
  end.

(** [z.string().nullable().optional()] of a nullable text column;
    [Some None] is an explicit [null]. *)
Definition z_string_nullish : zod_field (option (option string)) := fun v =>
  match v with
  | None => Some None
  | Some JNull => Some (Some None)
  | Some (JStr s) => Some (Some (Some s))
  | Some _ => None
  end.

(** The schema that [createInsertSchema] (drizzle-zod) derives for a
    [notNull] [integer] column: [z.number().int()], to which recent
    releases add the 32-bit range of the column type; the range is kept
    here.  [shared/schema.ts] attaches no other bound to the column. *)
Definition z_integer : zod_field Z := fun v =>
  match v with
  | Some (JNum q) =>
      match Qint q with
      | Some n =>
          if (-2147483648 <=? n) && (n <=? 2147483647) then Some n else None
      | None => None
      end
  | _ => None
  end.

(** [schema.partial()] on one key: the key may be absent. *)
Definition z_partial {A : Type} (f : zod_field A) : zod_field (option A) :=
  fun v => match v with
           | None => Some None
           | Some _ => option_map Some (f v)
           end.

(** Collect the issues of the keys that failed. *)
Definition issue {A : Type} (key : string) (r : option A) : list string :=
  match r with Some _ => [] | None => [key] end.

(** ** [requestSchema] of [POST /create-content] *)
Record CreateContentRequest := {
  req_topicId : option Q;
  req_platformId : option Q;
  req_contentType : option string;
  req_scheduleImmediately : option bool }.

Definition requestSchema_parse (body : Json)
  : Thrown + CreateContentRequest :=
  match body with
  | JObj props =>
      let topicId := z_number_optional (assoc "topicId" props) in
      let platformId := z_number_optional (assoc "platformId" props) in
      let contentType :=
        z_enum_optional ["video"; "image"; "text"]
                        (assoc "contentType" props) in
      let scheduleImmediately :=
        z_boolean_optional (assoc "scheduleImmediately" props) in
      match topicId, platformId, contentType, scheduleImmediately with
      | Some t, Some p, Some c, Some i =>
          inr {| req_topicId := t; req_platformId := p;
                 req_contentType := c; req_scheduleImmediately := i |}
      | _, _, _, _ =>
          inl (ZodError (issue "topicId" topicId
                         ++ issue "platformId" platformId
                         ++ issue "contentType" contentType
                         ++ issue "scheduleImmediately" scheduleImmediately))
      end
  | _ => inl (ZodError [""])
  end.

(** ** [insertTrendingTopicSchema] and its [.partial()] *)
Definition insertTrendingTopicSchema_parse (body : Json)
  : Thrown + InsertTrendingTopic :=
  match body with
  | JObj props =>
      let topic := z_string (assoc "topic" props) in
      let category := z_string (assoc "category" props) in
      let description := z_string_nullish (assoc "description" props) in
      let trendScore := z_integer (assoc "trendScore" props) in
      match topic, category, description, trendScore with
      | Some t, Some c, Some d, Some n =>
          inr {| ins_topic_topic := t; ins_topic_category := c;
                 ins_topic_description :=
                   match d with Some (Some x) => Some x | _ => None end;
                 ins_topic_trendScore := n |}
      | _, _, _, _ =>
          inl (ZodError (issue "topic" topic ++ issue "category" category
                         ++ issue "description" description
                         ++ issue "trendScore" trendScore))
      end
  | _ => inl (ZodError [""])
  end.

Definition insertTrendingTopicSchema_partial_parse (body : Json)
  : Thrown + PartialTrendingTopic :=
  match body with
  | JObj props =>
      let topic := z_partial z_string (assoc "topic" props) in
      let category := z_partial z_string (assoc "category" props) in
      let description := z_string_nullish (assoc "description" props) in
      let trendScore := z_partial z_integer (assoc "trendScore" props) in
      match topic, category, description, trendScore with
      | Some t, Some c, Some d, Some n =>
          inr {| upd_topic_topic := t; upd_topic_category := c;
                 upd_topic_description := d; upd_topic_trendScore := n |}
      | _, _, _, _ =>
          inl (ZodError (issue "topic" topic ++ issue "category" category
                         ++ issue "description" description
                         ++ issue "trendScore" trendScore))
      end
  | _ => inl (ZodError [""])
  end.

(* ===================================================================== *)
(** * Handlers: the world they run in                                     *)
(* ===================================================================== *)

(** A handler runs against the singleton store and the wall clock. *)
Record World := {
  storage : MemStorage;
  clock : Z }.

(** An awaited promise either resolves or rejects. *)
Inductive Outcome (A : Type) : Type :=
| Resolved (a : A)
| Rejected (e : Thrown).
Arguments Resolved {A} a.
Arguments Rejected {A} e.

(** Asynchronous code: a state-and-exception computation.  The world
    reached when a promise rejects is kept: nothing is rolled back. *)
Definition Async (A : Type) : Type := World -> Outcome A * World.

Definition ret {A : Type} (a : A) : Async A := fun w => (Resolved a, w).

Definition bind {A B : Type} (m : Async A) (k : A -> Async B) : Async B :=
  fun w => match m w with
           | (Resolved a, w') => k a w'
           | (Rejected e, w') => (Rejected e, w')
           end.

Declare Scope async_scope.
Delimit Scope async_scope with async.
Notation "x <- m ;; k" := (bind m (fun x => k))
  (at level 61, m at next level, right associativity) : async_scope.
Local Open Scope async_scope.

(** [throw e] *)
Definition throw {A : Type} (e : Thrown) : Async A :=
  fun w => (Rejected e, w).

(** [await storage.get...(...)] *)
Definition read {A : Type} (f : MemStorage -> A) : Async A :=
  fun w => (Resolved (f (storage w)), w).

(** [await storage.create...(...)] and the other mutating methods *)
Definition call {A : Type} (f : MemStorage -> A * MemStorage) : Async A :=
  fun w => let (a, s) := f (storage w) in
           (Resolved a, {| storage := s; clock := clock w |}).

(** [Date.now()] *)
Definition dateNow : Async Z := fun w => (Resolved (clock w), w).

(** What a call into a generation service does, as seen by its caller:
    the promise settles after [elapsed] milliseconds. *)
Record Awaited (A : Type) := {
  elapsed : Z;
  settled : Outcome A }.

Definition await {A : Type} (p : Awaited A) : Async A :=
  fun w => (settled p,
            {| storage := storage w; clock := clock w + elapsed p |}).

(** [schema.parse(req.body)] *)
Definition parse {A : Type} (r : Thrown + A) : Async A :=
  match r with
  | inl e => throw e
  | inr a => ret a
  end.

(** ** Generation services as seen from the pipeline

    The services keep counters and read the clock to name their files;
    the handler calls each of them at most once per request, so for one
    run a service is the function from its arguments to what the call
    does.  File locations keep the shape the services give them: a fixed
    output directory followed by the generated file name. *)

Record ThumbnailResult := {
  thumb_file : string;
  thumb_prompt : string;
  thumb_size : string;
  thumb_style : string }.

(** [`${this.thumbnailDir}/${filename}`] *)
Definition thumbnailDir : string := "/content/thumbnails".
Definition thumb_thumbnailPath (r : ThumbnailResult) : string :=
  (thumbnailDir ++ "/" ++ thumb_file r)%string.

Record ImageGenerationParams := {
  img_param_prompt : string;
  img_param_size : string;
  img_param_style : string }.

Record ImageResult := {
  image_file : string;
  image_prompt : string;
  image_size : string;
  image_style : string;
  image_format : string;
  image_generationTime : Q }.

(** [`${this.outputDir}/${filename}`] in [LocalImageGenerator] *)
Definition imageOutputDir : string := "/content/images".
Definition image_imagePath (r : ImageResult) : string :=
  (imageOutputDir ++ "/" ++ image_file r)%string.

Record VideoRequest := {
  vreq_script : string;
  vreq_title : string;
  vreq_resolution : string;
  vreq_style : string;
  vreq_thumbnailPrompt : string }.

Record VideoResponse := {
  video_file : string;
  video_thumbnailFile : string;
  video_duration : Z;
  video_format : string;
  video_resolution : string }.

(** [`${this.outputPath}/${filename}`] in [VideoGenerator] *)
Definition videoOutputPath : string := "/content/videos".
Definition video_videoPath (r : VideoResponse) : string :=
  (videoOutputPath ++ "/" ++ video_file r)%string.
(** [thumbnail.thumbnailPath] of the thumbnail made inside [generateVideo] *)
Definition video_thumbnailPath (r : VideoResponse) : string :=
  (thumbnailDir ++ "/" ++ video_thumbnailFile r)%string.

Record Services := {
  (** [localLLM.generateScript(topic, format, durationMinutes, tone,
      audience)] *)
  generateScript : string -> string -> Z -> string -> string
                   -> Awaited string;
  (** [localLLM.generateContent(topic, contentType, tone, audience)] *)
  generateContent : string -> string -> string -> string -> Awaited string;
  (** [localImageGenerator.generateThumbnail(topic)] *)
  generateThumbnail : string -> Awaited ThumbnailResult;
  (** [localImageGenerator.generateImage(params)] *)
  generateImage : ImageGenerationParams -> Awaited ImageResult;
  (** [videoGenerator.generateVideo(request)] *)
  generateVideo : VideoRequest -> Awaited VideoResponse }.

(** ** HTTP responses *)
Inductive ResponseBody : Type :=
| ErrorBody (error : string)
| ZodErrorBody (errors : list string)
| VideoCreated (topic : TrendingTopic) (script : Script) (content : Content)
    (video : VideoResponse) (scheduledPost : option ScheduledPost)
| ImageCreated (topic : TrendingTopic) (content : Content)
    (image : ImageResult) (scheduledPost : option ScheduledPost)
| TextCreated (topic : TrendingTopic) (content : Content) (text : string)
    (scheduledPost : option ScheduledPost)
| TopicBody (topic : TrendingTopic)
| MessageBody (message : string).

Record Response := {
  status : Z;
  body : ResponseBody }.

Definition json (code : Z) (b : ResponseBody) : Response :=
  {| status := code; body := b |}.

(* ===================================================================== *)
(** * [POST /api/automation/create-content]                              *)
(* ===================================================================== *)

(** [storage.getTrendingTopic(request.topicId)]: a [Map] lookup with a
    number that is not an integer finds nothing. *)
Definition getTrendingTopicByNumber (q : Q) (s : MemStorage)
  : option TrendingTopic :=
  match Qint q with
  | Some id => getTrendingTopic id s
  | None => None
  end.

(** [storage.getPlatformAccountsByPlatform(request.platformId)]: no
    stored [platformId] is [===] to a number that is not an integer. *)
Definition getPlatformAccountsByPlatformNumber (q : Q) (s : MemStorage)
  : list PlatformAccount :=
  match Qint q with
  | Some pid => getPlatformAccountsByPlatform pid s
  | None => []
  end.

(** "Get a trending topic if not specified": either the early [404]
    response or the topic to generate for. *)
Definition resolveTopic (request : CreateContentRequest)
  : Async (Response + TrendingTopic) :=
  if truthy_num (req_topicId request) then
    topic <- read (match req_topicId request with
                   | Some q => getTrendingTopicByNumber q
                   | None => fun _ => None
                   end) ;;
    match topic with
    | None => ret (inl (json 404 (ErrorBody "Topic not found")))
    | Some t => ret (inr t)
    end
  else
    topics <- read (getTopTrendingTopics 1) ;;
    match topics with
    | [] => ret (inl (json 404 (ErrorBody "No trending topics available")))
    | t :: _ => ret (inr t)
    end.

(** The object literal passed to [storage.createScheduledPost]. *)
Definition scheduledPostInput (content : Content) (account : PlatformAccount)
  (now : Z) : InsertScheduledPost :=
  {| ins_post_contentId := content_id content;
     ins_post_platformAccountId := account_id account;
     ins_post_scheduledTime := now + 60 * 60 * 1000;
     ins_post_status := Some "pending" |}.

(** "Optionally schedule the post": the block that each of the three
    branches repeats verbatim. *)
Definition schedulePost (request : CreateContentRequest) (content : Content)
  : Async (option ScheduledPost) :=
  if truthy_bool (req_scheduleImmediately request)
     && truthy_num (req_platformId request) then
    accounts <- read (match req_platformId request with
                      | Some q => getPlatformAccountsByPlatformNumber q
                      | None => fun _ => []
                      end) ;;
    match accounts with
    | account :: _ =>
        now <- dateNow ;;
        post <- call (createScheduledPost
                        (scheduledPostInput content account now)) ;;
        ret (Some post)
    | [] => ret None
    end
  else ret None.

(** [new Date()] inside a store method called from a handler. *)
Definition callAt {A : Type} (f : Z -> MemStorage -> A * MemStorage)
  : Async A :=
  now <- dateNow ;; call (f now).

(** The object literals of the video branch. *)
Definition videoScriptInput (topic : TrendingTopic) (scriptContent : string)
  : InsertScript :=
  {| ins_script_title := ("Video about " ++ topic_topic topic)%string;
     ins_script_topic := topic_topic topic;
     ins_script_format := "video";
     ins_script_content := scriptContent;
     ins_script_duration := Some 300;
     ins_script_tone := Some "educational";
     ins_script_targetAudience := Some "general";
     ins_script_audioPath := None;
     ins_script_status := Some "draft" |}.

Definition videoRequest (topic : TrendingTopic) (scriptContent : string)
  (script : Script) : VideoRequest :=
  {| vreq_script := scriptContent;
     vreq_title := script_title script;
     vreq_resolution := "720p";
     vreq_style := "dynamic";
     vreq_thumbnailPrompt :=
       ("Thumbnail for video about " ++ topic_topic topic)%string |}.

Definition videoContentInput (topic : TrendingTopic) (script : Script)
  (videoResult : VideoResponse) : InsertContent :=
  {| ins_content_title := script_title script;
     ins_content_description :=
       Some ("Auto-generated video about " ++ topic_topic topic)%string;
     ins_content_contentType := "video";
     ins_content_status := Some "ready";
     ins_content_filePath := Some (video_videoPath videoResult);
     ins_content_thumbnailPath := Some (video_thumbnailPath videoResult);
     ins_content_metadata := Some (JObj
       [("duration", JInt (video_duration videoResult));
        ("format", JStr (video_format videoResult));
        ("resolution", JStr (video_resolution videoResult));
        ("scriptId", JInt (script_id script));
        ("topic", JStr (topic_topic topic));
        ("automated", JBool true)]) |}.

Definition videoBranch (svc : Services) (request : CreateContentRequest)
  (topic : TrendingTopic) : Async Response :=
  scriptContent <- await (generateScript svc (topic_topic topic) "video" 5
                                         "educational" "general") ;;
  script <- callAt (fun now =>
              createScript now (videoScriptInput topic scriptContent)) ;;
  thumbnail <- await (generateThumbnail svc (topic_topic topic)) ;;
  videoResult <- await (generateVideo svc
                          (videoRequest topic scriptContent script)) ;;
  content <- callAt (fun now =>
               createContent now
                 (videoContentInput topic script videoResult)) ;;
  scheduledPost <- schedulePost request content ;;
  ret (json 201 (VideoCreated topic script content videoResult scheduledPost)).

(** The prompt and the object literals of the image branch. *)
Definition imagePrompt (topic : TrendingTopic) : string :=
  ("Create a visually appealing image about " ++ topic_topic topic
   ++ " that would be perfect for social media")%string.

Definition imageParams (topic : TrendingTopic) : ImageGenerationParams :=
  {| img_param_prompt := imagePrompt topic;
     img_param_size := "1024x1024";
     img_param_style := "artistic" |}.

Definition imageContentInput (topic : TrendingTopic) (image : ImageResult)
  : InsertContent :=
  {| ins_content_title := ("Image about " ++ topic_topic topic)%string;
     ins_content_description :=
       Some (or_default_str (topic_description topic)
               ("An image about " ++ topic_topic topic)%string);
     ins_content_contentType := "image";
     ins_content_status := Some "ready";
     ins_content_filePath := Some (image_imagePath image);
     ins_content_thumbnailPath := Some (image_imagePath image);
     ins_content_metadata := Some (JObj
       [("prompt", JStr (imagePrompt topic));
        ("style", JStr "artistic");
        ("size", JStr (image_size image));
        ("generationTime", JNum (image_generationTime image));
        ("topic", JStr (topic_topic topic));
        ("automated", JBool true)]) |}.

Definition imageBranch (svc : Services) (request : CreateContentRequest)
  (topic : TrendingTopic) : Async Response :=
  image <- await (generateImage svc (imageParams topic)) ;;
  content <- callAt (fun now =>
               createContent now (imageContentInput topic image)) ;;
  scheduledPost <- schedulePost request content ;;
  ret (json 201 (ImageCreated topic content image scheduledPost)).

(** The object literal of the text branch. *)
Definition textContentInput (topic : TrendingTopic) (postContent : string)
  : InsertContent :=
  {| ins_content_title := ("Post about " ++ topic_topic topic)%string;
     ins_content_description := Some postContent;
     ins_content_contentType := "text";
     ins_content_status := Some "ready";
     ins_content_filePath := None;
     ins_content_thumbnailPath := None;
     ins_content_metadata := Some (JObj
       [("topic", JStr (topic_topic topic));
        ("platform", JStr "multiple");
        ("contentLength", JInt (Z.of_nat (String.length postContent)));
        ("automated", JBool true)]) |}.

Definition textBranch (svc : Services) (request : CreateContentRequest)
  (topic : TrendingTopic) : Async Response :=
  postContent <- await (generateContent svc (topic_topic topic)
                          "social media" "engaging" "general") ;;
  content <- callAt (fun now =>
               createContent now (textContentInput topic postContent)) ;;
  scheduledPost <- schedulePost request content ;;
  ret (json 201 (TextCreated topic content postContent scheduledPost)).

(** "Determine content type to create" and "Generate content based on
    the type": what the handler does once it holds the topic. *)
Definition generateFor (svc : Services) (request : CreateContentRequest)
  (topic : TrendingTopic) : Async Response :=
  let contentType := or_default_str (req_contentType request) "video" in
  if String.eqb contentType "video" then videoBranch svc request topic
  else if String.eqb contentType "image" then imageBranch svc request topic
  else textBranch svc request topic.

(** The [try] block of the handler. *)
Definition createContentBody (svc : Services) (reqBody : Json)
  : Async Response :=
  request <- parse (requestSchema_parse reqBody) ;;
  resolved <- resolveTopic request ;;
  match resolved with
  | inl notFound => ret notFound
  | inr topic => generateFor svc request topic
  end.

(** [try { ... } catch (error) { ... }] of the route handlers: a
    [ZodError] is answered [400] with its issues, anything else [500]
    with a body built from the error's message. *)
Definition catchHandler (failure : string -> ResponseBody)
  (m : Async Response) : World -> Response * World :=
  fun w => match m w with
           | (Resolved r, w') => (r, w')
           | (Rejected (ZodError errors), w') =>
               (json 400 (ZodErrorBody errors), w')
           | (Rejected (JsError message), w') =>
               (json 500 (failure message), w')
           end.

Definition createContentHandler (svc : Services) (reqBody : Json)
  : World -> Response * World :=
  catchHandler ErrorBody (createContentBody svc reqBody).

(* ===================================================================== *)
(** * [/api/trending-topics] ([server/routes.ts])                         *)
(* ===================================================================== *)

(** [app.post(`${apiPrefix}/trending-topics`, ...)] *)
Definition postTrendingTopicHandler (reqBody : Json)
  : World -> Response * World :=
  catchHandler (fun _ => MessageBody "Failed to create trending topic")
    (validatedData <- parse (insertTrendingTopicSchema_parse reqBody) ;;
     topic <- callAt (fun now => createTrendingTopic now validatedData) ;;
     ret (json 201 (TopicBody topic))).

(** [app.put(`${apiPrefix}/trending-topics/:id`, ...)]; [id] is
    [Number(req.params.id)]. *)
Definition putTrendingTopicHandler (id : Z) (reqBody : Json)
  : World -> Response * World :=
  catchHandler (fun _ => MessageBody "Failed to update trending topic")
    (validatedData <- parse (insertTrendingTopicSchema_partial_parse reqBody) ;;
     topic <- call (updateTrendingTopic id validatedData) ;;
     match topic with
     | None => ret (json 404 (MessageBody "Trending topic not found"))
     | Some t => ret (json 200 (TopicBody t))
     end).

(** The range that the dashboard's own form puts on the score
    ([trendFormSchema]: [z.coerce.number().min(1).max(100)]). *)
Definition trendFormSchema_trendScore_ok (n : Z) : bool :=
  (1 <=? n) && (n <=? 100).

(* ===================================================================== *)
(** * Text-to-speech ([server/services/zeroAI/localTTS.ts])               *)
(* ===================================================================== *)

Module TTS.

Record Voice := {
  voice_id : string;
  voice_name : string;
  voice_gender : string;
  voice_style : string;
  voice_accent : string;
  voice_sampleRate : Z;
  voice_previewUrl : string;
  voice_downloadSize : Z;
  voice_naturalness : Z }.

Definition mkVoice id name gender style accent rate url size nat_ : Voice :=
  {| voice_id := id; voice_name := name; voice_gender := gender;
     voice_style := style; voice_accent := accent; voice_sampleRate := rate;
     voice_previewUrl := url; voice_downloadSize := size;
     voice_naturalness := nat_ |}.

(** The own properties of the object literal [availableVoices]. *)
Definition availableVoices : list (string * Voice) :=
  [ ("professional-male",
     mkVoice "professional-male" "James" "male" "professional" "american"
             24000 "/audio/samples/james-sample.mp3" 320 8);
    ("professional-female",
     mkVoice "professional-female" "Emma" "female" "professional" "british"
             24000 "/audio/samples/emma-sample.mp3" 315 8);
    ("casual-male",
     mkVoice "casual-male" "Mike" "male" "casual" "american"
             22050 "/audio/samples/mike-sample.mp3" 290 7);
    ("casual-female",
     mkVoice "casual-female" "Sarah" "female" "casual" "american"
             22050 "/audio/samples/sarah-sample.mp3" 295 7);
    ("energetic-male",
     mkVoice "energetic-male" "Alex" "male" "energetic" "australian"
             24000 "/audio/samples/alex-sample.mp3" 310 7);
    ("narrative-female",
     mkVoice "narrative-female" "Lily" "female" "narrative" "neutral"
             24000 "/audio/samples/lily-sample.mp3" 325 9) ].

Fixpoint own (k : string) (table : list (string * Voice)) : option Voice :=
  match table with
  | [] => None
  | (k', v) :: rest => if String.eqb k' k then Some v else own k rest
  end.

(** [availableVoices] is a plain object literal, so a property read
    [availableVoices[key]] that finds no own property continues on
    [Object.prototype].  These are the names defined there; each holds a
    function or an object, hence a truthy value without a
    [downloadSize]. *)
Definition objectPrototypeKeys : list string :=
  [ "constructor"; "hasOwnProperty"; "isPrototypeOf";
    "propertyIsEnumerable"; "toLocaleString"; "toString"; "valueOf";
    "__defineGetter__"; "__defineSetter__"; "__lookupGetter__";
    "__lookupSetter__"; "__proto__" ].

(** What [availableVoices[voiceId]] evaluates to. *)
Inductive Lookup : Type :=
| OwnVoice (v : Voice)
| Inherited
| Undefined.

Definition lookupVoice (voiceId : string) : Lookup :=
  match own voiceId availableVoices with
  | Some v => OwnVoice v
  | None => if existsb (String.eqb voiceId) objectPrototypeKeys
            then Inherited else Undefined
  end.

(** [getVoices().available]: [Object.values(availableVoices)] lists the
    own properties only. *)
Definition listedVoices : list Voice := map snd availableVoices.

Definition isListed (voiceId : string) : bool :=
  existsb (fun v => String.eqb (voice_id v) voiceId) listedVoices.

Record LocalTTS := {
  downloadedVoices : list string;
  isProcessing : bool;
  audioCounter : Z }.

(** [new LocalTTS()] *)
Definition newLocalTTS : LocalTTS :=
  {| downloadedVoices := ["professional-male"; "professional-female"];
     isProcessing := false;
     audioCounter := 1 |}.

(** [Set.prototype.has] and [Set.prototype.add] *)
Definition set_has (x : string) (l : list string) : bool :=
  existsb (String.eqb x) l.
Definition set_add (x : string) (l : list string) : list string :=
  if set_has x l then l else l ++ [x].

(** [downloadVoice]: the boolean it resolves to, the timer delay and the
    state afterwards.  For an inherited property [voice.downloadSize] is
    [undefined] and the delay is [NaN], which the timer takes as 1 ms. *)
Definition downloadVoice (voiceId : string) (t : LocalTTS)
  : bool * Z * LocalTTS :=
  match lookupVoice voiceId with
  | Undefined => (false, 0, t)
  | found =>
      let downloadTimeMs :=
        match found with
        | OwnVoice voice => Z.min (voice_downloadSize voice * 10) 2000
        | _ => 1
        end in
      (true, downloadTimeMs,
       {| downloadedVoices := set_add voiceId (downloadedVoices t);
          isProcessing := isProcessing t;
          audioCounter := audioCounter t |})
  end.

(** [text.split(/\s+/).length] on ASCII text: one more than the number of
    maximal runs of white space. *)
Definition is_space (c : ascii) : bool :=
  match nat_of_ascii c with
  | 9%nat | 10%nat | 11%nat | 12%nat | 13%nat | 32%nat => true
  | _ => false
  end.

Fixpoint space_runs (in_run : bool) (s : string) : nat :=
  match s with
  | EmptyString => 0
  | String c rest =>
      if is_space c
      then (if in_run then 0 else 1) + space_runs true rest
      else space_runs false rest
  end%nat.

Definition wordCount (text : string) : Z :=
  Z.of_nat (space_runs false text + 1).

Record AudioResult := {
  audio_file : string;
  audio_format : string;
  audio_wordCount : Z }.

(** [`${this.outputDir}/${filename}`] *)
Definition outputDir : string := "/content/audio".
Definition audio_audioPath (r : AudioResult) : string :=
  (outputDir ++ "/" ++ audio_file r)%string.

Definition error_message (voiceId : string) : string :=
  ("Voice " ++ voiceId ++ " is not available and could not be downloaded")%string.

(** A number interpolated into a template literal. *)
Definition show (n : Z) : string := NilZero.string_of_int (Z.to_int n).

(** [textToAudio(text, voiceId, settings)] at clock reading [timestamp];
    [format] is [mergedSettings.format].  The duration, a floating-point
    quantity that depends on [settings.speed], is not part of the
    embedding. *)
Definition textToAudio (timestamp : Z) (text : string) (voiceId : string)
  (format : string) (t : LocalTTS) : (Thrown + AudioResult) * LocalTTS :=
  let t := {| downloadedVoices := downloadedVoices t;
              isProcessing := true;
              audioCounter := audioCounter t |} in
  let checked :=
    if negb (set_has voiceId (downloadedVoices t)) then
      match downloadVoice voiceId t with
      | (downloaded, _, t') =>
          if negb downloaded then inl (JsError (error_message voiceId))
          else inr t'
      end
    else inr t in
  match checked with
  | inl e => (inl e, t)
  | inr t =>
      let filename :=
        ("tts_" ++ show (audioCounter t) ++ "_" ++ show timestamp
         ++ "." ++ format)%string in
      (inr {| audio_file := filename; audio_format := format;
              audio_wordCount := wordCount text |},
       {| downloadedVoices := downloadedVoices t;
          isProcessing := false;
          audioCounter := audioCounter t + 1 |})
  end.

(** [scriptToAudio(scriptContent, voiceId, format)]; [prepare] is
    [prepareScriptForTTS], a chain of regular-expression replacements on
    the text, which the voice check does not look at. *)
Definition scriptToAudio (prepare : string -> string) (timestamp : Z)
  (scriptContent : string) (voiceId : string) (format : string)
  (t : LocalTTS) : (Thrown + AudioResult) * LocalTTS :=
  let cleanedScript := prepare scriptContent in
  textToAudio timestamp cleanedScript voiceId format t.

End TTS.

(* ===================================================================== *)
(** * Executions of the store                                             *)
(* ===================================================================== *)

(** The mutating methods of [IStorage], as the operations a running
    server applies to its store. *)
Inductive Op : Type :=
| OpCreateUser (i : InsertUser)
| OpCreateScript (now : Z) (i : InsertScript)
| OpUpdateScript (id : Z) (u : PartialScript)
| OpDeleteScript (id : Z)
| OpCreateAiConfig (now : Z) (i : InsertAiConfig)
| OpUpdateAiConfig (now : Z) (id : Z) (u : PartialAiConfig)
| OpDeleteAiConfig (id : Z)
| OpCreatePlatform (i : InsertPlatform)
| OpUpdatePlatform (id : Z) (u : PartialPlatform)
| OpDeletePlatform (id : Z)
| OpCreatePlatformAccount (i : InsertPlatformAccount)
| OpUpdatePlatformAccount (id : Z) (u : PartialPlatformAccount)
| OpDeletePlatformAccount (id : Z)
| OpCreateContent (now : Z) (i : InsertContent)
| OpUpdateContent (id : Z) (u : PartialContent)
| OpDeleteContent (id : Z)
| OpCreateScheduledPost (i : InsertScheduledPost)
| OpUpdateScheduledPost (id : Z) (u : PartialScheduledPost)
| OpDeleteScheduledPost (id : Z)
| OpCreateTrendingTopic (now : Z) (i : InsertTrendingTopic)
| OpUpdateTrendingTopic (id : Z) (u : PartialTrendingTopic)
| OpDeleteTrendingTopic (id : Z).

Definition apply_op (o : Op) (s : MemStorage) : MemStorage :=
  match o with
  | OpCreateUser i => snd (createUser i s)
  | OpCreateScript now i => snd (createScript now i s)
  | OpUpdateScript id u => snd (updateScript id u s)
  | OpDeleteScript id => snd (deleteScript id s)
  | OpCreateAiConfig now i => snd (createAiConfig now i s)
  | OpUpdateAiConfig now id u => snd (updateAiConfig now id u s)
  | OpDeleteAiConfig id => snd (deleteAiConfig id s)
  | OpCreatePlatform i => snd (createPlatform i s)
  | OpUpdatePlatform id u => snd (updatePlatform id u s)
  | OpDeletePlatform id => snd (deletePlatform id s)
  | OpCreatePlatformAccount i => snd (createPlatformAccount i s)
  | OpUpdatePlatformAccount id u => snd (updatePlatformAccount id u s)
  | OpDeletePlatformAccount id => snd (deletePlatformAccount id s)
  | OpCreateContent now i => snd (createContent now i s)
  | OpUpdateContent id u => snd (updateContent id u s)
  | OpDeleteContent id => snd (deleteContent id s)
  | OpCreateScheduledPost i => snd (createScheduledPost i s)
  | OpUpdateScheduledPost id u => snd (updateScheduledPost id u s)
  | OpDeleteScheduledPost id => snd (deleteScheduledPost id s)
  | OpCreateTrendingTopic now i => snd (createTrendingTopic now i s)
  | OpUpdateTrendingTopic id u => snd (updateTrendingTopic id u s)
  | OpDeleteTrendingTopic id => snd (deleteTrendingTopic id s)
  end.

Definition run_ops (ops : list Op) (s : MemStorage) : MemStorage :=
  fold_left (fun acc o => apply_op o acc) ops s.

(** The stores a server process can be in: [new MemStorage()] followed by
    any sequence of method calls. *)
Definition reachable (s : MemStorage) : Prop :=
  exists (now : Z) (ops : list Op), s = run_ops ops (newMemStorage now).

(** ** The eight tables, uniformly *)
Inductive Kind : Type :=
| KUser | KScript | KAiConfig | KPlatform | KPlatformAccount | KContent
| KScheduledPost | KTrendingTopic.

Definition InsertOf (k : Kind) : Type :=
  match k with
  | KUser => InsertUser
  | KScript => InsertScript
  | KAiConfig => InsertAiConfig
  | KPlatform => InsertPlatform
  | KPlatformAccount => InsertPlatformAccount
  | KContent => InsertContent
  | KScheduledPost => InsertScheduledPost
  | KTrendingTopic => InsertTrendingTopic
  end.

(** [create k now i s]: the [id] of the row returned by the create method
    of table [k], and the store afterwards. *)
Definition create (k : Kind) (now : Z)
  : InsertOf k -> MemStorage -> Z * MemStorage :=
  match k return InsertOf k -> MemStorage -> Z * MemStorage with
  | KUser => fun i s => let (e, s') := createUser i s in (user_id e, s')
  | KScript => fun i s =>
      let (e, s') := createScript now i s in (script_id e, s')
  | KAiConfig => fun i s =>
      let (e, s') := createAiConfig now i s in (aiConfig_id e, s')
  | KPlatform => fun i s =>
      let (e, s') := createPlatform i s in (platform_id e, s')
  | KPlatformAccount => fun i s =>
      let (e, s') := createPlatformAccount i s in (account_id e, s')
  | KContent => fun i s =>
      let (e, s') := createContent now i s in (content_id e, s')
  | KScheduledPost => fun i s =>
      let (e, s') := createScheduledPost i s in (post_id e, s')
  | KTrendingTopic => fun i s =>
      let (e, s') := createTrendingTopic now i s in (topic_id e, s')
  end.

(** The [id] fields of the rows currently stored in table [k]. *)
Definition live_ids (k : Kind) (s : MemStorage) : list Z :=
  match k with
  | KUser => map user_id (JsMap.values (users s))
  | KScript => map script_id (JsMap.values (scripts s))
  | KAiConfig => map aiConfig_id (JsMap.values (aiConfigs s))
  | KPlatform => map platform_id (JsMap.values (platforms s))
  | KPlatformAccount => map account_id (JsMap.values (platformAccounts s))
  | KContent => map content_id (JsMap.values (contents s))
  | KScheduledPost => map post_id (JsMap.values (scheduledPosts s))
  | KTrendingTopic => map topic_id (JsMap.values (trendingTopics s))
  end.

Definition counter (k : Kind) (s : MemStorage) : Z :=
  match k with
  | KUser => userId s
  | KScript => scriptId s
  | KAiConfig => aiConfigId s
  | KPlatform => platformId s
  | KPlatformAccount => accountId s
  | KContent => contentId s
  | KScheduledPost => postId s
  | KTrendingTopic => topicId s
  end.

(** A sequence of create calls on table [k], each with its clock reading
    and input: the ids returned, in call order, and the final store. *)
Fixpoint create_many (k : Kind) (inputs : list (Z * InsertOf k))
  (s : MemStorage) : list Z * MemStorage :=
  match inputs with
  | [] => ([], s)
  | (now, i) :: rest =>
      let (id, s1) := create k now i s in
      let (ids, s2) := create_many k rest s1 in
      (id :: ids, s2)
  end.

(** ** Store invariant: in every table the keys are distinct, every row
    is filed under its own [id], and every [id] is below the counter. *)
Definition table_ok {E : Type} (id_of : E -> Z) (m : JsMap.t E) (next : Z)
  : Prop :=
  NoDup (JsMap.keys m)
  /\ Forall (fun kv => id_of (snd kv) = fst kv /\ fst kv < next) m.

Definition store_ok (s : MemStorage) : Prop :=
  table_ok user_id (users s) (userId s)
  /\ table_ok script_id (scripts s) (scriptId s)
  /\ table_ok aiConfig_id (aiConfigs s) (aiConfigId s)
  /\ table_ok platform_id (platforms s) (platformId s)
  /\ table_ok account_id (platformAccounts s) (accountId s)
  /\ table_ok content_id (contents s) (contentId s)
  /\ table_ok post_id (scheduledPosts s) (postId s)
  /\ table_ok topic_id (trendingTopics s) (topicId s).

(** ** Fields of a row, for stating what an update leaves alone

    A field of a table pairs the getter on the stored row with the getter
    on the update payload; a column that the payload type cannot carry
    ([id], [createdAt], ...) has the constant [None] as payload getter. *)
Record Field (E P : Type) := {
  field_name : string;
  field_type : Type;
  field_get : E -> field_type;
  field_upd : P -> option field_type }.

(** The field of the merged row is the payload's value when the payload
    has the key, and the existing value otherwise. *)
Definition field_merged {E P : Type} (merge : E -> P -> E) (f : Field E P)
  : Prop :=
  forall (e : E) (p : P),
    field_get f (merge e p) = spread (field_get f e) (field_upd f p).

Definition fixed {E P A : Type} (name : string) (get : E -> A) : Field E P :=
  {| field_name := name; field_get := get; field_upd := fun _ => None |}.

Definition column {E P A : Type} (name : string) (get : E -> A)
  (upd : P -> option A) : Field E P :=
  {| field_name := name; field_get := get; field_upd := upd |}.

Definition script_fields : list (Field Script PartialScript) :=
  [ fixed "id" script_id;
    column "title" script_title upd_script_title;
    column "topic" script_topic upd_script_topic;
    column "format" script_format upd_script_format;
    column "content" script_content upd_script_content;
    column "duration" script_duration upd_script_duration;
    column "tone" script_tone upd_script_tone;
    column "targetAudience" script_targetAudience upd_script_targetAudience;
    fixed "createdAt" script_createdAt;
    column "audioPath" script_audioPath upd_script_audioPath;
    column "status" script_status upd_script_status ].

(** The fields of an AI config other than [lastUpdated]. *)
Definition aiConfig_fields : list (Field AiConfig PartialAiConfig) :=
  [ fixed "id" aiConfig_id;
    column "name" aiConfig_name upd_aiConfig_name;
    column "modelType" aiConfig_modelType upd_aiConfig_modelType;
    column "modelName" aiConfig_modelName upd_aiConfig_modelName;
    column "active" aiConfig_active upd_aiConfig_active;
    column "settings" aiConfig_settings upd_aiConfig_settings;
    column "capabilities" aiConfig_capabilities upd_aiConfig_capabilities;
    column "downloadStatus" aiConfig_downloadStatus
           upd_aiConfig_downloadStatus ].

(** [lastUpdated] is not a key of the update payload. *)
Definition aiConfig_lastUpdated_field : Field AiConfig PartialAiConfig :=
  fixed "lastUpdated" aiConfig_lastUpdated.

Definition platform_fields : list (Field Platform PartialPlatform) :=
  [ fixed "id" platform_id;
    column "name" platform_name upd_platform_name;
    column "icon" platform_icon upd_platform_icon;
    column "active" platform_active upd_platform_active ].

Definition account_fields
  : list (Field PlatformAccount PartialPlatformAccount) :=
  [ fixed "id" account_id;
    column "platformId" account_platformId upd_account_platformId;
    column "name" account_name upd_account_name;
    column "username" account_username upd_account_username;
    column "accessToken" account_accessToken upd_account_accessToken;
    column "refreshToken" account_refreshToken upd_account_refreshToken;
    column "tokenExpiry" account_tokenExpiry upd_account_tokenExpiry;
    column "followerCount" account_followerCount upd_account_followerCount;
    column "active" account_active upd_account_active;
    column "metadata" account_metadata upd_account_metadata ].

Definition content_fields : list (Field Content PartialContent) :=
  [ fixed "id" content_id;
    column "title" content_title upd_content_title;
    column "description" content_description upd_content_description;
    column "contentType" content_contentType upd_content_contentType;
    column "status" content_status upd_content_status;
    column "filePath" content_filePath upd_content_filePath;
    column "thumbnailPath" content_thumbnailPath upd_content_thumbnailPath;
    column "metadata" content_metadata upd_content_metadata;
    fixed "createdAt" content_createdAt ].

Definition post_fields : list (Field ScheduledPost PartialScheduledPost) :=
  [ fixed "id" post_id;
    column "contentId" post_contentId upd_post_contentId;
    column "platformAccountId" post_platformAccountId
           upd_post_platformAccountId;
    column "scheduledTime" post_scheduledTime upd_post_scheduledTime;
    column "status" post_status upd_post_status;
    fixed "postId" post_postId;
    fixed "error" post_error ].

Definition topic_fields : list (Field TrendingTopic PartialTrendingTopic) :=
  [ fixed "id" topic_id;
    column "topic" topic_topic upd_topic_topic;
    column "category" topic_category upd_topic_category;
    column "description" topic_description upd_topic_description;
    column "trendScore" topic_trendScore upd_topic_trendScore;
    fixed "discoveredAt" topic_discoveredAt ].

(** An update method round-trips when, on an existing row, it returns the
    merged row, a following [get] of the same id returns that same row,
    and every other id reads as before. *)
Definition update_roundtrip {E P : Type}
  (get : Z -> MemStorage -> option E)
  (update : Z -> P -> MemStorage -> option E * MemStorage)
  (merge : E -> P -> E) : Prop :=
  forall (s : MemStorage) (id : Z) (p : P) (e : E),
    get id s = Some e ->
    fst (update id p s) = Some (merge e p)
    /\ get id (snd (update id p s)) = Some (merge e p)
    /\ (forall id', id' <> id ->
          get id' (snd (update id p s)) = get id' s).

(* ===================================================================== *)
(** * Vocabulary of the properties                                        *)
(* ===================================================================== *)


Definition by_time_asc (a b : ScheduledPost) : Prop :=
  post_scheduledTime a <= post_scheduledTime b.

(** The operation that a create call on table [k] is. *)
Definition create_op (k : Kind) (now : Z) : InsertOf k -> Op :=
  match k return InsertOf k -> Op with
  | KUser => fun i => OpCreateUser i
  | KScript => fun i => OpCreateScript now i
  | KAiConfig => fun i => OpCreateAiConfig now i
  | KPlatform => fun i => OpCreatePlatform i
  | KPlatformAccount => fun i => OpCreatePlatformAccount i
  | KContent => fun i => OpCreateContent now i
  | KScheduledPost => fun i => OpCreateScheduledPost i
  | KTrendingTopic => fun i => OpCreateTrendingTopic now i
  end.

(** What a [201] response of [POST /create-content] carries. *)
Definition created_topic (b : ResponseBody) : option TrendingTopic :=
  match b with
  | VideoCreated t _ _ _ _ | ImageCreated t _ _ _ | TextCreated t _ _ _ =>
      Some t
  | _ => None
  end.

Definition created_content (b : ResponseBody) : option Content :=
  match b with
  | VideoCreated _ _ c _ _ | ImageCreated _ c _ _ | TextCreated _ c _ _ =>
      Some c
  | _ => None
  end.

Definition created_script (b : ResponseBody) : option Script :=
  match b with
  | VideoCreated _ s _ _ _ => Some s
  | _ => None
  end.

(** The [scheduledPost] property of the response: [Some None] is
    [null]. *)
Definition created_scheduledPost (b : ResponseBody)
  : option (option ScheduledPost) :=
  match b with
  | VideoCreated _ _ _ _ p | ImageCreated _ _ _ p | TextCreated _ _ _ p =>
      Some p
  | _ => None
  end.

(** The accounts of a platform that are flagged active. *)
Definition activeAccountsOfPlatform (pid : Z) (s : MemStorage)
  : list PlatformAccount :=
  filter account_active (getPlatformAccountsByPlatform pid s).

(** The accounts the scheduling step looks at: those of the requested
    platform when scheduling is requested ([scheduleImmediately] and
    [platformId] both truthy), none otherwise. *)
Definition requestedAccounts (request : CreateContentRequest)
  (s : MemStorage) : list PlatformAccount :=
  if truthy_bool (req_scheduleImmediately request)
     && truthy_num (req_platformId request)
  then match req_platformId request with
       | Some q => getPlatformAccountsByPlatformNumber q s
       | None => []
       end
  else [].

(** The world after a promise that took [ms] milliseconds to settle. *)
Definition advance (w : World) (ms : Z) : World :=
  {| storage := storage w; clock := clock w + ms |}.

(** A decision procedure for [table_ok] on a concrete table. *)
Fixpoint distinct (l : list Z) : bool :=
  match l with
  | [] => true
  | x :: l' => negb (existsb (Z.eqb x) l') && distinct l'
  end.

Definition table_okb {E : Type} (id_of : E -> Z) (m : JsMap.t E) (next : Z)
  : bool :=
  distinct (JsMap.keys m)
  && forallb (fun kv => (id_of (snd kv) =? fst kv) && (fst kv <? next)) m.

Definition store_okb (s : MemStorage) : bool :=
  table_okb user_id (users s) (userId s)
  && table_okb script_id (scripts s) (scriptId s)
  && table_okb aiConfig_id (aiConfigs s) (aiConfigId s)
  && table_okb platform_id (platforms s) (platformId s)
  && table_okb account_id (platformAccounts s) (accountId s)
  && table_okb content_id (contents s) (contentId s)
  && table_okb post_id (scheduledPosts s) (postId s)
  && table_okb topic_id (trendingTopics s) (topicId s).

(* ===================================================================== *)
(** * Sample executions                                                   *)
(* ===================================================================== *)

(** A fresh server on which a fourth topic is entered with the same score
    as the seeded "Voice Generation Technology" (92). *)
Definition tiedTopic : InsertTrendingTopic :=
  {| ins_topic_topic := "Local Speech Models";
     ins_topic_category := "AI";
     ins_topic_description := None;
     ins_topic_trendScore := 92 |}.

Definition tiedStorage : MemStorage :=
  Eval vm_compute in snd (createTrendingTopic 0 tiedTopic (newMemStorage 0)).

(** Two contents entered through the API. *)
Definition sampleContentInputs : list (Z * InsertOf KContent) :=
  [ (1000, {| ins_content_title := "First";
              ins_content_description := None;
              ins_content_contentType := "text";
              ins_content_status := None;
              ins_content_filePath := None;
              ins_content_thumbnailPath := None;
              ins_content_metadata := None |});
    (2000, {| ins_content_title := "Second";
              ins_content_description := Some "An image";
              ins_content_contentType := "image";
              ins_content_status := Some "ready";
              ins_content_filePath := Some "/content/images/second.png";
              ins_content_thumbnailPath := None;
              ins_content_metadata := None |}) ].

(** An update payload without any key: [PUT] with body [{}]. *)
Definition noChangeAiConfig : PartialAiConfig :=
  {| upd_aiConfig_name := None; upd_aiConfig_modelType := None;
     upd_aiConfig_modelName := None; upd_aiConfig_active := None;
     upd_aiConfig_settings := None; upd_aiConfig_capabilities := None;
     upd_aiConfig_downloadStatus := None |}.

(** Generation services that succeed, with fixed results. *)
Definition sampleServices : Services :=
  {| generateScript := fun topic _ _ _ _ =>
       {| elapsed := 1000;
          settled := Resolved ("# INTRODUCTION " ++ topic)%string |};
     generateContent := fun topic _ _ _ =>
       {| elapsed := 1000;
          settled := Resolved ("Did you know that " ++ topic)%string |};
     generateThumbnail := fun topic =>
       {| elapsed := 1200;
          settled := Resolved {| thumb_file := "thumb_1_1000.png";
                                 thumb_prompt := topic;
                                 thumb_size := "1280x720";
                                 thumb_style := "artistic" |} |};
     generateImage := fun params =>
       {| elapsed := 4500;
          settled := Resolved {| image_file := "img_2_2000.svg";
                                 image_prompt := img_param_prompt params;
                                 image_size := "1024x1024";
                                 image_style := "minimalist";
                                 image_format := "svg";
                                 image_generationTime := (45 # 10)%Q |} |};
     generateVideo := fun request =>
       {| elapsed := 5000;
          settled := Resolved {| video_file := "video_1_3000.mp4";
                                 video_thumbnailFile := "thumb_3_3000.png";
                                 video_duration := 125;
                                 video_format := "mp4";
                                 video_resolution := vreq_resolution request
                              |} |} |}.

(** A freshly started server at clock reading 0. *)
Definition freshStorage : MemStorage :=
  Eval vm_compute in newMemStorage 0.

Definition freshWorld : World := {| storage := freshStorage; clock := 0 |}.

(** The same server after the only account of platform 1 (YouTube) has
    been deactivated through [PUT /api/platform-accounts/1]. *)
Definition deactivateAccount : PartialPlatformAccount :=
  {| upd_account_platformId := None; upd_account_name := None;
     upd_account_username := None; upd_account_accessToken := None;
     upd_account_refreshToken := None; upd_account_tokenExpiry := None;
     upd_account_followerCount := None; upd_account_active := Some false;
     upd_account_metadata := None |}.

Definition inactiveAccountStorage : MemStorage :=
  Eval vm_compute in
    snd (updatePlatformAccount 1 deactivateAccount (newMemStorage 0)).

Definition inactiveAccountWorld : World :=
  {| storage := inactiveAccountStorage; clock := 0 |}.

(** [{ contentType: "text", scheduleImmediately: true, platformId: 1 }] *)
Definition scheduleTextBody : Json :=
  JObj [("contentType", JStr "text"); ("scheduleImmediately", JBool true);
        ("platformId", JInt 1)].

(** The request that [scheduleTextBody] parses to. *)
Definition scheduleTextRequest : CreateContentRequest :=
  {| req_topicId := None;
     req_platformId := Some (inject_Z 1);
     req_contentType := Some "text";
     req_scheduleImmediately := Some true |}.

(** The run of that request on the fresh server. *)
Definition scheduleTextRun : Response * World :=
  Eval vm_compute in
    createContentHandler sampleServices scheduleTextBody freshWorld.

(** The same request with [contentType] "image" and "video". *)
Definition scheduleImageBody : Json :=
  JObj [("contentType", JStr "image"); ("scheduleImmediately", JBool true);
        ("platformId", JInt 1)].

Definition scheduleVideoBody : Json :=
  JObj [("contentType", JStr "video"); ("scheduleImmediately", JBool true);
        ("platformId", JInt 1)].

(** [PUT /api/content/1] with body [{ "status": "archived" }]. *)
Definition archiveContent : PartialContent :=
  {| upd_content_title := None; upd_content_description := None;
     upd_content_contentType := None; upd_content_status := Some "archived";
     upd_content_filePath := None; upd_content_thumbnailPath := None;
     upd_content_metadata := None |}.

(** [POST /api/trending-topics] with a score of 0, and
    [PUT /api/trending-topics/1] with a score of 1000. *)
Definition zeroScoreBody : Json :=
  JObj [("topic", JStr "Test"); ("category", JStr "Tech");
        ("trendScore", JInt 0)].

Definition thousandScoreBody : Json := JObj [("trendScore", JInt 1000)].

(* ===================================================================== *)
(** * The tables of the store, uniformly                                  *)
(* ===================================================================== *)

(** The stored row type of table [k]. *)
Definition RowOf (k : Kind) : Type :=
  match k with
  | KUser => User
  | KScript => Script
  | KAiConfig => AiConfig
  | KPlatform => Platform
  | KPlatformAccount => PlatformAccount
  | KContent => Content
  | KScheduledPost => ScheduledPost
  | KTrendingTopic => TrendingTopic
  end.

Definition row_id (k : Kind) : RowOf k -> Z :=
  match k return RowOf k -> Z with
  | KUser => user_id
  | KScript => script_id
  | KAiConfig => aiConfig_id
  | KPlatform => platform_id
  | KPlatformAccount => account_id
  | KContent => content_id
  | KScheduledPost => post_id
  | KTrendingTopic => topic_id
  end.

(** The [Map] field of table [k]. *)
Definition table (k : Kind) : MemStorage -> JsMap.t (RowOf k) :=
  match k return MemStorage -> JsMap.t (RowOf k) with
  | KUser => users
  | KScript => scripts
  | KAiConfig => aiConfigs
  | KPlatform => platforms
  | KPlatformAccount => platformAccounts
  | KContent => contents
  | KScheduledPost => scheduledPosts
  | KTrendingTopic => trendingTopics
  end.

(** The [get...(id)] method of table [k]. *)
Definition get (k : Kind) : Z -> MemStorage -> option (RowOf k) :=
  match k return Z -> MemStorage -> option (RowOf k) with
  | KUser => getUser
  | KScript => getScript
  | KAiConfig => getAiConfig
  | KPlatform => getPlatform
  | KPlatformAccount => getPlatformAccount
  | KContent => getContent
  | KScheduledPost => getScheduledPost
  | KTrendingTopic => getTrendingTopic
  end.

(** The method of table [k] that lists every row; users have none, their
    rows are listed as [Array.from(this.users.values())] does in
    [getUserByUsername]. *)
Definition getAll (k : Kind) : MemStorage -> list (RowOf k) :=
  match k return MemStorage -> list (RowOf k) with
  | KUser => fun s => JsMap.values (users s)
  | KScript => getScripts
  | KAiConfig => getAiConfigs
  | KPlatform => getPlatforms
  | KPlatformAccount => getPlatformAccounts
  | KContent => getContents
  | KScheduledPost => getScheduledPosts
  | KTrendingTopic => getTrendingTopics
  end.

(** The [create...] method of table [k], with the row it returns. *)
Definition createRow (k : Kind) (now : Z)
  : InsertOf k -> MemStorage -> RowOf k * MemStorage :=
  match k return InsertOf k -> MemStorage -> RowOf k * MemStorage with
  | KUser => createUser
  | KScript => createScript now
  | KAiConfig => createAiConfig now
  | KPlatform => createPlatform
  | KPlatformAccount => createPlatformAccount
  | KContent => createContent now
  | KScheduledPost => createScheduledPost
  | KTrendingTopic => createTrendingTopic now
  end.

(** The [delete...] method of table [k]; users have none. *)
Definition deleteRow (k : Kind)
  : option (Z -> MemStorage -> bool * MemStorage) :=
  match k with
  | KUser => None
  | KScript => Some deleteScript
  | KAiConfig => Some deleteAiConfig
  | KPlatform => Some deletePlatform
  | KPlatformAccount => Some deletePlatformAccount
  | KContent => Some deleteContent
  | KScheduledPost => Some deleteScheduledPost
  | KTrendingTopic => Some deleteTrendingTopic
  end.

(** The table an operation is a method of. *)
Definition op_kind (o : Op) : Kind :=
  match o with
  | OpCreateUser _ => KUser
  | OpCreateScript _ _ | OpUpdateScript _ _ | OpDeleteScript _ => KScript
  | OpCreateAiConfig _ _ | OpUpdateAiConfig _ _ _ | OpDeleteAiConfig _ =>
      KAiConfig
  | OpCreatePlatform _ | OpUpdatePlatform _ _ | OpDeletePlatform _ =>
      KPlatform
  | OpCreatePlatformAccount _ | OpUpdatePlatformAccount _ _
  | OpDeletePlatformAccount _ => KPlatformAccount
  | OpCreateContent _ _ | OpUpdateContent _ _ | OpDeleteContent _ => KContent
  | OpCreateScheduledPost _ | OpUpdateScheduledPost _ _
  | OpDeleteScheduledPost _ => KScheduledPost
  | OpCreateTrendingTopic _ _ | OpUpdateTrendingTopic _ _
  | OpDeleteTrendingTopic _ => KTrendingTopic
  end.

(** The [id] argument of an update call; [None] for the other calls. *)
Definition updated_id (o : Op) : option Z :=
  match o with
  | OpUpdateScript id _ | OpUpdateAiConfig _ id _ | OpUpdatePlatform id _
  | OpUpdatePlatformAccount id _ | OpUpdateContent id _
  | OpUpdateScheduledPost id _ | OpUpdateTrendingTopic id _ => Some id
  | _ => None
  end.

Definition by_createdAt_desc {E : Type} (createdAt : E -> Z) (a b : E)
  : Prop :=
  createdAt a >= createdAt b.

(** What a "newest first, at most [n]" query may answer from the rows
    [stored]: rows of [stored] in descending order of [createdAt], none
    left out that is strictly newer than one that is returned, and
    [min n (length stored)] of them for a count [n]. *)
Definition newest_first {E : Type} (createdAt : E -> Z) (n : Z)
  (stored result : list E) : Prop :=
  StronglySorted (by_createdAt_desc createdAt) result
  /\ (forall x, In x result -> In x stored)
  /\ (forall x y, In x result -> In y stored ->
                  createdAt y > createdAt x -> In y result)
  /\ (0 <= n ->
      Z.of_nat (List.length result) = Z.min n (Z.of_nat (List.length stored))).

(** A content entered through [POST /api/content]. *)
Definition draftContent : InsertContent :=
  {| ins_content_title := "Draft";
     ins_content_description := None;
     ins_content_contentType := "text";
     ins_content_status := None;
     ins_content_filePath := None;
     ins_content_thumbnailPath := None;
     ins_content_metadata := None |}.

(* ===================================================================== *)
(** * Vocabulary of the pipeline properties                               *)
(* ===================================================================== *)

(** Whether the request asks for the scheduling step:
    [request.scheduleImmediately && request.platformId]. *)
Definition schedulingRequested (request : CreateContentRequest) : bool :=
  truthy_bool (req_scheduleImmediately request)
  && truthy_num (req_platformId request).

(** The rows that a response reports as created, as lists. *)
Definition created_scripts (b : ResponseBody) : list Script :=
  match created_script b with Some s => [s] | None => [] end.

Definition created_posts (b : ResponseBody) : list ScheduledPost :=
  match created_scheduledPost b with Some (Some p) => [p] | _ => [] end.

(** Generation services of which the video step fails, the others
    succeeding as in [sampleServices]. *)
Definition failingVideoServices : Services :=
  {| generateScript := generateScript sampleServices;
     generateContent := generateContent sampleServices;
     generateThumbnail := generateThumbnail sampleServices;
     generateImage := generateImage sampleServices;
     generateVideo := fun _ =>
       {| elapsed := 5000;
          settled := Rejected (JsError "Video compilation failed") |} |}.

(** [{ topicId: 2, contentType: "text" }], [{ topicId: 99 }] and
    [{ topicId: "2" }]. *)
Definition topicTwoTextBody : Json :=
  JObj [("topicId", JInt 2); ("contentType", JStr "text")].

Definition topicTwoTextRequest : CreateContentRequest :=
  {| req_topicId := Some (inject_Z 2);
     req_platformId := None;
     req_contentType := Some "text";
     req_scheduleImmediately := None |}.

Definition missingTopicBody : Json := JObj [("topicId", JInt 99)].

Definition missingTopicRequest : CreateContentRequest :=
  {| req_topicId := Some (inject_Z 99);
     req_platformId := None;
     req_contentType := None;
     req_scheduleImmediately := None |}.

Definition stringTopicBody : Json := JObj [("topicId", JStr "2")].

(** The request that the empty body [{}] parses to. *)
Definition emptyRequest : CreateContentRequest :=
  {| req_topicId := None;
     req_platformId := None;
     req_contentType := None;
     req_scheduleImmediately := None |}.

(** The scheduling step as a function of the world it runs in: the post
    it creates, if any, and the world afterwards. *)
Definition scheduled (request : CreateContentRequest) (content : Content)
  (w : World) : option ScheduledPost * World :=
  match requestedAccounts request (storage w) with
  | account :: _ =>
      let created :=
        createScheduledPost (scheduledPostInput content account (clock w))
                            (storage w) in
      (Some (fst created), {| storage := snd created; clock := clock w |})
  | [] => (None, w)
  end.

(* ===================================================================== *)
(** * Further routes                                                      *)
(* ===================================================================== *)

(** What the handlers below answer: a status and a body.  [res.json(x)]
    without [res.status(...)] answers [200]. *)
Record Reply (B : Type) := {
  reply_status : Z;
  reply_body : B }.

Definition reply {B : Type} (code : Z) (b : B) : Reply B :=
  {| reply_status := code; reply_body := b |}.

(** The body of an answer: the payload of the route, of a type [A] of
    its own, or one of the shapes the routers use for errors. *)
Inductive Body (A : Type) : Type :=
| Payload (a : A)                 (** [res.json(a)] *)
| NoContent                       (** [res.status(204).end()] *)
| MessageOnly (message : string)  (** [{ message }] *)
| ErrorOnly (error : string)      (** [{ error }] *)
| Issues (errors : list string)   (** [{ error: error.errors }] *)
| Failed (message : option string) (error : Thrown).
    (** [{ message, error: error.message }], or
        [{ error: error.message }] when there is no [message] *)
Arguments Payload {A} a.
Arguments NoContent {A}.
Arguments MessageOnly {A} message.
Arguments ErrorOnly {A} error.
Arguments Issues {A} errors.
Arguments Failed {A} message error.

(** [catch (error) { res.status(500).json({ message, error:
    error.message }) }] of the [GET] and [DELETE] routes of
    [server/routes.ts]. *)
Definition catchRest {A : Type} (message : string)
  (m : Async (Reply (Body A))) : World -> Reply (Body A) * World :=
  fun w => match m w with
           | (Resolved r, w') => (r, w')
           | (Rejected e, w') => (reply 500 (Failed (Some message) e), w')
           end.

(** The [catch] blocks of the automation router: with the [ZodError]
    test, and without it. *)
Definition catchAutomation {A : Type} (m : Async (Reply (Body A)))
  : World -> Reply (Body A) * World :=
  fun w => match m w with
           | (Resolved r, w') => (r, w')
           | (Rejected (ZodError errors), w') => (reply 400 (Issues errors), w')
           | (Rejected e, w') => (reply 500 (Failed None e), w')
           end.

Definition catchPlain {A : Type} (m : Async (Reply (Body A)))
  : World -> Reply (Body A) * World :=
  fun w => match m w with
           | (Resolved r, w') => (r, w')
           | (Rejected e, w') => (reply 500 (Failed None e), w')
           end.

(** [Number(req.query.limit) || 3].  [Number(...)] of a query parameter
    is [NaN] when the parameter is absent or not numeric; [None] stands
    for [NaN], [Some n] for the integer [n].  [NaN] and [0] are falsy.
    Limits that are not integers are outside the embedding. *)
Definition or_default_num (o : option Z) (d : Z) : Z :=
  match o with
  | Some n => if n =? 0 then d else n
  | None => d
  end.

(** ** [/api/trending-topics], [/api/content/recent] and
    [/api/scheduled-posts/upcoming] ([server/routes.ts]) *)

(** [app.get(`${apiPrefix}/trending-topics`, ...)] *)
Definition getTrendingTopicsHandler
  : World -> Reply (Body (list TrendingTopic)) * World :=
  catchRest "Failed to get trending topics"
    (topics <- read getTrendingTopics ;;
     ret (reply 200 (Payload topics))).

(** [app.get(`${apiPrefix}/trending-topics/top`, ...)]; [limit] is
    [Number(req.query.limit)]. *)
Definition getTopTrendingTopicsHandler (limit : option Z)
  : World -> Reply (Body (list TrendingTopic)) * World :=
  catchRest "Failed to get top trending topics"
    (topics <- read (getTopTrendingTopics (or_default_num limit 3)) ;;
     ret (reply 200 (Payload topics))).

(** [app.get(`${apiPrefix}/trending-topics/:id`, ...)]; [id] is
    [Number(req.params.id)]. *)
Definition getTrendingTopicHandler (id : Z)
  : World -> Reply (Body TrendingTopic) * World :=
  catchRest "Failed to get trending topic"
    (topic <- read (getTrendingTopic id) ;;
     match topic with
     | None => ret (reply 404 (MessageOnly "Trending topic not found"))
     | Some t => ret (reply 200 (Payload t))
     end).

(** [app.delete(`${apiPrefix}/trending-topics/:id`, ...)] *)
Definition deleteTrendingTopicHandler (id : Z)
  : World -> Reply (Body TrendingTopic) * World :=
  catchRest "Failed to delete trending topic"
    (deleted <- call (deleteTrendingTopic id) ;;
     if deleted : bool
     then ret (reply 204 NoContent)
     else ret (reply 404 (MessageOnly "Trending topic not found"))).

(** [app.get(`${apiPrefix}/content/recent`, ...)] *)
Definition getRecentContentsHandler (limit : option Z)
  : World -> Reply (Body (list Content)) * World :=
  catchRest "Failed to get recent contents"
    (contents <- read (getRecentContents (or_default_num limit 3)) ;;
     ret (reply 200 (Payload contents))).

(** [app.get(`${apiPrefix}/scheduled-posts/upcoming`, ...)];
    [getUpcomingScheduledPosts] reads the clock. *)
Definition getUpcomingScheduledPostsHandler (limit : option Z)
  : World -> Reply (Body (list ScheduledPost)) * World :=
  catchRest "Failed to get upcoming scheduled posts"
    (posts <- (now <- dateNow ;;
               read (getUpcomingScheduledPosts now (or_default_num limit 3))) ;;
     ret (reply 200 (Payload posts))).

(** ** [POST /api/automation/schedule]
    ([server/routes/automationRoutes.ts]) *)

(** [z.number()] *)
Definition z_number : zod_field Q := fun v =>
  match v with
  | Some (JNum q) => Some q
  | _ => None
  end.

Record ScheduleRequest := {
  sreq_contentId : Q;
  sreq_platformAccountId : Q;
  sreq_scheduledTime : Z;
  sreq_status : option string }.

Section Schedule.

(** [z.string().datetime()] accepts the ISO 8601 date-times it knows and
    [new Date(s)] then reads the instant; both are library code.  They
    are taken together as a partial function from strings to millisecond
    timestamps, [None] on a string that the validator refuses. *)
Variable isoDatetime : string -> option Z.

Definition z_string_datetime : zod_field Z := fun v =>
  match v with
  | Some (JStr s) => isoDatetime s
  | _ => None
  end.

(** [requestSchema] of the handler; [sreq_scheduledTime] holds
    [new Date(request.scheduledTime)]. *)
Definition scheduleRequestSchema_parse (body : Json)
  : Thrown + ScheduleRequest :=
  match body with
  | JObj props =>
      let contentId := z_number (assoc "contentId" props) in
      let platformAccountId := z_number (assoc "platformAccountId" props) in
      let scheduledTime := z_string_datetime (assoc "scheduledTime" props) in
      let status := z_enum_optional ["pending"; "draft"]
                                    (assoc "status" props) in
      match contentId, platformAccountId, scheduledTime, status with
      | Some c, Some a, Some t, Some st =>
          inr {| sreq_contentId := c; sreq_platformAccountId := a;
                 sreq_scheduledTime := t; sreq_status := st |}
      | _, _, _, _ =>
          inl (ZodError (issue "contentId" contentId
                         ++ issue "platformAccountId" platformAccountId
                         ++ issue "scheduledTime" scheduledTime
                         ++ issue "status" status))
      end
  | _ => inl (ZodError [""])
  end.

(** The handler.  [storage.getContent(x)] with a number [x] that is not an
    integer finds nothing, as does [storage.getPlatformAccount(x)]. *)
Definition scheduleHandler (reqBody : Json)
  : World -> Reply (Body ScheduledPost) * World :=
  catchAutomation
    (request <- parse (scheduleRequestSchema_parse reqBody) ;;
     match Qint (sreq_contentId request) with
     | None => ret (reply 404 (ErrorOnly "Content not found"))
     | Some contentId =>
         content <- read (getContent contentId) ;;
         match content with
         | None => ret (reply 404 (ErrorOnly "Content not found"))
         | Some _ =>
             match Qint (sreq_platformAccountId request) with
             | None =>
                 ret (reply 404 (ErrorOnly "Platform account not found"))
             | Some platformAccountId =>
                 account <- read (getPlatformAccount platformAccountId) ;;
                 match account with
                 | None =>
                     ret (reply 404
                            (ErrorOnly "Platform account not found"))
                 | Some _ =>
                     post <- call (createScheduledPost
                               {| ins_post_contentId := contentId;
                                  ins_post_platformAccountId :=
                                    platformAccountId;
                                  ins_post_scheduledTime :=
                                    sreq_scheduledTime request;
                                  ins_post_status :=
                                    Some (or_default_str
                                            (sreq_status request)
                                            "pending") |}) ;;
                     ret (reply 201 (Payload post))
                 end
             end
         end
     end).

End Schedule.

(** ** [GET /api/automation/queue] *)

Record ProcessingJob := {
  job_id : Z;
  job_type : string;
  job_status : string;
  job_progress : Z;
  job_startedAt : option Z }.

(** The body of the answer; the two instants are the timestamps that
    [toISOString()] prints. *)
Record QueueStatus := {
  queueSize : Z;
  upcomingPosts : list ScheduledPost;
  processingJobs : list ProcessingJob;
  lastProcessed : Z;
  nextScheduled : option Z }.

Definition queueHandler : World -> Reply (Body QueueStatus) * World :=
  catchPlain
    (upcomingPosts <- (now <- dateNow ;;
                       read (getUpcomingScheduledPosts now 10)) ;;
     let processingJobs : list ProcessingJob := [] in
     now <- dateNow ;;
     ret (reply 200 (Payload
       {| queueSize := Z.of_nat (List.length upcomingPosts)
                       + Z.of_nat (List.length processingJobs);
          upcomingPosts := upcomingPosts;
          processingJobs := processingJobs;
          lastProcessed := now - 2 * 60 * 60 * 1000;
          nextScheduled :=
            match upcomingPosts with
            | first :: _ => Some (post_scheduledTime first)
            | [] => None
            end |}))).

(** ** Vocabulary and samples of the route properties *)

(** The posts scheduled after [now]. *)
Definition futurePosts (now : Z) (s : MemStorage) : list ScheduledPost :=
  filter (fun post => post_scheduledTime post >? now) (getScheduledPosts s).

(** The number of items a limit query answers with, for the value
    [limit] of [Number(req.query.limit)], out of [stored] candidates. *)
Definition answered (limit : option Z) (stored : Z) : Z :=
  match limit with
  | None | Some 0 => Z.min 3 stored
  | Some n => if n <? 0 then Z.max (stored + n) 0 else Z.min n stored
  end.

(** A date-time reader that knows one string. *)
Definition sampleDatetime (s : string) : option Z :=
  if String.eqb s "2030-01-01T00:00:00.000Z"
  then Some 1893456000000 else None.

(** [{ contentId: 1, platformAccountId: 2,
       scheduledTime: "2030-01-01T00:00:00.000Z" }] *)
Definition scheduleBody : Json :=
  JObj [("contentId", JInt 1); ("platformAccountId", JInt 2);
        ("scheduledTime", JStr "2030-01-01T00:00:00.000Z")].

(* ===================================================================== *)
(** * Text-to-speech, continued: [batchProcess] and runs of calls         *)
(* ===================================================================== *)

Module TTSBatch.
Import TTS.

(** An element of the [segments] argument: [{ text, voiceId? }]. *)
Record Segment := {
  seg_text : string;
  seg_voiceId : option string }.

Record SegmentDetail := {
  startMs : Z;
  endMs : Z;
  detail_wordCount : Z;
  detail_voiceId : string }.

Record BatchResult := {
  batch_file : string;
  batch_durationMs : Z;
  batch_format : string;
  segmentDetails : list SegmentDetail }.

(** [Math.round(wordCount / 2.5 * 1000)].  The exact value is the integer
    [400 * wordCount]; the two floating-point roundings move the result
    by less than a ten-thousandth for any word count that a JavaScript
    string can reach (below 2^30), so [Math.round] returns exactly that
    integer. *)
Definition segmentDurationMs (wordCount : Z) : Z := 400 * wordCount.

(** One turn of the [for (const segment of segments)] loop, on the pair
    of [totalDurationMs] and [segmentDetails].  A segment whose voice
    lookup is falsy is skipped by [continue]. *)
Definition processSegment (defaultVoiceId : string)
  (acc : Z * list SegmentDetail) (segment : Segment)
  : Z * list SegmentDetail :=
  let (totalDurationMs, details) := acc in
  let voiceId := or_default_str (seg_voiceId segment) defaultVoiceId in
  let wordCount := wordCount (seg_text segment) in
  match lookupVoice voiceId with
  | Undefined => (totalDurationMs, details)
  | _ =>
      let durationMs := segmentDurationMs wordCount in
      (totalDurationMs + durationMs,
       details ++ [{| startMs := totalDurationMs;
                      endMs := totalDurationMs + durationMs;
                      detail_wordCount := wordCount;
                      detail_voiceId := voiceId |}])
  end.

(** [batchProcess(segments, defaultVoiceId, format)] at clock reading
    [timestamp].  The method has no [await] before its result is fixed
    and no [throw]. *)
Definition batchProcess (timestamp : Z) (segments : list Segment)
  (defaultVoiceId : string) (format : string) (t : LocalTTS)
  : BatchResult * LocalTTS :=
  let (totalDurationMs, details) :=
    fold_left (processSegment defaultVoiceId) segments (0, []) in
  let filename :=
    ("script_" ++ show (audioCounter t) ++ "_" ++ show timestamp
     ++ "." ++ format)%string in
  ({| batch_file := filename;
      batch_durationMs := totalDurationMs;
      batch_format := format;
      segmentDetails := details |},
   {| downloadedVoices := downloadedVoices t;
      isProcessing := false;
      audioCounter := audioCounter t + 1 |}).


(** The public methods, as the calls a running server makes on its
    [LocalTTS] instance; each call that names an audio file carries the
    clock reading it is made at. *)
Inductive Call : Type :=
| CallDownloadVoice (voiceId : string)
| CallTextToAudio (timestamp : Z) (text voiceId format : string)
| CallScriptToAudio (timestamp : Z) (scriptContent voiceId format : string)
| CallBatchProcess (timestamp : Z) (segments : list Segment)
    (defaultVoiceId format : string).

(** The file name of the audio that a call produces, if it produces one,
    and the instance afterwards.  [prepare] is [prepareScriptForTTS]. *)
Definition run_call (prepare : string -> string) (c : Call) (t : LocalTTS)
  : option string * LocalTTS :=
  match c with
  | CallDownloadVoice voiceId =>
      (None, snd (downloadVoice voiceId t))
  | CallTextToAudio timestamp text voiceId format =>
      match textToAudio timestamp text voiceId format t with
      | (inr result, t') => (Some (audio_file result), t')
      | (inl _, t') => (None, t')
      end
  | CallScriptToAudio timestamp scriptContent voiceId format =>
      match scriptToAudio prepare timestamp scriptContent voiceId format t
      with
      | (inr result, t') => (Some (audio_file result), t')
      | (inl _, t') => (None, t')
      end
  | CallBatchProcess timestamp segments defaultVoiceId format =>
      let (result, t') :=
        batchProcess timestamp segments defaultVoiceId format t in
      (Some (batch_file result), t')
  end.

(** The audio file names produced by a sequence of calls, in call order,
    and the instance afterwards. *)
Fixpoint run_calls (prepare : string -> string) (calls : list Call)
  (t : LocalTTS) : list string * LocalTTS :=
  match calls with
  | [] => ([], t)
  | c :: rest =>
      let (file, t1) := run_call prepare c t in
      let (files, t2) := run_calls prepare rest t1 in
      (match file with Some f => f :: files | None => files end, t2)
  end.



(** Two narrated segments around one whose voice does not exist. *)
Definition sampleSegments : list Segment :=
  [ {| seg_text := "hello world"; seg_voiceId := None |};
    {| seg_text := "skipped words here"; seg_voiceId := Some "robot" |};
    {| seg_text := "one two three"; seg_voiceId := Some "casual-male" |} ].

Definition sampleCalls : list Call :=
  [ CallTextToAudio 1000 "hello world" "casual-male" "mp3";
    CallTextToAudio 1000 "hello" "robot" "mp3";
    CallBatchProcess 1000 sampleSegments "professional-male" "mp3";
    CallTextToAudio 1000 "hello world" "casual-male" "mp3" ].

End TTSBatch.

(** ** File names with a counter *)

(** Whether the character [c] occurs in [s]. *)
Fixpoint occurs (c : ascii) (s : string) : bool :=
  match s with
  | EmptyString => false
  | String c' rest => Ascii.eqb c' c || occurs c rest
  end.

(** The file names that the services hand out:
    [`${prefix}_${counter}_${rest}`]. *)
Definition numbered (prefix : string) (counter : Z) (rest : string)
  : string :=
  (prefix ++ "_" ++ TTS.show counter ++ "_" ++ rest)%string.

(** A file name that carries a counter value not below [lo]. *)
Definition numbered_from (lo : Z) (file : string) : Prop :=
  exists prefix counter rest,
    occurs "_" prefix = false /\ lo <= counter
    /\ file = numbered prefix counter rest.

(* ===================================================================== *)
(** * Image generation
      ([server/services/zeroAI/localImageGenerator.ts])                   *)
(* ===================================================================== *)

Module ImageGen.

Record ImageModel := {
  model_id : string;
  model_name : string;
  model_type : string;
  supportedStyles : list string;
  supportedSizes : list string;
  supportedFormats : list string;
  downloadSizeGB : Q;
  minRamGB : Z;
  recommendedGPU : bool;
  generationTimeSeconds : Z }.

(** The own properties of the object literal [availableModels]. *)
Definition availableModels : list (string * ImageModel) :=
  [ ("svg-generator",
     {| model_id := "svg-generator";
        model_name := "SVG Vector Generator";
        model_type := "svg-generator";
        supportedStyles := ["minimalist"; "abstract"; "cartoon"];
        supportedSizes := ["512x512"; "1024x1024"; "1280x720"];
        supportedFormats := ["svg"; "png"];
        downloadSizeGB := (2 # 10)%Q;
        minRamGB := 2;
        recommendedGPU := false;
        generationTimeSeconds := 3 |});
    ("stable-diffusion-lite",
     {| model_id := "stable-diffusion-lite";
        model_name := "Stable Diffusion Lite";
        model_type := "stable-diffusion";
        supportedStyles := ["photorealistic"; "artistic"; "abstract"];
        supportedSizes := ["512x512"; "768x768"];
        supportedFormats := ["jpg"; "png"];
        downloadSizeGB := (25 # 10)%Q;
        minRamGB := 4;
        recommendedGPU := true;
        generationTimeSeconds := 15 |});
    ("sketch-generator",
     {| model_id := "sketch-generator";
        model_name := "Sketch Generator";
        model_type := "sketch-generator";
        supportedStyles := ["minimalist"; "cartoon"];
        supportedSizes := ["512x512"; "1024x1024"];
        supportedFormats := ["png"; "svg"];
        downloadSizeGB := (8 # 10)%Q;
        minRamGB := 2;
        recommendedGPU := false;
        generationTimeSeconds := 5 |}) ].

Fixpoint own (k : string) (table : list (string * ImageModel))
  : option ImageModel :=
  match table with
  | [] => None
  | (k', m) :: rest => if String.eqb k' k then Some m else own k rest
  end.

(** What [availableModels[modelId]] evaluates to.  [availableModels] is a
    plain object literal like [availableVoices]: a read that finds no own
    property continues on [Object.prototype], where it finds a function or
    an object, truthy and without any of the fields of a model. *)
Inductive Lookup : Type :=
| OwnModel (m : ImageModel)
| Inherited
| Undefined.

Definition lookupModel (modelId : string) : Lookup :=
  match own modelId availableModels with
  | Some m => OwnModel m
  | None => if existsb (String.eqb modelId) TTS.objectPrototypeKeys
            then Inherited else Undefined
  end.

(** [getModelStatus().available]: [Object.values(availableModels)]. *)
Definition listedModels : list ImageModel := map snd availableModels.

Record LocalImageGenerator := {
  downloadedModels : list string;
  activeModel : string;
  isProcessing : bool;
  imageCounter : Z }.

(** [new LocalImageGenerator()] *)
Definition newLocalImageGenerator : LocalImageGenerator :=
  {| downloadedModels := ["svg-generator"];
     activeModel := "svg-generator";
     isProcessing := false;
     imageCounter := 1 |}.

(** [ensureModel(modelId)]: the boolean it resolves to and the instance
    afterwards.  The time the download timer takes is not part of the
    embedding. *)
Definition ensureModel (modelId : string) (g : LocalImageGenerator)
  : bool * LocalImageGenerator :=
  match lookupModel modelId with
  | Undefined => (false, g)
  | _ =>
      if TTS.set_has modelId (downloadedModels g) then
        (true, {| downloadedModels := downloadedModels g;
                  activeModel := modelId;
                  isProcessing := isProcessing g;
                  imageCounter := imageCounter g |})
      else
        (true, {| downloadedModels := TTS.set_add modelId (downloadedModels g);
                  activeModel := modelId;
                  isProcessing := isProcessing g;
                  imageCounter := imageCounter g |})
  end.

(** [ImageGenerationParams]; [negativePrompt] and [seed] are not read by
    the service. *)
Record Params := {
  prompt : string;
  negativePrompt : option string;
  size : option string;
  style : option string;
  format : option string;
  seed : option Z;
  modelId : option string }.

(** [requested && supported.includes(requested) ? requested :
    supported[0]]; [None] is [undefined], which is what [supported[0]] is
    on an empty array. *)
Definition choose (requested : option string) (supported : list string)
  : option string :=
  match requested with
  | Some v =>
      if negb (String.eqb v "") && existsb (String.eqb v) supported
      then Some v else nth_error supported 0
  | None => nth_error supported 0
  end.

(** A value interpolated into a template literal. *)
Definition interpolate (o : option string) : string :=
  match o with Some v => v | None => "undefined" end.

Record Generated := {
  gen_file : string;
  gen_prompt : string;
  gen_size : option string;
  gen_style : option string;
  gen_format : option string;
  gen_generationTime : Q }.

(** [`${this.outputDir}/${filename}`] *)
Definition outputDir : string := "/content/images".
Definition gen_imagePath (r : Generated) : string :=
  (outputDir ++ "/" ++ gen_file r)%string.

(** [Math.min(5000, baseTime * sizeMultiplier)], in milliseconds. *)
Definition processingTime (model : ImageModel) (size : option string) : Q :=
  let baseTime := inject_Z (generationTimeSeconds model * 1000) in
  let sizeMultiplier :=
    match size with
    | Some s => if String.eqb s "1024x1024" then (15 # 10)%Q
                else if String.eqb s "1920x1080" then inject_Z 2
                else inject_Z 1
    | None => inject_Z 1
    end in
  let scaled := (baseTime * sizeMultiplier)%Q in
  if Qle_bool (inject_Z 5000) scaled then inject_Z 5000 else scaled.

(** The [TypeError]s of a property read on [undefined], with the message
    that Node gives them. *)
Definition cannotRead (property : string) : Thrown :=
  JsError ("Cannot read properties of undefined (reading '" ++ property
           ++ "')")%string.

(** [generateImage(params)]; [timestamp] is the clock reading at which
    the file is named.  When the property read finds no model at all the
    first read of [model.supportedSizes] throws; when it finds an
    inherited property, [model.supportedSizes] is [undefined] and the
    read of [includes], or of the element [0], on it throws.  Nothing
    catches the error, so [isProcessing] stays set. *)
Definition generateImage (timestamp : Z) (params : Params)
  (g : LocalImageGenerator) : (Thrown + Generated) * LocalImageGenerator :=
  let g := {| downloadedModels := downloadedModels g;
              activeModel := activeModel g;
              isProcessing := true;
              imageCounter := imageCounter g |} in
  let modelId := or_default_str (modelId params) (activeModel g) in
  let g := if negb (TTS.set_has modelId (downloadedModels g))
           then snd (ensureModel modelId g) else g in
  match lookupModel modelId with
  | Undefined => (inl (cannotRead "supportedSizes"), g)
  | Inherited =>
      (inl (cannotRead
              (match size params with
               | Some s => if String.eqb s "" then "0" else "includes"
               | None => "0"
               end)), g)
  | OwnModel model =>
      let size := choose (size params) (supportedSizes model) in
      let style := choose (style params) (supportedStyles model) in
      let format := choose (format params) (supportedFormats model) in
      let filename :=
        ("img_" ++ TTS.show (imageCounter g) ++ "_" ++ TTS.show timestamp
         ++ "." ++ interpolate format)%string in
      (inr {| gen_file := filename;
              gen_prompt := prompt params;
              gen_size := size;
              gen_style := style;
              gen_format := format;
              gen_generationTime :=
                (processingTime model size / inject_Z 1000)%Q |},
       {| downloadedModels := downloadedModels g;
          activeModel := activeModel g;
          isProcessing := false;
          imageCounter := imageCounter g + 1 |})
  end.

(** A default parameter value: it applies when the argument is
    [undefined]. *)
Definition defaulted {A : Type} (o : option A) (d : A) : A :=
  match o with Some v => v | None => d end.

(** The double-quote character. *)
Definition dquote : string := String "034"%char EmptyString.

(** [generateThumbnail(topic, style = 'artistic', size = '1280x720')];
    it never throws. *)
Definition generateThumbnail (timestamp : Z) (topic : string)
  (style size : option string) (g : LocalImageGenerator)
  : ThumbnailResult * LocalImageGenerator :=
  let style := defaulted style "artistic" in
  let size := defaulted size "1280x720" in
  let prompt :=
    ("Thumbnail image for content about " ++ dquote ++ topic ++ dquote
     ++ ". Vibrant colors, eye-catching design, professional looking, "
     ++ style ++ " style, suitable for social media thumbnail")%string in
  let filename :=
    ("thumb_" ++ TTS.show (imageCounter g) ++ "_" ++ TTS.show timestamp
     ++ ".png")%string in
  ({| thumb_file := filename; thumb_prompt := prompt;
      thumb_size := size; thumb_style := style |},
   {| downloadedModels := downloadedModels g;
      activeModel := activeModel g;
      isProcessing := false;
      imageCounter := imageCounter g + 1 |}).

(** The loop [for (let i = 0; i < count; i++)] that names one file per
    turn, [`${prefix}_${this.imageCounter++}_${timestamp}_${i}.png`],
    from turn [i] on with [turns] turns to go. *)
Fixpoint numberedFiles (prefix : string) (timestamp : Z) (counter : Z)
  (i : Z) (turns : nat) : list string :=
  match turns with
  | O => []
  | S turns' =>
      (prefix ++ "_" ++ TTS.show counter ++ "_" ++ TTS.show timestamp
       ++ "_" ++ TTS.show i ++ ".png")%string
      :: numberedFiles prefix timestamp (counter + 1) (i + 1) turns'
  end.

Record Frames := {
  frame_files : list string;
  frames_style : string;
  frames_generationTime : Q }.

(** [generateVideoFrames(script, style = 'artistic', frameCount = 10)]
    for an integer [frameCount].  The prompts that the method derives
    from the script are not part of what it returns. *)
Definition generateVideoFrames (timestamp : Z) (script : string)
  (style : option string) (frameCount : option Z) (g : LocalImageGenerator)
  : Frames * LocalImageGenerator :=
  let style := defaulted style "artistic" in
  let frameCount := defaulted frameCount 10 in
  let turns := Z.to_nat frameCount in
  ({| frame_files :=
        numberedFiles "frame" timestamp (imageCounter g) 0 turns;
      frames_style := style;
      frames_generationTime :=
        (inject_Z (Z.min 10000 (1000 + frameCount * 500))
         / inject_Z 1000)%Q |},
   {| downloadedModels := downloadedModels g;
      activeModel := activeModel g;
      isProcessing := false;
      imageCounter := imageCounter g + Z.of_nat turns |}).

Record Variations := {
  variation_files : list string;
  variations_generationTime : Q }.

(** [generateVariations(basePath, variationCount = 3, variationStrength)]
    for an integer [variationCount]; the strength is not read. *)
Definition generateVariations (timestamp : Z) (basePath : string)
  (variationCount : option Z) (g : LocalImageGenerator)
  : Variations * LocalImageGenerator :=
  let variationCount := defaulted variationCount 3 in
  let turns := Z.to_nat variationCount in
  ({| variation_files :=
        numberedFiles "var" timestamp (imageCounter g) 0 turns;
      variations_generationTime :=
        (inject_Z (Z.min 8000 (1000 + variationCount * 1000))
         / inject_Z 1000)%Q |},
   {| downloadedModels := downloadedModels g;
      activeModel := activeModel g;
      isProcessing := false;
      imageCounter := imageCounter g + Z.of_nat turns |}).

(** The public methods, as the calls a running server makes on its
    [LocalImageGenerator] instance, one after the other. *)
Inductive Call : Type :=
| CallEnsureModel (modelId : string)
| CallGenerateImage (timestamp : Z) (params : Params)
| CallGenerateThumbnail (timestamp : Z) (topic : string)
    (style size : option string)
| CallGenerateVideoFrames (timestamp : Z) (script : string)
    (style : option string) (frameCount : option Z)
| CallGenerateVariations (timestamp : Z) (basePath : string)
    (variationCount : option Z).

(** The names of the files that a call produces, and the instance
    afterwards. *)
Definition run_call (c : Call) (g : LocalImageGenerator)
  : list string * LocalImageGenerator :=
  match c with
  | CallEnsureModel modelId => ([], snd (ensureModel modelId g))
  | CallGenerateImage timestamp params =>
      match generateImage timestamp params g with
      | (inr result, g') => ([gen_file result], g')
      | (inl _, g') => ([], g')
      end
  | CallGenerateThumbnail timestamp topic style size =>
      let (result, g') := generateThumbnail timestamp topic style size g in
      ([thumb_file result], g')
  | CallGenerateVideoFrames timestamp script style frameCount =>
      let (result, g') :=
        generateVideoFrames timestamp script style frameCount g in
      (frame_files result, g')
  | CallGenerateVariations timestamp basePath variationCount =>
      let (result, g') :=
        generateVariations timestamp basePath variationCount g in
      (variation_files result, g')
  end.

Fixpoint run_calls (calls : list Call) (g : LocalImageGenerator)
  : list string * LocalImageGenerator :=
  match calls with
  | [] => ([], g)
  | c :: rest =>
      let (files, g1) := run_call c g in
      let (more, g2) := run_calls rest g1 in
      (files ++ more, g2)
  end.

(** The model a call of [generateImage] works with:
    [params.modelId || this.activeModel]. *)
Definition requestedModel (params : Params) (g : LocalImageGenerator)
  : string :=
  or_default_str (modelId params) (activeModel g).

(** Calls of [generateImage] that leave the model to the service. *)
Definition usesActiveModel (c : Call) : Prop :=
  match c with
  | CallGenerateImage _ params => modelId params = None
  | _ => False
  end.

(** The parameters that the automation pipeline passes. *)
Definition pipelineParams (prompt : string) : Params :=
  {| prompt := prompt; negativePrompt := None; size := Some "1024x1024";
     style := Some "artistic"; format := None; seed := None;
     modelId := None |}.

Definition sampleCalls : list Call :=
  [ CallGenerateImage 1000 (pipelineParams "a lighthouse");
    CallGenerateThumbnail 1000 "lighthouses" None None;
    CallGenerateVariations 1000 "/content/images/img_1_1000.svg" None;
    CallGenerateVideoFrames 1000 "# Lighthouses" None (Some 2);
    CallGenerateImage 1000 (pipelineParams "a lighthouse") ].

End ImageGen.

(** ** Vocabulary of the image properties *)

(** [result] is a value that the model supports: the requested one when
    that is supported, the first supported one otherwise. *)
Definition supported_choice (requested : option string)
  (supported : list string) (result : option string) : Prop :=
  (exists v, result = Some v /\ In v supported)
  /\ match requested with
     | Some r => if existsb (String.eqb r) supported
                 then result = Some r
                 else result = nth_error supported 0
     | None => result = nth_error supported 0
     end.

(** [file] is numbered by a counter from [lo] up to, not including,
    [hi]. *)
Definition numbered_between (lo hi : Z) (file : string) : Prop :=
  exists prefix counter rest,
    occurs "_" prefix = false /\ lo <= counter < hi
    /\ file = numbered prefix counter rest.

(* ===================================================================== *)
(** * Properties                                                          *)
(* ===================================================================== *)

(** ** [JsMap] *)
Module JsMapFacts.
Import JsMap.
Section Facts.
Variable V : Type.
Implicit Types (m : JsMap.t V) (k : Z) (v : V).

Lemma get_set_same m k v : get k (set k v m) = Some v.
Proof.
  induction m as [|[k' v'] m IH]; simpl.
  - now rewrite Z.eqb_refl.
  - destruct (k' =? k) eqn:E; simpl.
    + now rewrite Z.eqb_refl.
    + now rewrite E.
Qed.

Lemma get_set_other m k k' v : k' <> k -> get k' (set k v m) = get k' m.
Proof.
  intros Hne. induction m as [|[k0 v0] m IH]; simpl.
  - destruct (k =? k') eqn:E; [apply Z.eqb_eq in E; congruence | reflexivity].
  - destruct (k0 =? k) eqn:E; simpl.
    + apply Z.eqb_eq in E; subst k0.
      destruct (k =? k') eqn:E'; [apply Z.eqb_eq in E'; congruence|].
      reflexivity.
    + destruct (k0 =? k'); [reflexivity | exact IH].
Qed.

Lemma get_Some_In m k v : get k m = Some v -> In (k, v) m.
Proof.
  induction m as [|[k' v'] m IH]; simpl; [discriminate|].
  destruct (k' =? k) eqn:E.
  - apply Z.eqb_eq in E. intros [= ->]. left; congruence.
  - intros H; right; auto.
Qed.

Lemma get_None_notin m k : get k m = None -> ~ In k (keys m).
Proof.
  induction m as [|[k' v'] m IH]; simpl; [tauto|].
  destruct (k' =? k) eqn:E; [discriminate|].
  apply Z.eqb_neq in E. intros H [H'|H']; [congruence | now apply IH].
Qed.

Lemma In_keys_get m k : In k (keys m) -> exists v, get k m = Some v.
Proof.
  induction m as [|[k' v'] m IH]; simpl; [tauto|].
  destruct (k' =? k) eqn:E; [eauto|].
  apply Z.eqb_neq in E. intros [H|H]; [congruence | auto].
Qed.

(** [set] on a present key keeps the keys and their order. *)
Lemma keys_set_present m k v : In k (keys m) -> keys (set k v m) = keys m.
Proof.
  induction m as [|[k' v'] m IH]; simpl; [tauto|].
  destruct (k' =? k) eqn:E; simpl.
  - apply Z.eqb_eq in E. now subst.
  - apply Z.eqb_neq in E. intros [H|H]; [congruence|].
    now rewrite IH.
Qed.

(** [set] on a fresh key appends. *)
Lemma set_fresh m k v : ~ In k (keys m) -> set k v m = m ++ [(k, v)].
Proof.
  induction m as [|[k' v'] m IH]; simpl; [reflexivity|].
  intros H. destruct (k' =? k) eqn:E.
  - apply Z.eqb_eq in E. tauto.
  - now rewrite IH by tauto.
Qed.

Lemma Forall_set (P : Z * V -> Prop) m k v :
  Forall P m -> P (k, v) -> Forall P (set k v m).
Proof.
  induction 1 as [|[k' v'] m Hx Hm IH]; simpl; intros Hkv.
  - now constructor.
  - destruct (k' =? k); constructor; auto.
Qed.

Lemma delete_incl m k : incl (snd (delete k m)) m.
Proof.
  induction m as [|[k' v'] m IH]; simpl; [apply incl_refl|].
  destruct (k' =? k); simpl.
  - apply incl_tl, incl_refl.
  - destruct (delete k m) as [b r]; simpl in *.
    intros x [Hx|Hx]; [now left | right; now apply IH].
Qed.

Lemma NoDup_keys_delete m k :
  NoDup (keys m) -> NoDup (keys (snd (delete k m))).
Proof.
  induction m as [|[k' v'] m IH]; simpl; intros H; [constructor|].
  inversion H as [|? ? Hnotin Hnd]; subst.
  destruct (k' =? k); simpl; [exact Hnd|].
  specialize (IH Hnd). pose proof (delete_incl m k) as Hincl.
  destruct (delete k m) as [b r]; simpl in *.
  constructor; [|exact IH].
  intros Hin. apply Hnotin. unfold keys in *.
  apply in_map_iff in Hin as [x [Hx1 Hx2]]. apply in_map_iff.
  exists x; split; auto.
Qed.

Lemma Forall_delete (P : Z * V -> Prop) m k :
  Forall P m -> Forall P (snd (delete k m)).
Proof.
  intros H. apply Forall_forall. intros x Hx.
  eapply Forall_forall in H; [exact H|]. now apply (delete_incl m k).
Qed.

Lemma NoDup_keys_set m k v : NoDup (keys m) -> NoDup (keys (set k v m)).
Proof.
  intros H. destruct (in_dec Z.eq_dec k (keys m)) as [Hin|Hnot].
  - now rewrite keys_set_present.
  - rewrite set_fresh by assumption. unfold keys in *.
    rewrite map_app; simpl.
    apply NoDup_app_remove_l with (l := []). simpl.
    apply Permutation_NoDup with (l := k :: map fst m).
    + apply Permutation_cons_append.
    + now constructor.
Qed.
End Facts.
End JsMapFacts.

(** ** [JsArray] *)
Module JsArrayFacts.
Import JsArray.
Section Facts.
Variable A : Type.
Implicit Types (l : list A) (x : A).

Lemma insert_perm cmp x l : Permutation (x :: l) (insert cmp x l).
Proof.
  induction l as [|y l IH]; simpl; [reflexivity|].
  destruct (cmp x y <=? 0); [reflexivity|].
  rewrite perm_swap. now constructor.
Qed.

Lemma sort_perm cmp l : Permutation l (sort cmp l).
Proof.
  induction l as [|x l IH]; simpl; [constructor|].
  rewrite <- insert_perm. now constructor.
Qed.

Lemma sort_In cmp l x : In x (sort cmp l) <-> In x l.
Proof.
  split; apply Permutation_in;
    [apply Permutation_sym|]; apply sort_perm.
Qed.

Lemma sort_length cmp l : List.length (sort cmp l) = List.length l.
Proof. symmetry. apply Permutation_length, sort_perm. Qed.

(** A comparator of the form [key a - key b] sorts by ascending key. *)
Section ByKey.
Variable key : A -> Z.
Variable cmp : A -> A -> Z.
Hypothesis cmp_key : forall a b, cmp a b = key a - key b.

Lemma insert_sorted x l :
  StronglySorted (ascending key) l ->
  StronglySorted (ascending key) (insert cmp x l).
Proof.
  induction 1 as [|y l Hl IH Hy]; simpl.
  - repeat constructor.
  - rewrite cmp_key. destruct (key x - key y <=? 0) eqn:E.
    + apply Z.leb_le in E. constructor.
      * now constructor.
      * constructor; [unfold ascending; lia|].
        eapply Forall_impl; [|exact Hy].
        unfold ascending; intros; lia.
    + apply Z.leb_gt in E. constructor; [exact IH|].
      apply Forall_forall. intros z Hz.
      apply (Permutation_in _ (Permutation_sym (insert_perm cmp x l)))
        in Hz.
      destruct Hz as [<-|Hz]; [unfold ascending; lia|].
      eapply Forall_forall in Hy; eauto.
Qed.

Lemma sort_sorted l : StronglySorted (ascending key) (sort cmp l).
Proof.
  induction l as [|x l IH]; simpl; [constructor|].
  now apply insert_sorted.
Qed.

(** The head of the sorted array is an element of smallest key. *)
Lemma sort_head_min l x rest :
  sort cmp l = x :: rest -> forall y, In y l -> key x <= key y.
Proof.
  intros Hs y Hy. pose proof (sort_sorted l) as Hsorted.
  rewrite Hs in Hsorted. apply (sort_In cmp) in Hy. rewrite Hs in Hy.
  inversion Hsorted as [|? ? _ Hall]; subst.
  destruct Hy as [<-|Hy]; [lia|].
  eapply Forall_forall in Hall; eauto.
Qed.
End ByKey.

(** [slice(0, limit)] is a prefix of the array. *)
Lemma slice0_prefix limit l : exists rest, l = slice0 limit l ++ rest.
Proof.
  unfold slice0. eexists. symmetry. apply firstn_skipn.
Qed.

Lemma slice0_In limit l x : In x (slice0 limit l) -> In x l.
Proof.
  destruct (slice0_prefix limit l) as [rest H]. intros Hx.
  rewrite H. apply in_or_app; now left.
Qed.


Lemma slice0_one l : slice0 1 l = match l with [] => [] | x :: _ => [x] end.
Proof.
  unfold slice0. destruct l as [|x l]; [reflexivity|].
  assert (E : Z.to_nat (if 1 <? 0
                        then Z.max (Z.of_nat (List.length (x :: l)) + 1) 0
                        else Z.min 1 (Z.of_nat (List.length (x :: l))))
              = 1%nat).
  { change (1 <? 0) with false. cbv iota. simpl List.length. lia. }
  rewrite E. reflexivity.
Qed.

Lemma StronglySorted_prefix (R : A -> A -> Prop) l1 l2 :
  StronglySorted R (l1 ++ l2) -> StronglySorted R l1.
Proof.
  induction l1 as [|x l1 IH]; simpl; intros H; [constructor|].
  inversion H as [|? ? Hs Hall]; subst. constructor; [auto|].
  apply Forall_app in Hall. tauto.
Qed.

Lemma StronglySorted_app_le (R : A -> A -> Prop) l1 l2 x y :
  StronglySorted R (l1 ++ l2) -> In x l1 -> In y l2 -> R x y.
Proof.
  induction l1 as [|z l1 IH]; simpl; intros H Hx Hy; [tauto|].
  inversion H as [|? ? Hs Hall]; subst. destruct Hx as [->|Hx].
  - eapply Forall_forall in Hall; [exact Hall|].
    apply in_or_app; now right.
  - now apply IH.
Qed.

Lemma StronglySorted_impl (R R' : A -> A -> Prop) l :
  (forall a b, R a b -> R' a b) ->
  StronglySorted R l -> StronglySorted R' l.
Proof.
  intros HR. induction 1 as [|x l Hs IH Hall]; constructor; auto.
  eapply Forall_impl; [|exact Hall]. auto.
Qed.

Lemma slice0_sorted (R : A -> A -> Prop) limit l :
  StronglySorted R l -> StronglySorted R (slice0 limit l).
Proof.
  destruct (slice0_prefix limit l) as [rest H]. intros Hs.
  rewrite H in Hs. now apply StronglySorted_prefix in Hs.
Qed.

(** Whatever is cut off by [slice(0, limit)] of a sorted array is not
    before anything that is kept. *)
Lemma slice0_cut (R : A -> A -> Prop) limit l x y :
  StronglySorted R l -> In x (slice0 limit l) -> In y l ->
  In y (slice0 limit l) \/ R x y.
Proof.
  destruct (slice0_prefix limit l) as [rest H]. intros Hs Hx Hy.
  rewrite H in Hs, Hy. apply in_app_or in Hy as [Hy|Hy]; [now left|].
  right. eapply StronglySorted_app_le; eauto.
Qed.
End Facts.
End JsArrayFacts.

(** ** Top trending topics *)


Example tiedStorage_top1 :
  map topic_id (getTopTrendingTopics 1 tiedStorage) = [3]
  /\ map topic_id (getTrendingTopics tiedStorage) = [1; 2; 3; 4].
Proof. split; vm_compute; reflexivity. Qed.




(** ** Upcoming scheduled posts *)



(** ** The store invariant *)

Section TableInvariant.
Variable E : Type.
Variable id_of : E -> Z.
Implicit Types (m : JsMap.t E) (e : E).

Lemma table_ok_create m next e :
  table_ok id_of m next -> id_of e = next ->
  table_ok id_of (JsMap.set next e m) (next + 1).
Proof.
  intros [Hnd Hall] Hid. split.
  - now apply JsMapFacts.NoDup_keys_set.
  - apply JsMapFacts.Forall_set.
    + eapply Forall_impl; [|exact Hall]. simpl; intros kv [? ?]; split; lia.
    + simpl; split; lia.
Qed.

Lemma table_ok_update m next k e0 e :
  table_ok id_of m next -> JsMap.get k m = Some e0 -> id_of e = id_of e0 ->
  table_ok id_of (JsMap.set k e m) next.
Proof.
  intros [Hnd Hall] Hget Hid. apply JsMapFacts.get_Some_In in Hget.
  pose proof (proj1 (Forall_forall _ _) Hall _ Hget) as [Hk Hlt].
  simpl in Hk, Hlt. split.
  - now apply JsMapFacts.NoDup_keys_set.
  - apply JsMapFacts.Forall_set; [exact Hall|]. simpl. split; congruence.
Qed.

Lemma table_ok_delete m next k :
  table_ok id_of m next -> table_ok id_of (snd (JsMap.delete k m)) next.
Proof.
  intros [Hnd Hall]. split.
  - now apply JsMapFacts.NoDup_keys_delete.
  - now apply JsMapFacts.Forall_delete.
Qed.

Lemma table_ok_bump m next next' :
  table_ok id_of m next -> next <= next' -> table_ok id_of m next'.
Proof.
  intros [Hnd Hall] Hle. split; [exact Hnd|].
  eapply Forall_impl; [|exact Hall]. simpl; intros kv [? ?]; split; lia.
Qed.

(** Under the invariant the [id] fields of the rows are the keys. *)
Lemma table_ok_ids m next :
  table_ok id_of m next -> map id_of (JsMap.values m) = JsMap.keys m.
Proof.
  intros [_ Hall]. unfold JsMap.values, JsMap.keys. rewrite map_map.
  apply map_ext_in. intros kv Hin.
  now apply (proj1 (Forall_forall _ _) Hall).
Qed.

Lemma table_ok_NoDup_ids m next :
  table_ok id_of m next -> NoDup (map id_of (JsMap.values m)).
Proof.
  intros H. rewrite (table_ok_ids H). apply H.
Qed.

Lemma table_ok_ids_below m next :
  table_ok id_of m next ->
  forall id, In id (map id_of (JsMap.values m)) -> id < next.
Proof.
  intros H id Hin. rewrite (table_ok_ids H) in Hin.
  unfold JsMap.keys in Hin. apply in_map_iff in Hin as [kv [<- Hkv]].
  now apply (proj1 (Forall_forall _ _) (proj2 H)).
Qed.
End TableInvariant.

Ltac split_store_ok :=
  match goal with
  | H : store_ok _ |- _ =>
      destruct H as (Huser & Hscript & Hconfig & Hplatform & Haccount
                     & Hcontent & Hpost & Htopic)
  end.

Ltac split_tables :=
  unfold store_ok; simpl;
  repeat match goal with |- _ /\ _ => split end.

Ltac table_step :=
  first
    [ assumption
    | apply table_ok_create; [assumption | reflexivity]
    | eapply table_ok_update; [eassumption | eassumption | reflexivity]
    | apply table_ok_delete; assumption ].

Ltac update_case get_expr :=
  let E := fresh "E" in
  destruct get_expr eqn:E; simpl;
  [ split_tables; table_step | split_tables; assumption ].

Ltac delete_case del_expr tbl_ok :=
  let H := fresh "Hdel" in
  pose proof tbl_ok as H; simpl in H;
  destruct del_expr; simpl in *; split_tables; assumption.

Lemma store_ok_apply_op (o : Op) (s : MemStorage) :
  store_ok s -> store_ok (apply_op o s).
Proof.
  intros H. split_store_ok. destruct o; simpl.
  - split_tables; table_step.
  - split_tables; table_step.
  - unfold updateScript. update_case (JsMap.get id (scripts s)).
  - unfold deleteScript.
    delete_case (JsMap.delete id (scripts s))
                (table_ok_delete id Hscript).
  - split_tables; table_step.
  - unfold updateAiConfig. update_case (JsMap.get id (aiConfigs s)).
  - unfold deleteAiConfig.
    delete_case (JsMap.delete id (aiConfigs s))
                (table_ok_delete id Hconfig).
  - split_tables; table_step.
  - unfold updatePlatform. update_case (JsMap.get id (platforms s)).
  - unfold deletePlatform.
    delete_case (JsMap.delete id (platforms s))
                (table_ok_delete id Hplatform).
  - split_tables; table_step.
  - unfold updatePlatformAccount.
    update_case (JsMap.get id (platformAccounts s)).
  - unfold deletePlatformAccount.
    delete_case (JsMap.delete id (platformAccounts s))
                (table_ok_delete id Haccount).
  - split_tables; table_step.
  - unfold updateContent. update_case (JsMap.get id (contents s)).
  - unfold deleteContent.
    delete_case (JsMap.delete id (contents s))
                (table_ok_delete id Hcontent).
  - split_tables; table_step.
  - unfold updateScheduledPost.
    update_case (JsMap.get id (scheduledPosts s)).
  - unfold deleteScheduledPost.
    delete_case (JsMap.delete id (scheduledPosts s))
                (table_ok_delete id Hpost).
  - split_tables; table_step.
  - unfold updateTrendingTopic.
    update_case (JsMap.get id (trendingTopics s)).
  - unfold deleteTrendingTopic.
    delete_case (JsMap.delete id (trendingTopics s))
                (table_ok_delete id Htopic).
Qed.

Lemma distinct_NoDup (l : list Z) : distinct l = true -> NoDup l.
Proof.
  induction l as [|x l IH]; simpl; intros H; [constructor|].
  apply andb_true_iff in H as [Hx Hl]. constructor; [|auto].
  intros Hin. apply negb_true_iff in Hx.
  assert (existsb (Z.eqb x) l = true); [|congruence].
  apply existsb_exists. exists x. split; [exact Hin | apply Z.eqb_refl].
Qed.

Lemma table_okb_sound (E : Type) (id_of : E -> Z) (m : JsMap.t E) next :
  table_okb id_of m next = true -> table_ok id_of m next.
Proof.
  unfold table_okb, table_ok. intros H.
  apply andb_true_iff in H as [Hd Hf]. split.
  - now apply distinct_NoDup.
  - apply Forall_forall. intros kv Hkv.
    apply (proj1 (forallb_forall _ _) Hf) in Hkv.
    apply andb_true_iff in Hkv as [H1 H2].
    apply Z.eqb_eq in H1. apply Z.ltb_lt in H2. now split.
Qed.

Lemma store_okb_sound (s : MemStorage) : store_okb s = true -> store_ok s.
Proof.
  unfold store_okb, store_ok. intros H.
  repeat match type of H with
         | (_ && table_okb _ _ _)%bool = true =>
             let H' := fresh "Ht" in
             apply andb_true_iff in H; destruct H as [H H'];
             apply table_okb_sound in H'
         end.
  apply table_okb_sound in H.
  repeat match goal with |- _ /\ _ => split end; assumption.
Qed.

Lemma store_ok_new (now : Z) : store_ok (newMemStorage now).
Proof. apply store_okb_sound. vm_compute. reflexivity. Qed.

Lemma store_ok_run_ops (ops : list Op) (s : MemStorage) :
  store_ok s -> store_ok (run_ops ops s).
Proof.
  revert s. induction ops as [|o ops IH]; simpl; intros s H; [exact H|].
  apply IH. now apply store_ok_apply_op.
Qed.

Lemma reachable_store_ok (s : MemStorage) : reachable s -> store_ok s.
Proof.
  intros (now & ops & ->). apply store_ok_run_ops, store_ok_new.
Qed.

Lemma run_ops_nil (s : MemStorage) : run_ops [] s = s.
Proof. reflexivity. Qed.

Lemma reachable_new (now : Z) : reachable (newMemStorage now).
Proof. exists now, []. symmetry. apply run_ops_nil. Qed.

Lemma reachable_apply_op (o : Op) (s : MemStorage) :
  reachable s -> reachable (apply_op o s).
Proof.
  intros (now & ops & ->). exists now, (ops ++ [o]).
  unfold run_ops. now rewrite fold_left_app.
Qed.

(** ** Creating rows *)

Lemma create_is_op k now (i : InsertOf k) s :
  snd (create k now i s) = apply_op (create_op k now i) s.
Proof. destruct k; reflexivity. Qed.

(** A create call returns the current counter and increments it. *)
Lemma create_id k now (i : InsertOf k) s :
  fst (create k now i s) = counter k s
  /\ counter k (snd (create k now i s)) = counter k s + 1.
Proof. destruct k; split; reflexivity. Qed.

Lemma store_ok_live_ids k s :
  store_ok s ->
  NoDup (live_ids k s) /\ (forall id, In id (live_ids k s) -> id < counter k s).
Proof.
  intros H. split_store_ok.
  destruct k; simpl; split;
    first [ eapply table_ok_NoDup_ids; eassumption
          | eapply table_ok_ids_below; eassumption ].
Qed.

Lemma create_many_increasing k (inputs : list (Z * InsertOf k)) s :
  StronglySorted Z.lt (fst (create_many k inputs s))
  /\ Forall (fun id => counter k s <= id) (fst (create_many k inputs s)).
Proof.
  revert s. induction inputs as [|[now i] rest IH]; intros s; simpl.
  - split; constructor.
  - destruct (create_id k now i s) as [Hid Hnext].
    destruct (create k now i s) as [id s1]; simpl in *.
    specialize (IH s1). destruct (create_many k rest s1) as [ids s2].
    simpl in *. destruct IH as [Hsorted Hall]. subst id. split.
    + constructor; [exact Hsorted|].
      eapply Forall_impl; [|exact Hall]. simpl; intros; lia.
    + constructor; [lia|].
      eapply Forall_impl; [|exact Hall]. simpl; intros; lia.
Qed.

Lemma create_many_reachable k (inputs : list (Z * InsertOf k)) s :
  reachable s -> reachable (snd (create_many k inputs s)).
Proof.
  revert s. induction inputs as [|[now i] rest IH]; intros s H; simpl.
  - exact H.
  - pose proof (create_is_op k now i s) as Hop.
    destruct (create k now i s) as [id s1]; simpl in *.
    specialize (IH s1). destruct (create_many k rest s1) as [ids s2].
    simpl in *. apply IH. rewrite Hop. now apply reachable_apply_op.
Qed.

(** C5: in a running server, the ids returned by any sequence of create
    calls on one table are strictly increasing in call order and differ
    from the ids of all rows stored before; and in every store the
    server can reach, in particular after these calls, no two stored
    rows of a table have the same id. *)
Theorem create_ids_increasing_and_unique (k : Kind)
  (inputs : list (Z * InsertOf k)) (s : MemStorage) :
  reachable s ->
  StronglySorted Z.lt (fst (create_many k inputs s))
  /\ (forall id, In id (fst (create_many k inputs s)) ->
                 ~ In id (live_ids k s))
  /\ (forall k', NoDup (live_ids k' s))
  /\ (forall k', NoDup (live_ids k' (snd (create_many k inputs s)))).
Proof.
  intros Hreach.
  pose proof (reachable_store_ok Hreach) as Hok.
  destruct (create_many_increasing k inputs s) as [Hsorted Hall].
  split; [exact Hsorted|]. split; [|split].
  - intros id Hin Hlive.
    apply (proj1 (Forall_forall _ _) Hall) in Hin.
    apply (store_ok_live_ids k Hok) in Hlive. lia.
  - intros k'. now apply store_ok_live_ids.
  - intros k'. apply store_ok_live_ids, reachable_store_ok.
    now apply create_many_reachable.
Qed.

Example create_many_sample :
  fst (create_many KContent sampleContentInputs (newMemStorage 0)) = [7; 8].
Proof. vm_compute. reflexivity. Qed.

(** Two contents created on the fresh server get ids 7 and 8. *)
Lemma create_ids_increasing_and_unique_witness :
  reachable (newMemStorage 0)
  /\ StronglySorted Z.lt
       (fst (create_many KContent sampleContentInputs (newMemStorage 0)))
  /\ NoDup (live_ids KContent
              (snd (create_many KContent sampleContentInputs
                                (newMemStorage 0)))).
Proof.
  split; [apply reachable_new|].
  split;
    apply (create_ids_increasing_and_unique KContent sampleContentInputs
             (reachable_new 0)).
Defined.

(** ** Updates *)

Ltac roundtrip :=
  let s := fresh "s" in
  let id := fresh "id" in
  let p := fresh "p" in
  let e := fresh "e" in
  let Hget := fresh "Hget" in
  intros s id p e Hget;
  cbv delta [getScript updateScript getAiConfig updateAiConfig
             getPlatform updatePlatform getPlatformAccount
             updatePlatformAccount getContent updateContent
             getScheduledPost updateScheduledPost getTrendingTopic
             updateTrendingTopic] in *;
  cbv beta in *; rewrite Hget; simpl;
  split; [reflexivity|];
  split; [apply JsMapFacts.get_set_same
         | intros; apply JsMapFacts.get_set_other; assumption].

Ltac fields_merged :=
  repeat (constructor; [intros ? ?; reflexivity|]); constructor.

Lemma updateScript_roundtrip :
  update_roundtrip getScript updateScript mergeScript
  /\ Forall (field_merged mergeScript) script_fields.
Proof. split; [roundtrip | fields_merged]. Qed.

Lemma updatePlatform_roundtrip :
  update_roundtrip getPlatform updatePlatform mergePlatform
  /\ Forall (field_merged mergePlatform) platform_fields.
Proof. split; [roundtrip | fields_merged]. Qed.

Lemma updatePlatformAccount_roundtrip :
  update_roundtrip getPlatformAccount updatePlatformAccount
                   mergePlatformAccount
  /\ Forall (field_merged mergePlatformAccount) account_fields.
Proof. split; [roundtrip | fields_merged]. Qed.

Lemma updateContent_roundtrip :
  update_roundtrip getContent updateContent mergeContent
  /\ Forall (field_merged mergeContent) content_fields.
Proof. split; [roundtrip | fields_merged]. Qed.

Lemma updateScheduledPost_roundtrip :
  update_roundtrip getScheduledPost updateScheduledPost mergeScheduledPost
  /\ Forall (field_merged mergeScheduledPost) post_fields.
Proof. split; [roundtrip | fields_merged]. Qed.

Lemma updateTrendingTopic_roundtrip :
  update_roundtrip getTrendingTopic updateTrendingTopic mergeTrendingTopic
  /\ Forall (field_merged mergeTrendingTopic) topic_fields.
Proof. split; [roundtrip | fields_merged]. Qed.

Lemma updateAiConfig_roundtrip (now : Z) :
  update_roundtrip getAiConfig (updateAiConfig now) (mergeAiConfig now)
  /\ Forall (field_merged (mergeAiConfig now)) aiConfig_fields
  /\ (forall e p, aiConfig_lastUpdated (mergeAiConfig now e p) = now).
Proof. split; [roundtrip | split; [fields_merged | reflexivity]]. Qed.

(** C7, as stated, fails for AI configs: the seeded config 1 was last
    updated at construction time 0; an update at time 5 whose payload has
    no key at all returns, and stores, a record whose [lastUpdated] is 5. *)
Lemma updateAiConfig_changes_lastUpdated :
  option_map aiConfig_lastUpdated (getAiConfig 1 (newMemStorage 0)) = Some 0
  /\ field_upd aiConfig_lastUpdated_field noChangeAiConfig = None
  /\ option_map aiConfig_lastUpdated
       (fst (updateAiConfig 5 1 noChangeAiConfig (newMemStorage 0)))
     = Some 5
  /\ option_map aiConfig_lastUpdated
       (getAiConfig 1
          (snd (updateAiConfig 5 1 noChangeAiConfig (newMemStorage 0))))
     = Some 5
  /\ ~ field_merged (mergeAiConfig 5) aiConfig_lastUpdated_field.
Proof.
  repeat split; try (vm_compute; reflexivity).
  intros H.
  specialize (H {| aiConfig_id := 1; aiConfig_name := "";
                   aiConfig_modelType := ""; aiConfig_modelName := "";
                   aiConfig_active := true; aiConfig_settings := JNull;
                   aiConfig_capabilities := JNull;
                   aiConfig_lastUpdated := 0;
                   aiConfig_downloadStatus := None |} noChangeAiConfig).
  discriminate H.
Qed.

(** C7, amended: for scripts, platforms, platform accounts, contents,
    scheduled posts and trending topics, an update of an existing row
    returns the row obtained by shallow-merging the payload into it,
    every field that the payload does not carry keeps its value, a
    following get of the same id returns that merged row, and other rows
    are untouched.  For AI configs the same holds for every field except
    [lastUpdated], which each update sets to the time of the call. *)
Theorem update_returns_and_stores_merged_row :
  (update_roundtrip getScript updateScript mergeScript
   /\ Forall (field_merged mergeScript) script_fields)
  /\ (update_roundtrip getPlatform updatePlatform mergePlatform
      /\ Forall (field_merged mergePlatform) platform_fields)
  /\ (update_roundtrip getPlatformAccount updatePlatformAccount
                       mergePlatformAccount
      /\ Forall (field_merged mergePlatformAccount) account_fields)
  /\ (update_roundtrip getContent updateContent mergeContent
      /\ Forall (field_merged mergeContent) content_fields)
  /\ (update_roundtrip getScheduledPost updateScheduledPost
                       mergeScheduledPost
      /\ Forall (field_merged mergeScheduledPost) post_fields)
  /\ (update_roundtrip getTrendingTopic updateTrendingTopic
                       mergeTrendingTopic
      /\ Forall (field_merged mergeTrendingTopic) topic_fields)
  /\ (forall now : Z,
        update_roundtrip getAiConfig (updateAiConfig now) (mergeAiConfig now)
        /\ Forall (field_merged (mergeAiConfig now)) aiConfig_fields
        /\ (forall e p, aiConfig_lastUpdated (mergeAiConfig now e p) = now)).
Proof.
  repeat match goal with |- _ /\ _ => split end;
    first [ apply updateScript_roundtrip
          | apply updatePlatform_roundtrip
          | apply updatePlatformAccount_roundtrip
          | apply updateContent_roundtrip
          | apply updateScheduledPost_roundtrip
          | apply updateTrendingTopic_roundtrip
          | intros now; apply updateAiConfig_roundtrip ].
Qed.

(** Archiving the seeded content 1 changes its status and nothing else. *)
Lemma update_returns_and_stores_merged_row_witness :
  exists e,
    getContent 1 freshStorage = Some e
    /\ fst (updateContent 1 archiveContent freshStorage)
       = Some (mergeContent e archiveContent)
    /\ getContent 1 (snd (updateContent 1 archiveContent freshStorage))
       = Some (mergeContent e archiveContent)
    /\ content_status e = "published"
    /\ content_status (mergeContent e archiveContent) = "archived"
    /\ content_title (mergeContent e archiveContent) = content_title e.
Proof.
  destruct (getContent 1 freshStorage) as [e|] eqn:Hget;
    [|vm_compute in Hget; discriminate Hget].
  exists e.
  destruct update_returns_and_stores_merged_row
    as (_ & _ & _ & [Hround _] & _).
  destruct (Hround freshStorage 1 archiveContent e Hget) as (H1 & H2 & _).
  split; [reflexivity|]. split; [exact H1|]. split; [exact H2|].
  vm_compute in Hget. injection Hget as <-.
  repeat split.
Defined.

(** ** The asynchronous monad *)

Lemma bind_Resolved {A B : Type} (m : Async A) (k : A -> Async B) w b w2 :
  bind m k w = (Resolved b, w2) ->
  exists a w1, m w = (Resolved a, w1) /\ k a w1 = (Resolved b, w2).
Proof.
  unfold bind. destruct (m w) as [[a|e] w1]; [eauto | discriminate].
Qed.

Lemma await_Resolved {A : Type} (p : Awaited A) w a w1 :
  await p w = (Resolved a, w1) ->
  settled p = Resolved a
  /\ w1 = {| storage := storage w; clock := clock w + elapsed p |}.
Proof. unfold await. intros [= -> <-]. split; reflexivity. Qed.

Lemma callAt_Resolved {A : Type} (f : Z -> MemStorage -> A * MemStorage)
  w a w1 :
  callAt f w = (Resolved a, w1) ->
  a = fst (f (clock w) (storage w))
  /\ w1 = {| storage := snd (f (clock w) (storage w)); clock := clock w |}.
Proof.
  unfold callAt, bind, dateNow, call.
  destruct (f (clock w) (storage w)) as [a' s'] eqn:E. simpl.
  intros [= <- <-]. split; reflexivity.
Qed.

Lemma ret_Resolved {A : Type} (a b : A) w w1 :
  ret a w = (Resolved b, w1) -> b = a /\ w1 = w.
Proof. unfold ret. intros [= -> ->]. split; reflexivity. Qed.

(** A handler answers [201] only when its [try] block completes. *)
Lemma catchHandler_201 failure (m : Async Response) w r w' :
  catchHandler failure m w = (r, w') -> status r = 201 ->
  m w = (Resolved r, w').
Proof.
  unfold catchHandler. destruct (m w) as [[r0|[errors|message]] w0];
    intros [= <- <-]; simpl; intros H; [reflexivity | discriminate..].
Qed.

(** ** Topic resolution *)

Lemma getTopTrendingTopics_one s :
  getTopTrendingTopics 1 s =
  match JsArray.sort (fun a b => topic_trendScore b - topic_trendScore a)
                     (getTrendingTopics s) with
  | [] => []
  | t :: _ => [t]
  end.
Proof. unfold getTopTrendingTopics. apply JsArrayFacts.slice0_one. Qed.

Lemma resolveTopic_fallback request w :
  truthy_num (req_topicId request) = false ->
  resolveTopic request w =
  (Resolved
     match getTopTrendingTopics 1 (storage w) with
     | [] => inl (json 404 (ErrorBody "No trending topics available"))
     | t :: _ => inr t
     end, w).
Proof.
  intros H. unfold resolveTopic. rewrite H. unfold bind, read.
  destruct (getTopTrendingTopics 1 (storage w)); reflexivity.
Qed.

(** Topic resolution never throws and leaves the world alone; when it
    answers by itself, the answer is a [404]. *)
Lemma resolveTopic_pure request w :
  exists x, resolveTopic request w = (Resolved x, w)
            /\ forall resp, x = inl resp -> status resp = 404.
Proof.
  unfold resolveTopic. destruct (truthy_num (req_topicId request));
    unfold bind, read.
  - destruct (match req_topicId request with
              | Some q => getTrendingTopicByNumber q
              | None => fun _ => None
              end (storage w)); eexists; (split; [reflexivity|]);
      intros resp [= <-]; reflexivity.
  - destruct (getTopTrendingTopics 1 (storage w)); eexists;
      (split; [reflexivity|]); intros resp [= <-]; reflexivity.
Qed.

Lemma createContentHandler_201 svc reqBody request w r w' :
  requestSchema_parse reqBody = inr request ->
  createContentHandler svc reqBody w = (r, w') -> status r = 201 ->
  exists topic,
    resolveTopic request w = (Resolved (inr topic), w)
    /\ generateFor svc request topic w = (Resolved r, w').
Proof.
  intros Hparse Hrun H201. unfold createContentHandler in Hrun.
  apply catchHandler_201 in Hrun; [|exact H201].
  unfold createContentBody in Hrun. rewrite Hparse in Hrun.
  apply bind_Resolved in Hrun as (req & w0 & Hreq & Hrun).
  apply ret_Resolved in Hreq as [-> ->].
  apply bind_Resolved in Hrun as (x & w1 & Hres & Hrun).
  destruct (resolveTopic_pure request w) as (x' & Hx & H404).
  rewrite Hx in Hres. injection Hres as <- <-.
  destruct x' as [resp|topic].
  - apply ret_Resolved in Hrun as [-> ->].
    rewrite (H404 resp eq_refl) in H201. discriminate.
  - exists topic. split; assumption.
Qed.

(** ** The scheduling step *)

Lemma schedulePost_spec request content w :
  schedulePost request content w =
  match requestedAccounts request (storage w) with
  | account :: _ =>
      let created :=
        createScheduledPost (scheduledPostInput content account (clock w))
                            (storage w) in
      (Resolved (Some (fst created)),
       {| storage := snd created; clock := clock w |})
  | [] => (Resolved None, w)
  end.
Proof.
  unfold schedulePost, requestedAccounts.
  destruct (truthy_bool (req_scheduleImmediately request)
            && truthy_num (req_platformId request)); [|reflexivity].
  unfold bind, read.
  destruct (req_platformId request) as [q|]; [|reflexivity].
  destruct (getPlatformAccountsByPlatformNumber q (storage w))
    as [|account rest]; reflexivity.
Qed.

(** The scheduling step never throws; it leaves the clock and every table
    but the scheduled posts alone. *)
Lemma schedulePost_frame request content w :
  exists sp w',
    schedulePost request content w = (Resolved sp, w')
    /\ clock w' = clock w
    /\ scripts (storage w') = scripts (storage w)
    /\ contents (storage w') = contents (storage w)
    /\ platformAccounts (storage w') = platformAccounts (storage w)
    /\ trendingTopics (storage w') = trendingTopics (storage w).
Proof.
  rewrite schedulePost_spec.
  destruct (requestedAccounts request (storage w)) as [|account rest];
    do 2 eexists; (split; [reflexivity|]); repeat split.
Qed.

(** ** The three branches *)

Lemma textBranch_Resolved svc request topic w r w' :
  textBranch svc request topic w = (Resolved r, w') ->
  exists postContent sp,
    let p := generateContent svc (topic_topic topic) "social media"
                             "engaging" "general" in
    let w1 := advance w (elapsed p) in
    let created := createContent (clock w1)
                     (textContentInput topic postContent) (storage w1) in
    settled p = Resolved postContent
    /\ schedulePost request (fst created)
         {| storage := snd created; clock := clock w1 |} = (Resolved sp, w')
    /\ r = json 201 (TextCreated topic (fst created) postContent sp).
Proof.
  unfold textBranch. intros H.
  apply bind_Resolved in H as (postContent & w1 & H1 & H).
  apply await_Resolved in H1 as [Hp ->].
  apply bind_Resolved in H as (content & w2 & H2 & H).
  apply callAt_Resolved in H2 as [-> ->].
  apply bind_Resolved in H as (sp & w3 & H3 & H).
  apply ret_Resolved in H as [-> ->].
  exists postContent, sp. cbv zeta. split; [exact Hp|]. split; [exact H3|].
  reflexivity.
Qed.

Lemma imageBranch_Resolved svc request topic w r w' :
  imageBranch svc request topic w = (Resolved r, w') ->
  exists image sp,
    let p := generateImage svc (imageParams topic) in
    let w1 := advance w (elapsed p) in
    let created := createContent (clock w1)
                     (imageContentInput topic image) (storage w1) in
    settled p = Resolved image
    /\ schedulePost request (fst created)
         {| storage := snd created; clock := clock w1 |} = (Resolved sp, w')
    /\ r = json 201 (ImageCreated topic (fst created) image sp).
Proof.
  unfold imageBranch. intros H.
  apply bind_Resolved in H as (image & w1 & H1 & H).
  apply await_Resolved in H1 as [Hp ->].
  apply bind_Resolved in H as (content & w2 & H2 & H).
  apply callAt_Resolved in H2 as [-> ->].
  apply bind_Resolved in H as (sp & w3 & H3 & H).
  apply ret_Resolved in H as [-> ->].
  exists image, sp. cbv zeta. split; [exact Hp|]. split; [exact H3|].
  reflexivity.
Qed.

Lemma videoBranch_Resolved svc request topic w r w' :
  videoBranch svc request topic w = (Resolved r, w') ->
  exists scriptContent thumbnail videoResult sp,
    let p1 := generateScript svc (topic_topic topic) "video" 5
                             "educational" "general" in
    let w1 := advance w (elapsed p1) in
    let scripted := createScript (clock w1)
                      (videoScriptInput topic scriptContent) (storage w1) in
    let p2 := generateThumbnail svc (topic_topic topic) in
    let p3 := generateVideo svc
                (videoRequest topic scriptContent (fst scripted)) in
    let now := clock w1 + elapsed p2 + elapsed p3 in
    let created := createContent now
                     (videoContentInput topic (fst scripted) videoResult)
                     (snd scripted) in
    settled p1 = Resolved scriptContent
    /\ settled p2 = Resolved thumbnail
    /\ settled p3 = Resolved videoResult
    /\ schedulePost request (fst created)
         {| storage := snd created; clock := now |} = (Resolved sp, w')
    /\ r = json 201 (VideoCreated topic (fst scripted) (fst created)
                                  videoResult sp).
Proof.
  unfold videoBranch. intros H.
  apply bind_Resolved in H as (scriptContent & w1 & H1 & H).
  apply await_Resolved in H1 as [Hp1 ->].
  apply bind_Resolved in H as (script & w2 & H2 & H).
  apply callAt_Resolved in H2 as [-> ->].
  apply bind_Resolved in H as (thumbnail & w3 & H3 & H).
  apply await_Resolved in H3 as [Hp2 ->].
  apply bind_Resolved in H as (videoResult & w4 & H4 & H).
  apply await_Resolved in H4 as [Hp3 ->].
  apply bind_Resolved in H as (content & w5 & H5 & H).
  apply callAt_Resolved in H5 as [-> ->].
  apply bind_Resolved in H as (sp & w6 & H6 & H).
  apply ret_Resolved in H as [-> ->].
  exists scriptContent, thumbnail, videoResult, sp. cbv zeta.
  repeat (split; [assumption|]). reflexivity.
Qed.

Lemma generateFor_text svc request topic :
  req_contentType request = Some "text" ->
  generateFor svc request topic = textBranch svc request topic.
Proof. intros H. unfold generateFor. rewrite H. reflexivity. Qed.

Lemma generateFor_image svc request topic :
  req_contentType request = Some "image" ->
  generateFor svc request topic = imageBranch svc request topic.
Proof. intros H. unfold generateFor. rewrite H. reflexivity. Qed.

Lemma generateFor_video svc request topic :
  req_contentType request = Some "video" ->
  generateFor svc request topic = videoBranch svc request topic.
Proof. intros H. unfold generateFor. rewrite H. reflexivity. Qed.


(** ** The default content type *)
Lemma schedulePost_ext r1 r2 content :
  req_scheduleImmediately r1 = req_scheduleImmediately r2 ->
  req_platformId r1 = req_platformId r2 ->
  schedulePost r1 content = schedulePost r2 content.
Proof. unfold schedulePost. intros -> ->. reflexivity. Qed.


(** ** The topic fallback *)
Lemma generateFor_cases svc request topic :
  generateFor svc request topic = videoBranch svc request topic
  \/ generateFor svc request topic = imageBranch svc request topic
  \/ generateFor svc request topic = textBranch svc request topic.
Proof.
  unfold generateFor.
  destruct (or_default_str (req_contentType request) "video" =? "video")%string;
    [now left|].
  destruct (or_default_str (req_contentType request) "video" =? "image")%string;
    [right; now left | right; now right].
Qed.

(** What the three branches have in common when they complete. *)
Lemma generateFor_Resolved svc request topic w r w' :
  generateFor svc request topic w = (Resolved r, w') ->
  exists content w2 sp,
    schedulePost request content w2 = (Resolved sp, w')
    /\ status r = 201
    /\ created_topic (body r) = Some topic
    /\ created_content (body r) = Some content
    /\ created_scheduledPost (body r) = Some sp
    /\ platformAccounts (storage w2) = platformAccounts (storage w)
    /\ scheduledPosts (storage w2) = scheduledPosts (storage w)
    /\ postId (storage w2) = postId (storage w).
Proof.
  intros H. destruct (generateFor_cases svc request topic) as [E|[E|E]];
    rewrite E in H.
  - apply videoBranch_Resolved in H
      as (scriptContent & thumbnail & videoResult & sp & H).
    cbv zeta in H. destruct H as (_ & _ & _ & Hs & ->).
    do 3 eexists. split; [exact Hs|]. repeat split.
  - apply imageBranch_Resolved in H as (image & sp & H).
    cbv zeta in H. destruct H as (_ & Hs & ->).
    do 3 eexists. split; [exact Hs|]. repeat split.
  - apply textBranch_Resolved in H as (postContent & sp & H).
    cbv zeta in H. destruct H as (_ & Hs & ->).
    do 3 eexists. split; [exact Hs|]. repeat split.
Qed.

Lemma sort_nonempty (A : Type) (cmp : A -> A -> Z) (l : list A) :
  l <> [] -> exists x rest, JsArray.sort cmp l = x :: rest.
Proof.
  intros Hne. destruct (JsArray.sort cmp l) as [|x rest] eqn:E; [|eauto].
  pose proof (JsArrayFacts.sort_length cmp l) as Hlen. rewrite E in Hlen.
  destruct l; [congruence | discriminate].
Qed.

(** C1: a request that passes validation and carries no [topicId].  When
    topics are stored, the handler goes on to generate for a stored topic
    of maximal [trendScore], which is the topic of any [201] response;
    when none is stored, it answers [404] "No trending topics available"
    and the store (with the rest of the world) is as before, so no
    Content, Script or ScheduledPost was created. *)
Theorem create_content_topic_fallback (svc : Services) (reqBody : Json)
  (request : CreateContentRequest) (w : World) :
  requestSchema_parse reqBody = inr request ->
  req_topicId request = None ->
  (getTrendingTopics (storage w) <> [] ->
   exists topic,
     In topic (getTrendingTopics (storage w))
     /\ (forall t, In t (getTrendingTopics (storage w)) ->
                   topic_trendScore t <= topic_trendScore topic)
     /\ createContentHandler svc reqBody w
        = catchHandler ErrorBody (generateFor svc request topic) w
     /\ (forall r w',
           createContentHandler svc reqBody w = (r, w') ->
           status r = 201 -> created_topic (body r) = Some topic))
  /\ (getTrendingTopics (storage w) = [] ->
      createContentHandler svc reqBody w
      = (json 404 (ErrorBody "No trending topics available"), w)).
Proof.
  intros Hparse Hnone.
  assert (Hfalsy : truthy_num (req_topicId request) = false)
    by now rewrite Hnone.
  assert (Hrun : createContentHandler svc reqBody w
                 = match getTopTrendingTopics 1 (storage w) with
                   | [] => (json 404
                              (ErrorBody "No trending topics available"), w)
                   | t :: _ =>
                       catchHandler ErrorBody (generateFor svc request t) w
                   end).
  { unfold createContentHandler, createContentBody. rewrite Hparse.
    unfold catchHandler, parse, bind, ret.
    rewrite (resolveTopic_fallback request w Hfalsy).
    destruct (getTopTrendingTopics 1 (storage w)); reflexivity. }
  rewrite getTopTrendingTopics_one in Hrun. split.
  - intros Hne.
    destruct (@sort_nonempty _
                (fun a b => topic_trendScore b - topic_trendScore a) _ Hne)
      as (topic & rest & Hsort).
    rewrite Hsort in Hrun. exists topic. split; [|split; [|split]].
    + apply (JsArrayFacts.sort_In
               (fun a b => topic_trendScore b - topic_trendScore a)).
      rewrite Hsort. now left.
    + intros t Ht.
      assert (Hkey : forall a b : TrendingTopic,
                 topic_trendScore b - topic_trendScore a
                 = - topic_trendScore a - - topic_trendScore b)
        by (intros; lia).
      pose proof (@JsArrayFacts.sort_head_min TrendingTopic
                    (fun t => - topic_trendScore t)
                    (fun a b => topic_trendScore b - topic_trendScore a)
                    Hkey _ _ _ Hsort t Ht) as Hmin.
      simpl in Hmin. lia.
    + exact Hrun.
    + intros r w' Hr H201. rewrite Hrun in Hr.
      apply catchHandler_201 in Hr; [|exact H201].
      apply generateFor_Resolved in Hr
        as (content & w2 & sp & _ & _ & Ht & _). exact Ht.
  - intros Hempty. rewrite Hempty in Hrun. exact Hrun.
Qed.

(** ** The records a run creates *)
Lemma table_ok_fresh (E : Type) (id_of : E -> Z) (m : JsMap.t E) next :
  table_ok id_of m next -> JsMap.get next m = None.
Proof.
  intros [_ Hall]. destruct (JsMap.get next m) as [e|] eqn:E0; [|reflexivity].
  apply JsMapFacts.get_Some_In in E0.
  apply (proj1 (Forall_forall _ _) Hall) in E0. simpl in E0. lia.
Qed.

Lemma createContent_fresh now i s :
  store_ok s -> getContent (content_id (fst (createContent now i s))) s = None.
Proof.
  intros H. split_store_ok. unfold getContent. simpl.
  eapply table_ok_fresh; eassumption.
Qed.

Lemma createContent_stored now i s :
  JsMap.get (content_id (fst (createContent now i s)))
            (contents (snd (createContent now i s)))
  = Some (fst (createContent now i s)).
Proof. simpl. apply JsMapFacts.get_set_same. Qed.

Lemma createScript_fresh now i s :
  store_ok s -> getScript (script_id (fst (createScript now i s))) s = None.
Proof.
  intros H. split_store_ok. unfold getScript. simpl.
  eapply table_ok_fresh; eassumption.
Qed.

Lemma createScript_stored now i s :
  JsMap.get (script_id (fst (createScript now i s)))
            (scripts (snd (createScript now i s)))
  = Some (fst (createScript now i s)).
Proof. simpl. apply JsMapFacts.get_set_same. Qed.

Lemma store_ok_createScript now i s :
  store_ok s -> store_ok (snd (createScript now i s)).
Proof. apply (store_ok_apply_op (OpCreateScript now i)). Qed.

(** The world after the scheduling step, as far as scripts and contents
    are concerned. *)
Lemma schedulePost_keeps request content w sp w' :
  schedulePost request content w = (Resolved sp, w') ->
  scripts (storage w') = scripts (storage w)
  /\ contents (storage w') = contents (storage w).
Proof.
  intros H. destruct (schedulePost_frame request content w)
    as (sp0 & w0 & H0 & _ & Hs & Hc & _).
  rewrite H in H0. injection H0 as <- <-. now split.
Qed.

(** C2: a successful run on a running server.  With [contentType]
    "text" the created Content has [contentType] "text" and a null
    [filePath]; with "image" its [filePath] is not null and its
    [thumbnailPath] equals it; with "video" a Script and a Content are
    created and the Content's [metadata.scriptId] is the Script's id.
    "Created": absent from the store before the run, stored under its id
    after it, and returned in the response. *)
Theorem create_content_branches (svc : Services) (reqBody : Json)
  (request : CreateContentRequest) (w : World) (r : Response) (w' : World) :
  requestSchema_parse reqBody = inr request ->
  reachable (storage w) ->
  createContentHandler svc reqBody w = (r, w') ->
  status r = 201 ->
  (req_contentType request = Some "text" ->
   exists content,
     created_content (body r) = Some content
     /\ content_contentType content = "text"
     /\ content_filePath content = None
     /\ getContent (content_id content) (storage w) = None
     /\ getContent (content_id content) (storage w') = Some content)
  /\ (req_contentType request = Some "image" ->
      exists content,
        created_content (body r) = Some content
        /\ content_filePath content <> None
        /\ content_thumbnailPath content = content_filePath content
        /\ getContent (content_id content) (storage w) = None
        /\ getContent (content_id content) (storage w') = Some content)
  /\ (req_contentType request = Some "video" ->
      exists script content,
        created_script (body r) = Some script
        /\ created_content (body r) = Some content
        /\ prop "scriptId" (content_metadata content)
           = Some (JInt (script_id script))
        /\ getScript (script_id script) (storage w) = None
        /\ getScript (script_id script) (storage w') = Some script
        /\ getContent (content_id content) (storage w) = None
        /\ getContent (content_id content) (storage w') = Some content).
Proof.
  intros Hparse Hreach Hrun H201.
  pose proof (reachable_store_ok Hreach) as Hok.
  destruct (@createContentHandler_201 svc reqBody request w r w' Hparse Hrun
              H201)
    as (topic & _ & Hgen).
  split; [|split]; intros Htype.
  - rewrite (@generateFor_text svc request topic Htype) in Hgen.
    apply textBranch_Resolved in Hgen as (postContent & sp & Hgen).
    cbv zeta in Hgen. destruct Hgen as (_ & Hs & ->).
    apply schedulePost_keeps in Hs as [_ Hc].
    eexists. split; [reflexivity|]. split; [reflexivity|].
    split; [reflexivity|]. split.
    + now apply createContent_fresh.
    + unfold getContent. rewrite Hc. apply createContent_stored.
  - rewrite (@generateFor_image svc request topic Htype) in Hgen.
    apply imageBranch_Resolved in Hgen as (image & sp & Hgen).
    cbv zeta in Hgen. destruct Hgen as (_ & Hs & ->).
    apply schedulePost_keeps in Hs as [_ Hc].
    eexists. split; [reflexivity|]. split; [discriminate|].
    split; [reflexivity|]. split.
    + now apply createContent_fresh.
    + unfold getContent. rewrite Hc. apply createContent_stored.
  - rewrite (@generateFor_video svc request topic Htype) in Hgen.
    apply videoBranch_Resolved in Hgen
      as (scriptContent & thumbnail & videoResult & sp & Hgen).
    cbv zeta in Hgen. destruct Hgen as (_ & _ & _ & Hs & ->).
    apply schedulePost_keeps in Hs as [Hsc Hc].
    do 2 eexists. split; [reflexivity|]. split; [reflexivity|].
    split; [reflexivity|]. split; [|split; [|split]].
    + now apply createScript_fresh.
    + unfold getScript. rewrite Hsc. apply createScript_stored.
    + (* [createScript] leaves the contents table alone *)
      match goal with
      | |- getContent (content_id (fst (createContent ?now ?i ?s))) _ = None =>
          exact (@createContent_fresh now i s
                   (@store_ok_createScript _ _ _ Hok))
      end.
    + unfold getContent. rewrite Hc. apply createContent_stored.
Qed.

(** ** Scheduling *)
Lemma accounts_of_table q s1 s2 :
  platformAccounts s1 = platformAccounts s2 ->
  getPlatformAccountsByPlatformNumber q s1
  = getPlatformAccountsByPlatformNumber q s2.
Proof.
  intros H. unfold getPlatformAccountsByPlatformNumber,
    getPlatformAccountsByPlatform. now rewrite H.
Qed.

Lemma requestedAccounts_requested request q s :
  req_scheduleImmediately request = Some true ->
  req_platformId request = Some q -> Qnum q <> 0 ->
  requestedAccounts request s = getPlatformAccountsByPlatformNumber q s.
Proof.
  intros Hsi Hpid Hq. unfold requestedAccounts. rewrite Hsi, Hpid. simpl.
  apply Z.eqb_neq in Hq. now rewrite Hq.
Qed.

(** The first stored account of platform 1 is account 1, now inactive,
    and no account of platform 1 is active. *)
Example inactiveAccountWorld_accounts :
  map (fun a => (account_id a, account_active a))
      (getPlatformAccountsByPlatform 1 (storage inactiveAccountWorld))
  = [(1, false)]
  /\ activeAccountsOfPlatform 1 (storage inactiveAccountWorld) = [].
Proof. split; vm_compute; reflexivity. Qed.

(** C3, as stated, fails: platform 1 has no active account (its only
    account is inactive), and a run with [scheduleImmediately: true] and
    [platformId: 1] still creates a ScheduledPost, for that inactive
    account, and returns it. *)
Lemma create_content_schedules_on_inactive_account :
  reachable (storage inactiveAccountWorld)
  /\ activeAccountsOfPlatform 1 (storage inactiveAccountWorld) = []
  /\ status (fst (createContentHandler sampleServices scheduleTextBody
                                        inactiveAccountWorld)) = 201
  /\ exists post,
      created_scheduledPost
        (body (fst (createContentHandler sampleServices scheduleTextBody
                                         inactiveAccountWorld)))
      = Some (Some post)
      /\ post_platformAccountId post = 1
      /\ option_map account_active
           (getPlatformAccount 1 (storage inactiveAccountWorld))
         = Some false
      /\ getScheduledPost (post_id post) (storage inactiveAccountWorld)
         = None
      /\ getScheduledPost (post_id post)
           (storage (snd (createContentHandler sampleServices
                            scheduleTextBody inactiveAccountWorld)))
         = Some post.
Proof.
  split.
  { exists 0, [OpUpdatePlatformAccount 1 deactivateAccount].
    vm_compute. reflexivity. }
  split; [vm_compute; reflexivity|].
  split; [vm_compute; reflexivity|].
  eexists. split; [vm_compute; reflexivity|].
  repeat split; vm_compute; reflexivity.
Qed.

(** C3, amended: a successful run on a running server whose request has
    [scheduleImmediately = true] and a [platformId] other than 0.  The
    scheduling step takes the first stored account of that platform, in
    insertion order and whether it is active or not, and creates a
    ScheduledPost for the created Content and that account, with
    [scheduledTime] one hour after the clock reading and [status]
    "pending"; when the platform has no account at all, the response's
    [scheduledPost] is null and the scheduled posts are as before.  The
    scheduling step itself never fails. *)
Theorem create_content_scheduling (svc : Services) (reqBody : Json)
  (request : CreateContentRequest) (w : World) (r : Response) (w' : World)
  (q : Q) :
  requestSchema_parse reqBody = inr request ->
  reachable (storage w) ->
  createContentHandler svc reqBody w = (r, w') ->
  status r = 201 ->
  req_scheduleImmediately request = Some true ->
  req_platformId request = Some q ->
  Qnum q <> 0 ->
  (forall content w1,
      exists sp w2, schedulePost request content w1 = (Resolved sp, w2))
  /\ match getPlatformAccountsByPlatformNumber q (storage w) with
     | account :: _ =>
         exists content post,
           created_content (body r) = Some content
           /\ created_scheduledPost (body r) = Some (Some post)
           /\ post_platformAccountId post = account_id account
           /\ post_contentId post = content_id content
           /\ post_scheduledTime post = clock w' + 60 * 60 * 1000
           /\ post_status post = "pending"
           /\ getScheduledPost (post_id post) (storage w) = None
           /\ getScheduledPost (post_id post) (storage w') = Some post
     | [] =>
         created_scheduledPost (body r) = Some None
         /\ scheduledPosts (storage w') = scheduledPosts (storage w)
     end.
Proof.
  intros Hparse Hreach Hrun H201 Hsi Hpid Hq. split.
  { intros content w1.
    destruct (schedulePost_frame request content w1) as (sp & w2 & H & _).
    eauto. }
  pose proof (reachable_store_ok Hreach) as Hok.
  destruct (@createContentHandler_201 svc reqBody request w r w' Hparse Hrun
              H201) as (topic & _ & Hgen).
  apply generateFor_Resolved in Hgen
    as (content & w2 & sp & Hs & _ & _ & Hc & Hsp & Hacc & Hposts & Hpid2).
  rewrite schedulePost_spec in Hs.
  rewrite (@requestedAccounts_requested request q (storage w2) Hsi Hpid Hq)
    in Hs.
  rewrite (@accounts_of_table q (storage w2) (storage w) Hacc) in Hs.
  destruct (getPlatformAccountsByPlatformNumber q (storage w))
    as [|account rest].
  - injection Hs as <- <-. split; [exact Hsp | exact Hposts].
  - cbv zeta in Hs. injection Hs as <- <-.
    exists content. eexists. split; [exact Hc|]. split; [exact Hsp|].
    repeat (split; [reflexivity|]). split.
    + change (JsMap.get (postId (storage w2)) (scheduledPosts (storage w))
              = None).
      rewrite Hpid2.
      destruct Hok as (_ & _ & _ & _ & _ & _ & Hpost & _).
      eapply table_ok_fresh; eassumption.
    + unfold getScheduledPost. simpl. apply JsMapFacts.get_set_same.
Qed.

(** ** Sample runs *)

Lemma freshWorld_reachable : reachable (storage freshWorld).
Proof. exists 0, []. vm_compute. reflexivity. Qed.

Example scheduleTextBody_parses :
  requestSchema_parse scheduleTextBody = inr scheduleTextRequest.
Proof. vm_compute. reflexivity. Qed.

Example scheduleTextRun_eq :
  createContentHandler sampleServices scheduleTextBody freshWorld
  = (fst scheduleTextRun, snd scheduleTextRun).
Proof. vm_compute. reflexivity. Qed.

(** The sample request carries no [topicId] and the fresh server has
    topics. *)
Lemma create_content_topic_fallback_witness :
  requestSchema_parse scheduleTextBody = inr scheduleTextRequest
  /\ req_topicId scheduleTextRequest = None
  /\ getTrendingTopics (storage freshWorld) <> []
  /\ exists topic,
      In topic (getTrendingTopics (storage freshWorld))
      /\ (forall t, In t (getTrendingTopics (storage freshWorld)) ->
                    topic_trendScore t <= topic_trendScore topic)
      /\ createContentHandler sampleServices scheduleTextBody freshWorld
         = catchHandler ErrorBody
             (generateFor sampleServices scheduleTextRequest topic) freshWorld
      /\ (forall r w',
            createContentHandler sampleServices scheduleTextBody freshWorld
            = (r, w') ->
            status r = 201 -> created_topic (body r) = Some topic).
Proof.
  split; [exact scheduleTextBody_parses|]. split; [reflexivity|].
  assert (Hne : getTrendingTopics (storage freshWorld) <> [])
    by (vm_compute; discriminate).
  split; [exact Hne|].
  exact (proj1 (@create_content_topic_fallback sampleServices scheduleTextBody
                  scheduleTextRequest freshWorld scheduleTextBody_parses
                  eq_refl) Hne).
Defined.

(** The sample text run on the fresh server. *)
Lemma create_content_branches_witness :
  status (fst scheduleTextRun) = 201
  /\ exists content,
      created_content (body (fst scheduleTextRun)) = Some content
      /\ content_contentType content = "text"
      /\ content_filePath content = None
      /\ getContent (content_id content) (storage freshWorld) = None
      /\ getContent (content_id content) (storage (snd scheduleTextRun))
         = Some content.
Proof.
  split; [reflexivity|].
  exact (proj1 (@create_content_branches sampleServices scheduleTextBody
                  scheduleTextRequest freshWorld (fst scheduleTextRun)
                  (snd scheduleTextRun) scheduleTextBody_parses
                  freshWorld_reachable scheduleTextRun_eq eq_refl) eq_refl).
Defined.

(** The sample text run schedules on the first account of platform 1. *)
Lemma create_content_scheduling_witness :
  req_scheduleImmediately scheduleTextRequest = Some true
  /\ req_platformId scheduleTextRequest = Some (inject_Z 1)
  /\ Qnum (inject_Z 1) <> 0
  /\ match getPlatformAccountsByPlatformNumber (inject_Z 1)
             (storage freshWorld) with
     | account :: _ =>
         exists content post,
           created_content (body (fst scheduleTextRun)) = Some content
           /\ created_scheduledPost (body (fst scheduleTextRun))
              = Some (Some post)
           /\ post_platformAccountId post = account_id account
           /\ post_contentId post = content_id content
           /\ post_scheduledTime post
              = clock (snd scheduleTextRun) + 60 * 60 * 1000
           /\ post_status post = "pending"
           /\ getScheduledPost (post_id post) (storage freshWorld) = None
           /\ getScheduledPost (post_id post) (storage (snd scheduleTextRun))
              = Some post
     | [] =>
         created_scheduledPost (body (fst scheduleTextRun)) = Some None
         /\ scheduledPosts (storage (snd scheduleTextRun))
            = scheduledPosts (storage freshWorld)
     end.
Proof.
  split; [reflexivity|]. split; [reflexivity|].
  assert (Hq : Qnum (inject_Z 1) <> 0) by discriminate.
  split; [exact Hq|].
  exact (proj2 (@create_content_scheduling sampleServices scheduleTextBody
                  scheduleTextRequest freshWorld (fst scheduleTextRun)
                  (snd scheduleTextRun) (inject_Z 1) scheduleTextBody_parses
                  freshWorld_reachable scheduleTextRun_eq eq_refl eq_refl
                  eq_refl Hq)).
Defined.


(** The three content types on the fresh server: what the created
    Content looks like. *)
Example sample_runs_content :
  option_map (fun c => (content_contentType c, content_filePath c,
                        content_thumbnailPath c))
    (created_content
       (body (fst (createContentHandler sampleServices scheduleTextBody
                                        freshWorld))))
  = Some ("text", None, None)
  /\ option_map (fun c => (content_contentType c, content_filePath c,
                           content_thumbnailPath c))
       (created_content
          (body (fst (createContentHandler sampleServices scheduleImageBody
                                           freshWorld))))
     = Some ("image", Some "/content/images/img_2_2000.svg",
             Some "/content/images/img_2_2000.svg")
  /\ option_map (fun c => (content_contentType c, content_filePath c,
                           prop "scriptId" (content_metadata c)))
       (created_content
          (body (fst (createContentHandler sampleServices scheduleVideoBody
                                           freshWorld))))
     = Some ("video", Some "/content/videos/video_1_3000.mp4",
             Some (JInt 3)).
Proof. repeat split; vm_compute; reflexivity. Qed.

(** ** Trending-topic scores *)

Example zeroScoreBody_parses :
  insertTrendingTopicSchema_parse zeroScoreBody
  = inr {| ins_topic_topic := "Test"; ins_topic_category := "Tech";
           ins_topic_description := None; ins_topic_trendScore := 0 |}.
Proof. vm_compute. reflexivity. Qed.

(** The insert schema accepts every integer score of the column's 32-bit
    range: nothing narrows it to [1, 100]. *)
Lemma z_integer_accepts (n : Z) :
  -2147483648 <= n <= 2147483647 -> z_integer (Some (JInt n)) = Some n.
Proof.
  intros [Hlo Hhi]. unfold z_integer, JInt, Qint. simpl.
  rewrite Z.mod_1_r, Z.div_1_r. simpl.
  apply Z.leb_le in Hlo, Hhi. now rewrite Hlo, Hhi.
Qed.

(** C9 fails on the code: [POST /api/trending-topics] with
    [trendScore: 0] is answered [201] and the topic is stored with score
    0; [PUT /api/trending-topics/1] with [trendScore: 1000] is answered
    [200] and topic 1 then has score 1000.  Both scores are refused by
    the range that the dashboard's own form applies. *)
Theorem trending_topic_score_not_validated :
  (status (fst (postTrendingTopicHandler zeroScoreBody freshWorld)) = 201
   /\ exists t,
       body (fst (postTrendingTopicHandler zeroScoreBody freshWorld))
       = TopicBody t
       /\ topic_trendScore t = 0
       /\ getTrendingTopic (topic_id t)
            (storage (snd (postTrendingTopicHandler zeroScoreBody
                             freshWorld)))
          = Some t)
  /\ (status (fst (putTrendingTopicHandler 1 thousandScoreBody freshWorld))
      = 200
      /\ option_map topic_trendScore
           (getTrendingTopic 1
              (storage (snd (putTrendingTopicHandler 1 thousandScoreBody
                               freshWorld))))
         = Some 1000)
  /\ trendFormSchema_trendScore_ok 0 = false
  /\ trendFormSchema_trendScore_ok 1000 = false.
Proof.
  split; [split; [vm_compute; reflexivity|]|].
  - eexists. split; [vm_compute; reflexivity|].
    split; vm_compute; reflexivity.
  - repeat split; vm_compute; reflexivity.
Qed.

(** ** Text-to-speech voices *)

Lemma listed_is_own (voiceId : string) :
  TTS.isListed voiceId = true ->
  exists v, TTS.lookupVoice voiceId = TTS.OwnVoice v.
Proof.
  cbv [TTS.isListed TTS.listedVoices TTS.availableVoices map snd existsb
       TTS.voice_id TTS.mkVoice orb].
  repeat match goal with
         | |- context [String.eqb ?lit voiceId] =>
             let E := fresh "E" in
             destruct (String.eqb lit voiceId) eqn:E;
             [ apply String.eqb_eq in E; subst voiceId; intros _;
               eexists; vm_compute; reflexivity | ]
         end.
  discriminate.
Qed.

(** A voice that is neither downloaded nor found by the property read is
    refused with the error that names it. *)
Lemma textToAudio_unknown_voice timestamp text voiceId format t :
  TTS.set_has voiceId (TTS.downloadedVoices t) = false ->
  TTS.lookupVoice voiceId = TTS.Undefined ->
  fst (TTS.textToAudio timestamp text voiceId format t)
  = inl (JsError
           ("Voice " ++ voiceId
            ++ " is not available and could not be downloaded")%string).
Proof.
  intros Hd Hl. unfold TTS.textToAudio, TTS.downloadVoice. simpl.
  rewrite Hd, Hl. reflexivity.
Qed.

(** A listed voice is downloaded on demand and the call returns audio. *)
Lemma textToAudio_listed_voice timestamp text voiceId format t :
  TTS.isListed voiceId = true ->
  exists result, fst (TTS.textToAudio timestamp text voiceId format t)
                 = inr result.
Proof.
  intros Hl. apply listed_is_own in Hl as [v Hv].
  unfold TTS.textToAudio, TTS.downloadVoice. simpl. rewrite Hv.
  destruct (TTS.set_has voiceId (TTS.downloadedVoices t)); simpl;
    eexists; reflexivity.
Qed.

(** C8 fails on the code: "constructor" is neither downloaded nor among
    the available voices that [getVoices] lists, yet [textToAudio] and
    [scriptToAudio] return an audio result for it instead of throwing,
    and record it as downloaded. *)
Theorem textToAudio_inherited_property_is_accepted :
  TTS.set_has "constructor" (TTS.downloadedVoices TTS.newLocalTTS) = false
  /\ TTS.isListed "constructor" = false
  /\ TTS.textToAudio 1700000000000 "hello world" "constructor" "mp3"
                     TTS.newLocalTTS
     = (inr {| TTS.audio_file := "tts_1_1700000000000.mp3";
               TTS.audio_format := "mp3";
               TTS.audio_wordCount := 2 |},
        {| TTS.downloadedVoices :=
             ["professional-male"; "professional-female"; "constructor"];
           TTS.isProcessing := false;
           TTS.audioCounter := 2 |})
  /\ (forall prepare,
        exists result t',
          TTS.scriptToAudio prepare 1700000000000 "hello world"
                            "constructor" "mp3" TTS.newLocalTTS
          = (inr result, t')).
Proof.
  split; [reflexivity|]. split; [reflexivity|].
  split; [vm_compute; reflexivity|].
  intros prepare. unfold TTS.scriptToAudio, TTS.textToAudio. simpl.
  do 2 eexists. reflexivity.
Qed.

(* ===================================================================== *)
(** * Further properties of the store                                     *)
(* ===================================================================== *)

(** ** [JsMap]: deletion, and the listed values *)
Module JsMapRows.
Import JsMap.
Section Facts.
Variable V : Type.
Implicit Types (m : JsMap.t V) (k : Z) (v : V).

Lemma delete_fst m k : fst (delete k m) = has k m.
Proof.
  unfold has. induction m as [|[k' v'] m IH]; simpl; [reflexivity|].
  destruct (k' =? k); [reflexivity|].
  destruct (delete k m) as [b r]; simpl in *. exact IH.
Qed.

Lemma get_delete_other m k k' :
  k' <> k -> get k' (snd (delete k m)) = get k' m.
Proof.
  intros Hne. induction m as [|[k0 v0] m IH]; simpl; [reflexivity|].
  destruct (k0 =? k) eqn:E; simpl.
  - apply Z.eqb_eq in E; subst k0.
    destruct (k =? k') eqn:E'; [apply Z.eqb_eq in E'; congruence|].
    reflexivity.
  - destruct (delete k m) as [b r]; simpl in *.
    destruct (k0 =? k'); [reflexivity | exact IH].
Qed.

Lemma delete_absent m k : get k m = None -> snd (delete k m) = m.
Proof.
  induction m as [|[k' v'] m IH]; simpl; [reflexivity|].
  destruct (k' =? k); [discriminate|]. intros H. specialize (IH H).
  destruct (delete k m) as [b r]; simpl in *. now rewrite IH.
Qed.

Lemma get_delete_same m k :
  NoDup (keys m) -> get k (snd (delete k m)) = None.
Proof.
  induction m as [|[k' v'] m IH]; simpl; intros Hnd; [reflexivity|].
  inversion Hnd as [|? ? Hnotin Hnd']; subst.
  destruct (k' =? k) eqn:E; simpl.
  - apply Z.eqb_eq in E; subst k'.
    destruct (get k m) as [v|] eqn:G; [|reflexivity].
    apply JsMapFacts.get_Some_In in G. exfalso. apply Hnotin.
    unfold keys. apply in_map_iff. exists (k, v). now split.
  - specialize (IH Hnd'). destruct (delete k m) as [b r]; simpl in *.
    now rewrite E.
Qed.

(** Deleting a key removes its entry and keeps the order of the rest. *)
Lemma delete_filter m k :
  NoDup (keys m) ->
  snd (delete k m) = filter (fun kv => negb (fst kv =? k)) m.
Proof.
  induction m as [|[k' v'] m IH]; simpl; intros Hnd; [reflexivity|].
  inversion Hnd as [|? ? Hnotin Hnd']; subst.
  destruct (k' =? k) eqn:E; simpl.
  - apply Z.eqb_eq in E; subst k'. symmetry.
    apply forallb_filter_id. apply forallb_forall. intros [k0 v0] Hin.
    simpl. apply negb_true_iff. apply Z.eqb_neq. intros ->.
    apply Hnotin. unfold keys. apply in_map_iff. exists (k, v0). now split.
  - specialize (IH Hnd'). destruct (delete k m) as [b r]; simpl in *.
    now rewrite IH.
Qed.

Lemma values_delete (id_of : V -> Z) m k :
  NoDup (keys m) -> Forall (fun kv => id_of (snd kv) = fst kv) m ->
  values (snd (delete k m))
  = filter (fun e => negb (id_of e =? k)) (values m).
Proof.
  intros Hnd Hall. rewrite delete_filter by exact Hnd. unfold values.
  clear Hnd. induction Hall as [|[k0 e0] m Hid _ IH]; [reflexivity|].
  simpl in *. rewrite Hid. destruct (k0 =? k); simpl; now rewrite IH.
Qed.

Lemma values_set_fresh m k v :
  ~ In k (keys m) -> values (set k v m) = values m ++ [v].
Proof.
  intros H. rewrite JsMapFacts.set_fresh by exact H.
  unfold values. now rewrite map_app.
Qed.

(** Replacing the value of a present key by one with the same image
    under [f] keeps the images of the listed values. *)
Lemma map_values_set_present (A : Type) (f : V -> A) m k v e0 :
  get k m = Some e0 -> f v = f e0 ->
  map f (values (set k v m)) = map f (values m).
Proof.
  intros Hget Hf. induction m as [|[k' v'] m IH]; simpl in *;
    [discriminate|].
  destruct (k' =? k); simpl.
  - injection Hget as ->. now rewrite Hf.
  - now rewrite IH.
Qed.
End Facts.
End JsMapRows.

(** ** The uniform view agrees with the methods *)

Lemma get_table k id s : get k id s = JsMap.get id (table k s).
Proof. destruct k; reflexivity. Qed.

Lemma getAll_table k s : getAll k s = JsMap.values (table k s).
Proof. destruct k; reflexivity. Qed.

Lemma live_ids_getAll k s : live_ids k s = map (row_id k) (getAll k s).
Proof. destruct k; reflexivity. Qed.

Lemma store_ok_table k s :
  store_ok s -> table_ok (row_id k) (table k s) (counter k s).
Proof. intros H. split_store_ok. destruct k; assumption. Qed.

Lemma createRow_create k now (i : InsertOf k) s :
  create k now i s
  = (row_id k (fst (createRow k now i s)), snd (createRow k now i s)).
Proof. destruct k; reflexivity. Qed.

Lemma createRow_table k now (i : InsertOf k) s :
  row_id k (fst (createRow k now i s)) = counter k s
  /\ table k (snd (createRow k now i s))
     = JsMap.set (counter k s) (fst (createRow k now i s)) (table k s)
  /\ counter k (snd (createRow k now i s)) = counter k s + 1.
Proof. destruct k; repeat split. Qed.

Lemma deleteRow_table k del id s :
  deleteRow k = Some del ->
  fst (del id s) = fst (JsMap.delete id (table k s))
  /\ table k (snd (del id s)) = snd (JsMap.delete id (table k s))
  /\ (snd (JsMap.delete id (table k s)) = table k s -> snd (del id s) = s).
Proof.
  destruct k; simpl; intros [= <-];
    cbv delta [deleteScript deleteAiConfig deletePlatform
               deletePlatformAccount deleteContent deleteScheduledPost
               deleteTrendingTopic]; cbv beta;
    match goal with
    | |- context [JsMap.delete id ?m] => destruct (JsMap.delete id m) as [b r]
    end; simpl; (split; [reflexivity|]); (split; [reflexivity|]);
    intros ->; destruct s; reflexivity.
Qed.

(** ** Deleting a row *)

(** X1: the delete method of a table, on a running server, answers
    [true] exactly when a row with that id is stored; afterwards no row
    has that id, every other id reads as before, the rows listed are the
    rows listed before without the deleted one and in the same order,
    and a call with an id that is not stored leaves the store as it
    is. *)
Theorem delete_removes_row (k : Kind)
  (del : Z -> MemStorage -> bool * MemStorage) (s : MemStorage) (id : Z) :
  deleteRow k = Some del ->
  reachable s ->
  (fst (del id s) = true <-> get k id s <> None)
  /\ get k id (snd (del id s)) = None
  /\ (forall id', id' <> id -> get k id' (snd (del id s)) = get k id' s)
  /\ getAll k (snd (del id s))
     = filter (fun row => negb (row_id k row =? id)) (getAll k s)
  /\ (get k id s = None -> snd (del id s) = s).
Proof.
  intros Hdel Hreach.
  pose proof (store_ok_table k (reachable_store_ok Hreach)) as [Hnd Hall].
  destruct (deleteRow_table k id s Hdel) as (Hfst & Htable & Hsame).
  rewrite !get_table, !getAll_table, Hfst, Htable.
  split; [|split; [|split; [|split]]].
  - rewrite JsMapRows.delete_fst. unfold JsMap.has.
    destruct (JsMap.get id (table k s)); split; congruence.
  - now apply JsMapRows.get_delete_same.
  - intros id' Hne. rewrite get_table, Htable, get_table.
    now apply JsMapRows.get_delete_other.
  - apply JsMapRows.values_delete; [exact Hnd|].
    eapply Forall_impl; [|exact Hall]. simpl; tauto.
  - intros Hnone. apply Hsame. now apply JsMapRows.delete_absent.
Qed.

(** Deleting the seeded content 1 from the fresh server. *)
Lemma delete_removes_row_witness :
  deleteRow KContent = Some deleteContent
  /\ reachable freshStorage
  /\ fst (deleteContent 1 freshStorage) = true
  /\ getContent 1 (snd (deleteContent 1 freshStorage)) = None
  /\ map content_id (getContents (snd (deleteContent 1 freshStorage)))
     = [2; 3].
Proof.
  split; [reflexivity|]. split; [exact freshWorld_reachable|].
  destruct (@delete_removes_row KContent deleteContent freshStorage 1
              eq_refl freshWorld_reachable) as (Hb & Hget & _ & Hall & _).
  split; [apply Hb; vm_compute; discriminate|]. split; [exact Hget|].
  change (map content_id (getAll KContent (snd (deleteContent 1 freshStorage)))
          = [2; 3]).
  rewrite Hall. vm_compute. reflexivity.
Defined.

(** ** Creating a row *)

(** X2: the create method of a table, on a running server, returns a row
    whose id was not in use; afterwards that id reads as the returned
    row, every other id reads as before, and the rows listed are the
    rows listed before followed by the new one. *)
Theorem create_appends_row (k : Kind) (now : Z) (i : InsertOf k)
  (s : MemStorage) :
  reachable s ->
  get k (row_id k (fst (createRow k now i s))) s = None
  /\ get k (row_id k (fst (createRow k now i s))) (snd (createRow k now i s))
     = Some (fst (createRow k now i s))
  /\ (forall id, id <> row_id k (fst (createRow k now i s)) ->
        get k id (snd (createRow k now i s)) = get k id s)
  /\ getAll k (snd (createRow k now i s))
     = getAll k s ++ [fst (createRow k now i s)].
Proof.
  intros Hreach.
  pose proof (store_ok_table k (reachable_store_ok Hreach)) as Hok.
  destruct (createRow_table k now i s) as (Hid & Htable & _).
  pose proof (table_ok_fresh Hok) as Hfresh.
  rewrite !get_table, !getAll_table, Htable, Hid.
  split; [exact Hfresh|]. split; [apply JsMapFacts.get_set_same|]. split.
  - intros id Hne. rewrite !get_table, Htable.
    now apply JsMapFacts.get_set_other.
  - apply JsMapRows.values_set_fresh.
    now apply JsMapFacts.get_None_notin.
Qed.

(** The tied topic entered on the fresh server becomes topic 4, listed
    last. *)
Lemma create_appends_row_witness :
  reachable freshStorage
  /\ getTrendingTopic 4 freshStorage = None
  /\ map topic_id
       (getTrendingTopics (snd (createTrendingTopic 0 tiedTopic freshStorage)))
     = [1; 2; 3; 4].
Proof.
  split; [exact freshWorld_reachable|].
  destruct (@create_appends_row KTrendingTopic 0 tiedTopic freshStorage
              freshWorld_reachable) as (Hfresh & _ & _ & Hall).
  split; [exact Hfresh|].
  change (map topic_id
            (getAll KTrendingTopic
               (snd (createRow KTrendingTopic 0 tiedTopic freshStorage)))
          = [1; 2; 3; 4]).
  rewrite Hall. vm_compute. reflexivity.
Defined.

(** ** Ids are not reused *)

Lemma counter_apply_op k o s : counter k s <= counter k (apply_op o s).
Proof.
  destruct o; destruct k; simpl;
    cbv delta [updateScript updateAiConfig updatePlatform
               updatePlatformAccount updateContent updateScheduledPost
               updateTrendingTopic deleteScript deleteAiConfig
               deletePlatform deletePlatformAccount deleteContent
               deleteScheduledPost deleteTrendingTopic]; cbv beta;
    try lia;
    match goal with
    | |- context [JsMap.get ?id ?m] => destruct (JsMap.get id m); simpl; lia
    | |- context [JsMap.delete ?id ?m] =>
        destruct (JsMap.delete id m); simpl; lia
    end.
Qed.

Lemma counter_run_ops k ops s : counter k s <= counter k (run_ops ops s).
Proof.
  revert s. induction ops as [|o ops IH]; intros s.
  - rewrite run_ops_nil. lia.
  - change (run_ops (o :: ops) s) with (run_ops ops (apply_op o s)).
    pose proof (counter_apply_op k o s). specialize (IH (apply_op o s)).
    lia.
Qed.

(** X3: an id that a table of a running server holds is never handed out
    again: whatever calls follow, deletions of that very row included,
    the next row created in the table gets a greater id. *)
Theorem ids_never_reused (k : Kind) (s : MemStorage) (ops : list Op)
  (now : Z) (i : InsertOf k) (id : Z) :
  reachable s ->
  In id (live_ids k s) ->
  id < fst (create k now i (run_ops ops s)).
Proof.
  intros Hreach Hin.
  apply (store_ok_live_ids k (reachable_store_ok Hreach)) in Hin.
  rewrite (proj1 (create_id k now i (run_ops ops s))).
  pose proof (counter_run_ops k ops s). lia.
Qed.

(** On the fresh server content 3 is stored; after it is deleted, the
    next content created still gets a greater id (7). *)

(** ** What a call leaves alone *)

(** X4: a call of a store method changes the table it is a method of and
    nothing else: every other table, with its id counter, is as before.
    In particular deleting a content or a platform account leaves the
    scheduled posts that refer to it in place. *)
Theorem call_changes_one_table (o : Op) (k : Kind) (s : MemStorage) :
  op_kind o <> k ->
  table k (apply_op o s) = table k s
  /\ counter k (apply_op o s) = counter k s.
Proof.
  intros Hne.
  destruct o; destruct k; simpl in Hne; try congruence; simpl;
    cbv delta [updateScript updateAiConfig updatePlatform
               updatePlatformAccount updateContent updateScheduledPost
               updateTrendingTopic deleteScript deleteAiConfig
               deletePlatform deletePlatformAccount deleteContent
               deleteScheduledPost deleteTrendingTopic]; cbv beta;
    try (split; reflexivity);
    match goal with
    | |- context [JsMap.get ?id ?m] =>
        destruct (JsMap.get id m); simpl; split; reflexivity
    | |- context [JsMap.delete ?id ?m] =>
        destruct (JsMap.delete id m); simpl; split; reflexivity
    end.
Qed.

(** ** Updates keep the rows in place *)

Lemma live_ids_table k s1 s2 :
  table k s1 = table k s2 -> live_ids k s1 = live_ids k s2.
Proof. rewrite !live_ids_getAll, !getAll_table. now intros ->. Qed.

Ltac update_in_place get_expr :=
  let G := fresh "G" in
  destruct get_expr eqn:G; simpl;
  [ split;
    [ split;
      [ first [ reflexivity
              | eapply JsMapRows.map_values_set_present;
                [exact G | reflexivity] ]
      | reflexivity ]
    | let H := fresh "H" in intros H; discriminate H ]
  | split; [split; reflexivity | reflexivity] ].

(** X5: an update call never adds, removes, renumbers or reorders rows:
    after it every table lists the same ids in the same order and every
    id counter is as before (so the fields of one row are all it can
    change); and when no row has the given id the store is left exactly
    as it is. *)
Theorem update_keeps_rows_in_place (o : Op) (id : Z) (s : MemStorage)
  (k : Kind) :
  updated_id o = Some id ->
  (live_ids k (apply_op o s) = live_ids k s
   /\ counter k (apply_op o s) = counter k s)
  /\ (get (op_kind o) id s = None -> apply_op o s = s).
Proof.
  intros Hupd.
  destruct o; simpl in Hupd; try discriminate Hupd.
  all: injection Hupd as ->.
  all: simpl apply_op; simpl op_kind; rewrite get_table;
       cbv [table RowOf].
  all: cbv delta [updateScript updateAiConfig updatePlatform
                  updatePlatformAccount updateContent updateScheduledPost
                  updateTrendingTopic]; cbv beta.
  all: destruct k.
  all: match goal with
       | |- context [JsMap.get ?id ?m] => update_in_place (JsMap.get id m)
       end.
Qed.

(** On the fresh server content 3 is stored; after it is deleted, the
    next content created gets id 7, not 3. *)
Lemma ids_never_reused_witness :
  reachable freshStorage
  /\ In 3 (live_ids KContent freshStorage)
  /\ getContent 3 (run_ops [OpDeleteContent 3] freshStorage) = None
  /\ 3 < fst (create KContent 1000 draftContent
                (run_ops [OpDeleteContent 3] freshStorage)).
Proof.
  assert (Hin : In 3 (live_ids KContent freshStorage))
    by (vm_compute; right; right; left; reflexivity).
  split; [exact freshWorld_reachable|]. split; [exact Hin|].
  split; [vm_compute; reflexivity|].
  exact (@ids_never_reused KContent freshStorage [OpDeleteContent 3] 1000
           draftContent 3 freshWorld_reachable Hin).
Defined.

(** Deleting account 1 on the fresh server leaves scheduled post 2, which
    is for that account, in place. *)
Lemma call_changes_one_table_witness :
  op_kind (OpDeletePlatformAccount 1) <> KScheduledPost
  /\ getPlatformAccount 1 (apply_op (OpDeletePlatformAccount 1) freshStorage)
     = None
  /\ option_map post_platformAccountId
       (getScheduledPost 2 (apply_op (OpDeletePlatformAccount 1) freshStorage))
     = Some 1.
Proof.
  assert (Hne : op_kind (OpDeletePlatformAccount 1) <> KScheduledPost)
    by discriminate.
  split; [exact Hne|]. split; [vm_compute; reflexivity|].
  unfold getScheduledPost.
  change (scheduledPosts (apply_op (OpDeletePlatformAccount 1) freshStorage))
    with (table KScheduledPost
            (apply_op (OpDeletePlatformAccount 1) freshStorage)).
  rewrite (proj1 (@call_changes_one_table (OpDeletePlatformAccount 1)
                    KScheduledPost freshStorage Hne)).
  vm_compute. reflexivity.
Defined.

(** Archiving content 1 on the fresh server keeps the listed content ids. *)
Lemma update_keeps_rows_in_place_witness :
  updated_id (OpUpdateContent 1 archiveContent) = Some 1
  /\ live_ids KContent (apply_op (OpUpdateContent 1 archiveContent)
                                 freshStorage)
     = [1; 2; 3].
Proof.
  split; [reflexivity|].
  rewrite (proj1 (proj1 (@update_keeps_rows_in_place
                           (OpUpdateContent 1 archiveContent) 1 freshStorage
                           KContent eq_refl))).
  vm_compute. reflexivity.
Defined.

(** ** Recent contents and scripts *)

Lemma slice0_length_count (A : Type) (limit : Z) (l : list A) :
  0 <= limit ->
  Z.of_nat (List.length (JsArray.slice0 limit l))
  = Z.min limit (Z.of_nat (List.length l)).
Proof.
  intros H. unfold JsArray.slice0.
  destruct (limit <? 0) eqn:E; [apply Z.ltb_lt in E; lia|].
  rewrite length_firstn. lia.
Qed.

Lemma sort_slice_newest_first (E : Type) (createdAt : E -> Z) (n : Z)
  (l : list E) :
  newest_first createdAt n l
    (JsArray.slice0 n
       (JsArray.sort (fun a b => createdAt b - createdAt a) l)).
Proof.
  set (cmp := fun a b => createdAt b - createdAt a).
  assert (Hsorted : StronglySorted (by_createdAt_desc createdAt)
                      (JsArray.sort cmp l)).
  { apply JsArrayFacts.StronglySorted_impl
      with (R := JsArray.ascending (fun e => - createdAt e)).
    - unfold JsArray.ascending, by_createdAt_desc. intros; lia.
    - apply JsArrayFacts.sort_sorted. intros; unfold cmp; lia. }
  split; [|split; [|split]].
  - now apply JsArrayFacts.slice0_sorted.
  - intros x Hx. apply JsArrayFacts.slice0_In in Hx.
    now apply JsArrayFacts.sort_In in Hx.
  - intros x y Hx Hy Hgt. apply (JsArrayFacts.sort_In cmp) in Hy.
    destruct (@JsArrayFacts.slice0_cut _ (by_createdAt_desc createdAt) n _
                x y Hsorted Hx Hy) as [H|H]; [exact H|].
    unfold by_createdAt_desc in H. lia.
  - intros Hn. rewrite slice0_length_count by exact Hn.
    now rewrite JsArrayFacts.sort_length.
Qed.

(** X6: [getRecentContents(n)] and [getRecentScripts(n)] answer newest
    first: stored rows in descending order of [createdAt], none left out
    that is strictly newer than a returned one, and exactly
    [min(n, number stored)] of them for a count [n]. *)
Theorem getRecent_newest_first (s : MemStorage) (n : Z) :
  newest_first content_createdAt n (getContents s) (getRecentContents n s)
  /\ newest_first script_createdAt n (getScripts s) (getRecentScripts n s).
Proof. split; apply sort_slice_newest_first. Qed.

(** On the fresh server the two most recent of the three contents are
    returned. *)
Lemma getRecent_newest_first_witness :
  0 <= 2
  /\ Z.of_nat (List.length (getRecentContents 2 freshStorage)) = 2
  /\ map content_id (getRecentContents 2 freshStorage) = [1; 2].
Proof.
  assert (H : 0 <= 2) by lia. split; [exact H|]. split.
  - rewrite (proj2 (proj2 (proj2 (proj1 (getRecent_newest_first
                                            freshStorage 2)))) H).
    vm_compute. reflexivity.
  - vm_compute. reflexivity.
Defined.

(* ===================================================================== *)
(** * Further properties of [POST /api/automation/create-content]         *)
(* ===================================================================== *)

(** ** Outcomes of validation, topic resolution and the three branches *)

Lemma requestSchema_parse_inl body e :
  requestSchema_parse body = inl e -> exists issues, e = ZodError issues.
Proof.
  unfold requestSchema_parse.
  destruct body as [| | | | |props]; try (intros [= <-]; eexists; reflexivity).
  destruct (z_number_optional (assoc "topicId" props)) as [t|];
    destruct (z_number_optional (assoc "platformId" props)) as [p|];
    destruct (z_enum_optional ["video"; "image"; "text"]
                (assoc "contentType" props)) as [c|];
    destruct (z_boolean_optional (assoc "scheduleImmediately" props)) as [i|];
    intros H; try discriminate H; injection H as <-; eexists; reflexivity.
Qed.

Lemma createContentHandler_invalid svc reqBody issues w :
  requestSchema_parse reqBody = inl (ZodError issues) ->
  createContentHandler svc reqBody w = (json 400 (ZodErrorBody issues), w).
Proof.
  intros H. unfold createContentHandler, createContentBody. rewrite H.
  reflexivity.
Qed.

Lemma createContentHandler_resolved svc reqBody request w :
  requestSchema_parse reqBody = inr request ->
  exists x,
    resolveTopic request w = (Resolved x, w)
    /\ createContentHandler svc reqBody w
       = match x with
         | inr topic =>
             catchHandler ErrorBody (generateFor svc request topic) w
         | inl notFound => (notFound, w)
         end
    /\ (forall notFound, x = inl notFound -> status notFound = 404).
Proof.
  intros Hparse. unfold createContentHandler, createContentBody.
  rewrite Hparse.
  destruct (resolveTopic_pure request w) as (x & Hx & H404).
  exists x. split; [exact Hx|]. split; [|exact H404].
  unfold catchHandler, parse, bind, ret. rewrite Hx.
  destruct x; reflexivity.
Qed.

Lemma schedulePost_scheduled request content w :
  schedulePost request content w
  = (Resolved (fst (scheduled request content w)),
     snd (scheduled request content w)).
Proof.
  rewrite schedulePost_spec. unfold scheduled.
  destruct (requestedAccounts request (storage w)); reflexivity.
Qed.

Lemma textBranch_outcome svc request topic w :
  textBranch svc request topic w =
  let p := generateContent svc (topic_topic topic) "social media"
                           "engaging" "general" in
  let w1 := advance w (elapsed p) in
  match settled p with
  | Rejected e => (Rejected e, w1)
  | Resolved postContent =>
      let created := createContent (clock w1)
                       (textContentInput topic postContent) (storage w1) in
      let sch := scheduled request (fst created)
                   {| storage := snd created; clock := clock w1 |} in
      (Resolved (json 201 (TextCreated topic (fst created) postContent
                                       (fst sch))), snd sch)
  end.
Proof.
  cbv zeta. unfold textBranch, bind, await, advance.
  destruct (settled _) as [postContent|e]; [|reflexivity].
  unfold callAt, bind, dateNow, call, ret. cbn [clock storage].
  destruct (createContent _ _ _) as [c s1]. cbn [fst snd].
  now rewrite schedulePost_scheduled.
Qed.

Lemma imageBranch_outcome svc request topic w :
  imageBranch svc request topic w =
  let p := generateImage svc (imageParams topic) in
  let w1 := advance w (elapsed p) in
  match settled p with
  | Rejected e => (Rejected e, w1)
  | Resolved image =>
      let created := createContent (clock w1)
                       (imageContentInput topic image) (storage w1) in
      let sch := scheduled request (fst created)
                   {| storage := snd created; clock := clock w1 |} in
      (Resolved (json 201 (ImageCreated topic (fst created) image
                                        (fst sch))), snd sch)
  end.
Proof.
  cbv zeta. unfold imageBranch, bind, await, advance.
  destruct (settled _) as [image|e]; [|reflexivity].
  unfold callAt, bind, dateNow, call, ret. cbn [clock storage].
  destruct (createContent _ _ _) as [c s1]. cbn [fst snd].
  now rewrite schedulePost_scheduled.
Qed.

Lemma videoBranch_outcome svc request topic w :
  videoBranch svc request topic w =
  let p1 := generateScript svc (topic_topic topic) "video" 5
                           "educational" "general" in
  let w1 := advance w (elapsed p1) in
  match settled p1 with
  | Rejected e => (Rejected e, w1)
  | Resolved scriptContent =>
      let scripted := createScript (clock w1)
                        (videoScriptInput topic scriptContent)
                        (storage w1) in
      let w2 := {| storage := snd scripted; clock := clock w1 |} in
      let p2 := generateThumbnail svc (topic_topic topic) in
      let w3 := advance w2 (elapsed p2) in
      match settled p2 with
      | Rejected e => (Rejected e, w3)
      | Resolved _ =>
          let p3 := generateVideo svc
                      (videoRequest topic scriptContent (fst scripted)) in
          let w4 := advance w3 (elapsed p3) in
          match settled p3 with
          | Rejected e => (Rejected e, w4)
          | Resolved videoResult =>
              let created :=
                createContent (clock w4)
                  (videoContentInput topic (fst scripted) videoResult)
                  (storage w4) in
              let sch := scheduled request (fst created)
                           {| storage := snd created; clock := clock w4 |} in
              (Resolved (json 201 (VideoCreated topic (fst scripted)
                                     (fst created) videoResult (fst sch))),
               snd sch)
          end
      end
  end.
Proof.
  cbv zeta. unfold videoBranch, bind, await, advance.
  destruct (settled _) as [scriptContent|e]; [|reflexivity].
  unfold callAt at 1. unfold bind, dateNow, call. cbn [clock storage].
  destruct (createScript _ _ _) as [script s1]. cbn [fst snd clock storage].
  destruct (settled (generateThumbnail _ _)) as [thumbnail|e];
    [|reflexivity].
  destruct (settled (generateVideo _ _)) as [videoResult|e]; [|reflexivity].
  unfold callAt, bind, dateNow, call, ret. cbn [clock storage].
  destruct (createContent _ _ _) as [c s2]. cbn [fst snd].
  now rewrite schedulePost_scheduled.
Qed.

(** ** What a run of the generation step does to the store *)

Lemma generateFor_branch svc request topic :
  (or_default_str (req_contentType request) "video" = "video"
   /\ generateFor svc request topic = videoBranch svc request topic)
  \/ (or_default_str (req_contentType request) "video" <> "video"
      /\ (generateFor svc request topic = imageBranch svc request topic
          \/ generateFor svc request topic = textBranch svc request topic)).
Proof.
  unfold generateFor.
  destruct (String.eqb_spec (or_default_str (req_contentType request) "video")
                            "video") as [E|E].
  - left. now split.
  - right. split; [exact E|].
    destruct (or_default_str (req_contentType request) "video" =? "image")%string;
      [now left | now right].
Qed.

Lemma requestedAccounts_not_requested request s :
  schedulingRequested request = false -> requestedAccounts request s = [].
Proof.
  unfold schedulingRequested, requestedAccounts. now intros ->.
Qed.

(** The store after the scheduling step. *)
Lemma scheduled_store request content w :
  let s := storage w in
  let s' := storage (snd (scheduled request content w)) in
  (forall k, k <> KScheduledPost ->
             table k s' = table k s /\ counter k s' = counter k s)
  /\ (schedulingRequested request = false ->
      scheduledPosts s' = scheduledPosts s /\ postId s' = postId s)
  /\ scheduledPosts s'
     = match fst (scheduled request content w) with
       | Some post => JsMap.set (postId s) post (scheduledPosts s)
       | None => scheduledPosts s
       end
  /\ (schedulingRequested request = false ->
      fst (scheduled request content w) = None).
Proof.
  cbv zeta. unfold scheduled.
  destruct (requestedAccounts request (storage w)) as [|account rest] eqn:Hacc;
    cbn [fst snd storage].
  - repeat split.
  - assert (Hreq : schedulingRequested request = false -> False).
    { intros Hno.
      rewrite (requestedAccounts_not_requested request (storage w) Hno)
        in Hacc.
      discriminate Hacc. }
    split; [|split; [|split]].
    + intros k Hk. destruct k; try congruence; split; reflexivity.
    + intros Hno. destruct (Hreq Hno).
    + reflexivity.
    + intros Hno. destruct (Hreq Hno).
Qed.

(** What the generation step leaves alone, whatever its outcome, and what
    it has stored when it completes. *)
Lemma generateFor_effects svc request topic w :
  let out := generateFor svc request topic w in
  let s := storage w in
  let s' := storage (snd out) in
  (forall k, In k [KUser; KAiConfig; KPlatform; KPlatformAccount;
                   KTrendingTopic] ->
             table k s' = table k s /\ counter k s' = counter k s)
  /\ (or_default_str (req_contentType request) "video" <> "video" ->
      scripts s' = scripts s /\ scriptId s' = scriptId s)
  /\ (schedulingRequested request = false ->
      scheduledPosts s' = scheduledPosts s /\ postId s' = postId s)
  /\ match fst out with
     | Rejected _ =>
         contents s' = contents s /\ contentId s' = contentId s
         /\ scheduledPosts s' = scheduledPosts s /\ postId s' = postId s
     | Resolved r =>
         status r = 201
         /\ exists content sp,
              created_content (body r) = Some content
              /\ created_scheduledPost (body r) = Some sp
              /\ contents s' = JsMap.set (contentId s) content (contents s)
              /\ scripts s'
                 = match created_script (body r) with
                   | Some script =>
                       JsMap.set (scriptId s) script (scripts s)
                   | None => scripts s
                   end
              /\ scheduledPosts s'
                 = match sp with
                   | Some post => JsMap.set (postId s) post (scheduledPosts s)
                   | None => scheduledPosts s
                   end
              /\ (schedulingRequested request = false -> sp = None)
              /\ (or_default_str (req_contentType request) "video" <> "video"
                  -> created_script (body r) = None)
     end.
Proof.
  cbv zeta.
  destruct (generateFor_branch svc request topic) as [[Hv E]|[Hv [E|E]]];
    rewrite E;
    [ rewrite videoBranch_outcome | rewrite imageBranch_outcome
    | rewrite textBranch_outcome ];
    cbv zeta;
    repeat match goal with
           | |- context [match settled ?p with _ => _ end] =>
               destruct (settled p)
           end;
    cbn [fst snd];
    try match goal with
        | |- context [scheduled ?r ?c ?w0] =>
            destruct (scheduled_store r c w0) as (Hk & Hno & Hposts & Hnone);
            cbv zeta in Hk, Hno, Hposts;
            pose proof (Hk KUser ltac:(discriminate)) as [? ?];
            pose proof (Hk KScript ltac:(discriminate)) as [? ?];
            pose proof (Hk KAiConfig ltac:(discriminate)) as [? ?];
            pose proof (Hk KPlatform ltac:(discriminate)) as [? ?];
            pose proof (Hk KPlatformAccount ltac:(discriminate)) as [? ?];
            pose proof (Hk KContent ltac:(discriminate)) as [? ?];
            pose proof (Hk KTrendingTopic ltac:(discriminate)) as [? ?];
            clear Hk; cbn [table counter] in *;
            set (s2 := storage (snd (scheduled r c w0))) in *;
            set (sp := fst (scheduled r c w0)) in *
        end.
  all: split;
    [ intros k Hin; simpl in Hin;
      destruct Hin as [<-|[<-|[<-|[<-|[<-|[]]]]]]; cbn [table counter];
      split; first [reflexivity | etransitivity; [eassumption|reflexivity]]
    | ].
  all: split;
    [ intros Hv'; try congruence;
      split; first [reflexivity | etransitivity; [eassumption|reflexivity]]
    | ].
  all: split;
    [ intros Hno';
      first [ split; reflexivity
            | destruct (Hno Hno') as [Hp1 Hp2]; rewrite Hp1, Hp2;
              split; reflexivity ]
    | ].
  all: cbn [status body json created_content created_scheduledPost
            created_script].
  all: first
    [ repeat split; reflexivity
    | split; [reflexivity|];
      eexists; exists sp;
      split; [reflexivity|]; split; [reflexivity|];
      split; [etransitivity; [eassumption|reflexivity]|];
      split; [etransitivity; [eassumption|reflexivity]|];
      split; [exact Hposts|]; split; [exact Hnone|];
      intros Hv'; first [congruence | reflexivity] ].
Qed.

(** The effects of the generation step are those of the handler. *)
Lemma catchHandler_world failure (m : Async Response) w :
  snd (catchHandler failure m w) = snd (m w).
Proof.
  unfold catchHandler. destruct (m w) as [[r|[errors|message]] w'];
    reflexivity.
Qed.

Lemma catchHandler_status failure (m : Async Response) w :
  status (fst (catchHandler failure m w))
  = match fst (m w) with
    | Resolved r => status r
    | Rejected (ZodError _) => 400
    | Rejected (JsError _) => 500
    end.
Proof.
  unfold catchHandler. destruct (m w) as [[r|[errors|message]] w'];
    reflexivity.
Qed.

Lemma catchHandler_body failure (m : Async Response) w r :
  fst (m w) = Resolved r -> fst (catchHandler failure m w) = r.
Proof.
  unfold catchHandler. destruct (m w) as [[r0|[errors|message]] w'];
    simpl; congruence.
Qed.

(** ** The topic named by the request *)

Lemma resolveTopic_by_id request q w :
  req_topicId request = Some q -> Qnum q <> 0 ->
  resolveTopic request w
  = (Resolved match getTrendingTopicByNumber q (storage w) with
              | Some topic => inr topic
              | None => inl (json 404 (ErrorBody "Topic not found"))
              end, w).
Proof.
  intros Hid Hq. unfold resolveTopic. rewrite Hid. simpl.
  apply Z.eqb_neq in Hq. rewrite Hq. simpl. unfold bind, read.
  destruct (getTrendingTopicByNumber q (storage w)); reflexivity.
Qed.

(** X7: a request that passes validation and carries a [topicId].  For a
    [topicId] other than 0, the handler generates for the stored topic
    with that id, which is the topic of any [201] response; when no topic
    has that id (in particular when the number is not an integer) it
    answers [404] "Topic not found" and leaves the world as it is.  A
    [topicId] of 0 is taken as absent: the handler falls back on the top
    trending topic. *)
Theorem create_content_topic_by_id (svc : Services) (reqBody : Json)
  (request : CreateContentRequest) (w : World) (q : Q) :
  requestSchema_parse reqBody = inr request ->
  req_topicId request = Some q ->
  (Qnum q <> 0 ->
   match getTrendingTopicByNumber q (storage w) with
   | Some topic =>
       createContentHandler svc reqBody w
       = catchHandler ErrorBody (generateFor svc request topic) w
       /\ (forall r w',
             createContentHandler svc reqBody w = (r, w') ->
             status r = 201 -> created_topic (body r) = Some topic)
   | None =>
       createContentHandler svc reqBody w
       = (json 404 (ErrorBody "Topic not found"), w)
   end)
  /\ (Qnum q = 0 ->
      createContentHandler svc reqBody w
      = match getTopTrendingTopics 1 (storage w) with
        | [] => (json 404 (ErrorBody "No trending topics available"), w)
        | t :: _ => catchHandler ErrorBody (generateFor svc request t) w
        end).
Proof.
  intros Hparse Hid.
  destruct (createContentHandler_resolved svc reqBody w Hparse)
    as (x & Hx & Hrun & _).
  split.
  - intros Hq. rewrite (resolveTopic_by_id request w Hid Hq) in Hx.
    injection Hx as <-.
    destruct (getTrendingTopicByNumber q (storage w)) as [topic|];
      [|exact Hrun].
    split; [exact Hrun|]. intros r w' Hr H201. rewrite Hrun in Hr.
    apply catchHandler_201 in Hr; [|exact H201].
    apply generateFor_Resolved in Hr
      as (content & w2 & sp & _ & _ & Ht & _). exact Ht.
  - intros Hq.
    assert (Hfalsy : truthy_num (req_topicId request) = false).
    { rewrite Hid. simpl. now rewrite Hq. }
    rewrite (resolveTopic_fallback request w Hfalsy) in Hx.
    injection Hx as <-.
    destruct (getTopTrendingTopics 1 (storage w)); exact Hrun.
Qed.

Example topicTwoTextBody_parses :
  requestSchema_parse topicTwoTextBody = inr topicTwoTextRequest.
Proof. vm_compute. reflexivity. Qed.

Example missingTopicBody_parses :
  requestSchema_parse missingTopicBody = inr missingTopicRequest.
Proof. vm_compute. reflexivity. Qed.

(** On the fresh server [{ topicId: 99 }] is answered [404], and
    [{ topicId: 2, contentType: "text" }] generates for topic 2. *)
Lemma create_content_topic_by_id_witness :
  requestSchema_parse missingTopicBody = inr missingTopicRequest
  /\ req_topicId missingTopicRequest = Some (inject_Z 99)
  /\ Qnum (inject_Z 99) <> 0
  /\ createContentHandler sampleServices missingTopicBody freshWorld
     = (json 404 (ErrorBody "Topic not found"), freshWorld)
  /\ option_map topic_id
       (created_topic
          (body (fst (createContentHandler sampleServices topicTwoTextBody
                                           freshWorld))))
     = Some 2.
Proof.
  split; [exact missingTopicBody_parses|]. split; [reflexivity|].
  assert (Hq : Qnum (inject_Z 99) <> 0) by discriminate.
  split; [exact Hq|]. split.
  - exact (proj1 (@create_content_topic_by_id sampleServices missingTopicBody
                    missingTopicRequest freshWorld (inject_Z 99)
                    missingTopicBody_parses eq_refl) Hq).
  - vm_compute. reflexivity.
Defined.

(** ** Answers and rejections *)

(** X8: whatever the body and the services, the handler answers [201],
    [400], [404] or [500].  A body that fails validation is answered
    [400] with the issues and a [404] is answered before anything is
    generated: in both cases the world, the store in particular, is left
    as it is. *)
Theorem create_content_answers (svc : Services) (reqBody : Json)
  (w : World) :
  In (status (fst (createContentHandler svc reqBody w))) [201; 400; 404; 500]
  /\ (forall e, requestSchema_parse reqBody = inl e ->
        exists issues,
          createContentHandler svc reqBody w
          = (json 400 (ZodErrorBody issues), w))
  /\ (status (fst (createContentHandler svc reqBody w)) = 404 ->
      snd (createContentHandler svc reqBody w) = w).
Proof.
  destruct (requestSchema_parse reqBody) as [e|request] eqn:Hparse.
  - destruct (requestSchema_parse_inl reqBody Hparse) as [issues ->].
    rewrite (createContentHandler_invalid svc reqBody w Hparse).
    split; [simpl; tauto|]. split; [|reflexivity].
    intros e [= <-]. now exists issues.
  - destruct (createContentHandler_resolved svc reqBody w Hparse)
      as (x & _ & Hrun & H404).
    rewrite Hrun. split; [|split; [discriminate|]].
    + destruct x as [notFound|topic].
      * simpl. rewrite (H404 notFound eq_refl). tauto.
      * rewrite catchHandler_status.
        pose proof (generateFor_effects svc request topic w) as Heff.
        cbv zeta in Heff. destruct Heff as (_ & _ & _ & Hout).
        destruct (fst (generateFor svc request topic w)) as [r|[errors|msg]].
        -- destruct Hout as [-> _]. simpl; tauto.
        -- simpl; tauto.
        -- simpl; tauto.
    + destruct x as [notFound|topic]; [reflexivity|].
      rewrite catchHandler_status.
      pose proof (generateFor_effects svc request topic w) as Heff.
      cbv zeta in Heff. destruct Heff as (_ & _ & _ & Hout).
      destruct (fst (generateFor svc request topic w)) as [r|[errors|msg]].
      * destruct Hout as [-> _]. discriminate.
      * discriminate.
      * discriminate.
Qed.

(** ** Failed runs *)

(** X9: a run that is not answered [201] has created neither a Content
    nor a ScheduledPost: both tables and their id counters are as
    before. *)
Theorem create_content_failure_stores_no_content (svc : Services)
  (reqBody : Json) (w : World) :
  status (fst (createContentHandler svc reqBody w)) <> 201 ->
  contents (storage (snd (createContentHandler svc reqBody w)))
  = contents (storage w)
  /\ contentId (storage (snd (createContentHandler svc reqBody w)))
     = contentId (storage w)
  /\ scheduledPosts (storage (snd (createContentHandler svc reqBody w)))
     = scheduledPosts (storage w)
  /\ postId (storage (snd (createContentHandler svc reqBody w)))
     = postId (storage w).
Proof.
  destruct (requestSchema_parse reqBody) as [e|request] eqn:Hparse.
  - destruct (requestSchema_parse_inl reqBody Hparse) as [issues ->].
    rewrite (createContentHandler_invalid svc reqBody w Hparse).
    intros _. repeat split.
  - destruct (createContentHandler_resolved svc reqBody w Hparse)
      as (x & _ & Hrun & _).
    rewrite Hrun. destruct x as [notFound|topic]; [intros _; repeat split|].
    rewrite catchHandler_status, catchHandler_world.
    pose proof (generateFor_effects svc request topic w) as Heff.
    cbv zeta in Heff. destruct Heff as (_ & _ & _ & Hout).
    destruct (fst (generateFor svc request topic w)) as [r|e].
    + destruct Hout as [-> _]. intros H; now destruct H.
    + intros _. exact Hout.
Qed.

Example failingVideo_run :
  fst (createContentHandler failingVideoServices (JObj []) freshWorld)
  = json 500 (ErrorBody "Video compilation failed").
Proof. vm_compute. reflexivity. Qed.

(** On the fresh server, a run whose video step fails is answered [500]
    and the three contents are as before. *)
Lemma create_content_failure_stores_no_content_witness :
  status (fst (createContentHandler failingVideoServices (JObj [])
                                    freshWorld)) <> 201
  /\ contents (storage (snd (createContentHandler failingVideoServices
                              (JObj []) freshWorld)))
     = contents (storage freshWorld).
Proof.
  assert (H : status (fst (createContentHandler failingVideoServices
                             (JObj []) freshWorld)) <> 201)
    by (rewrite failingVideo_run; discriminate).
  split; [exact H|].
  exact (proj1 (@create_content_failure_stores_no_content
                  failingVideoServices (JObj []) freshWorld H)).
Defined.

Lemma values_set_next (E : Type) (id_of : E -> Z) (m : JsMap.t E) next e :
  table_ok id_of m next ->
  JsMap.values (JsMap.set next e m) = JsMap.values m ++ [e].
Proof.
  intros Hok. apply JsMapRows.values_set_fresh.
  apply JsMapFacts.get_None_notin. exact (table_ok_fresh Hok).
Qed.

(** X10: nothing is rolled back.  With services whose script and
    thumbnail steps succeed and whose video step fails with [message], a
    video request (or one without [contentType]) on a running server is
    answered [404] with the world as before, when no topic is found, or
    else [500] with that message, and then the Script created for the
    video is left in the store, appended to the scripts, while contents
    and scheduled posts are as before. *)
Theorem create_content_failed_video_leaves_script (svc : Services)
  (reqBody : Json) (request : CreateContentRequest) (w : World)
  (message : string) :
  requestSchema_parse reqBody = inr request ->
  or_default_str (req_contentType request) "video" = "video" ->
  (forall topic, exists scriptContent,
      settled (generateScript svc topic "video" 5 "educational" "general")
      = Resolved scriptContent) ->
  (forall topic, exists thumbnail,
      settled (generateThumbnail svc topic) = Resolved thumbnail) ->
  (forall videoRequest,
      settled (generateVideo svc videoRequest) = Rejected (JsError message)) ->
  reachable (storage w) ->
  (status (fst (createContentHandler svc reqBody w)) = 404
   /\ snd (createContentHandler svc reqBody w) = w)
  \/ (fst (createContentHandler svc reqBody w)
      = json 500 (ErrorBody message)
      /\ (exists script,
            getScripts (storage (snd (createContentHandler svc reqBody w)))
            = getScripts (storage w) ++ [script]
            /\ getScript (script_id script) (storage w) = None
            /\ script_format script = "video"
            /\ script_status script = "draft")
      /\ contents (storage (snd (createContentHandler svc reqBody w)))
         = contents (storage w)
      /\ scheduledPosts (storage (snd (createContentHandler svc reqBody w)))
         = scheduledPosts (storage w)).
Proof.
  intros Hparse Hvideo Hscript Hthumb Hfail Hreach.
  pose proof (reachable_store_ok Hreach) as Hok.
  destruct (createContentHandler_resolved svc reqBody w Hparse)
    as (x & _ & Hrun & H404).
  rewrite Hrun. destruct x as [notFound|topic].
  - left. split; [exact (H404 notFound eq_refl) | reflexivity].
  - right.
    assert (E : generateFor svc request topic = videoBranch svc request topic).
    { destruct (generateFor_branch svc request topic) as [[_ E]|[Hne _]];
        [exact E | contradiction]. }
    unfold catchHandler. rewrite E, videoBranch_outcome. cbv zeta.
    destruct (Hscript (topic_topic topic)) as [scriptContent ->].
    destruct (Hthumb (topic_topic topic)) as [thumbnail ->].
    rewrite Hfail. cbn [fst snd storage advance].
    split; [reflexivity|]. split; [|split; reflexivity].
    eexists. split.
    + unfold getScripts. cbn [scripts createScript snd set_scripts].
      destruct Hok as (_ & Hs & _). apply (values_set_next _ Hs).
    + split; [|split; reflexivity].
      destruct Hok as (_ & Hs & _). exact (table_ok_fresh Hs).
Qed.

(** The empty body on the fresh server, with the failing video step:
    script 3 is left behind. *)
Lemma create_content_failed_video_leaves_script_witness :
  requestSchema_parse (JObj []) = inr emptyRequest
  /\ fst (createContentHandler failingVideoServices (JObj []) freshWorld)
     = json 500 (ErrorBody "Video compilation failed")
  /\ map script_id
       (getScripts (storage (snd (createContentHandler failingVideoServices
                                    (JObj []) freshWorld))))
     = [1; 2; 3].
Proof.
  assert (Hparse : requestSchema_parse (JObj []) = inr emptyRequest)
    by reflexivity.
  split; [exact Hparse|].
  destruct (@create_content_failed_video_leaves_script failingVideoServices
              (JObj []) emptyRequest freshWorld "Video compilation failed"
              Hparse eq_refl
              (fun topic => ex_intro _ _ eq_refl)
              (fun topic => ex_intro _ _ eq_refl)
              (fun _ => eq_refl) freshWorld_reachable)
    as [[H404 _]|(Hr & _ & _)].
  - vm_compute in H404. discriminate H404.
  - split; [exact Hr|]. vm_compute. reflexivity.
Defined.

(** ** What a run leaves alone, and what it adds *)

Lemma resolveTopic_notFound request w notFound :
  resolveTopic request w = (Resolved (inl notFound), w) ->
  exists error, notFound = json 404 (ErrorBody error).
Proof.
  unfold resolveTopic. destruct (truthy_num (req_topicId request));
    unfold bind, read.
  - destruct (match req_topicId request with
              | Some q => getTrendingTopicByNumber q
              | None => fun _ => None
              end (storage w)); unfold ret; intros H; injection H as H;
      [discriminate H | subst notFound; now eexists].
  - destruct (getTopTrendingTopics 1 (storage w)); unfold ret; intros H;
      injection H as H; [subst notFound; now eexists | discriminate H].
Qed.

(** X11: whatever the body, the services and the outcome, the handler
    never touches users, AI configs, platforms, platform accounts or
    trending topics.  It touches the scripts only in a video run, and
    the scheduled posts only when the request asks for scheduling
    ([scheduleImmediately] and [platformId] both truthy); otherwise the
    response carries no scheduled post either. *)
Theorem create_content_frame (svc : Services) (reqBody : Json) (w : World) :
  (forall k, In k [KUser; KAiConfig; KPlatform; KPlatformAccount;
                   KTrendingTopic] ->
     table k (storage (snd (createContentHandler svc reqBody w)))
     = table k (storage w)
     /\ counter k (storage (snd (createContentHandler svc reqBody w)))
        = counter k (storage w))
  /\ (forall request, requestSchema_parse reqBody = inr request ->
        (or_default_str (req_contentType request) "video" <> "video" ->
         scripts (storage (snd (createContentHandler svc reqBody w)))
         = scripts (storage w)
         /\ scriptId (storage (snd (createContentHandler svc reqBody w)))
            = scriptId (storage w)
         /\ created_scripts (body (fst (createContentHandler svc reqBody w)))
            = [])
        /\ (schedulingRequested request = false ->
            scheduledPosts (storage (snd (createContentHandler svc reqBody w)))
            = scheduledPosts (storage w)
            /\ postId (storage (snd (createContentHandler svc reqBody w)))
               = postId (storage w)
            /\ created_posts
                 (body (fst (createContentHandler svc reqBody w))) = [])).
Proof.
  destruct (requestSchema_parse reqBody) as [e|request] eqn:Hparse.
  - destruct (requestSchema_parse_inl reqBody Hparse) as [issues ->].
    rewrite (createContentHandler_invalid svc reqBody w Hparse).
    split; [intros k _; split; reflexivity | discriminate].
  - destruct (createContentHandler_resolved svc reqBody w Hparse)
      as (x & Hx & Hrun & _).
    rewrite Hrun. clear Hrun. destruct x as [notFound|topic].
    + destruct (@resolveTopic_notFound request w notFound Hx) as [error ->].
      split; [intros k _; split; reflexivity|].
      intros request' [= <-]. split; intros _; repeat split.
    + pose proof (generateFor_effects svc request topic w) as Heff.
      cbv zeta in Heff. destruct Heff as (Hk & Hscripts & Hposts & Hout).
      rewrite catchHandler_world. split; [exact Hk|].
      intros request' [= <-]. split.
      * intros Hv. destruct (Hscripts Hv) as [H1 H2].
        split; [exact H1|]. split; [exact H2|].
        unfold catchHandler, created_scripts.
        destruct (generateFor svc request topic w) as [[r|[errors|msg]] w'];
          try reflexivity.
        cbn [fst] in Hout.
        destruct Hout as (_ & content & sp & _ & _ & _ & _ & _ & _ & Hnone).
        cbn [fst]. now rewrite (Hnone Hv).
      * intros Hno. destruct (Hposts Hno) as [H1 H2].
        split; [exact H1|]. split; [exact H2|].
        unfold catchHandler, created_posts.
        destruct (generateFor svc request topic w) as [[r|[errors|msg]] w'];
          try reflexivity.
        cbn [fst] in Hout.
        destruct Hout as (_ & content & sp & _ & Hsp & _ & _ & _ & Hnone & _).
        cbn [fst]. rewrite Hsp. now rewrite (Hnone Hno).
Qed.

(** The sample text request with a topic id asks for no scheduling: on
    the fresh server the scripts and the scheduled posts are as before. *)
Lemma create_content_frame_witness :
  requestSchema_parse topicTwoTextBody = inr topicTwoTextRequest
  /\ or_default_str (req_contentType topicTwoTextRequest) "video" <> "video"
  /\ schedulingRequested topicTwoTextRequest = false
  /\ scripts (storage (snd (createContentHandler sampleServices
                              topicTwoTextBody freshWorld)))
     = scripts (storage freshWorld)
  /\ scheduledPosts (storage (snd (createContentHandler sampleServices
                                     topicTwoTextBody freshWorld)))
     = scheduledPosts (storage freshWorld).
Proof.
  assert (Hv : or_default_str (req_contentType topicTwoTextRequest) "video"
               <> "video") by discriminate.
  split; [exact topicTwoTextBody_parses|]. split; [exact Hv|].
  split; [reflexivity|].
  destruct (proj2 (create_content_frame sampleServices topicTwoTextBody
                     freshWorld) topicTwoTextRequest topicTwoTextBody_parses)
    as [Hscripts Hposts].
  split; [exact (proj1 (Hscripts Hv)) | exact (proj1 (Hposts eq_refl))].
Defined.

(** X12: a run on a running server that is answered [201] has added
    exactly the rows that the response reports and has changed nothing
    else in these tables: the contents listed afterwards are those
    listed before followed by the created Content; likewise the scripts,
    followed by the created Script in a video run; likewise the scheduled
    posts, followed by the created ScheduledPost if there is one. *)
Theorem create_content_adds_exactly (svc : Services) (reqBody : Json)
  (w : World) (r : Response) (w' : World) :
  reachable (storage w) ->
  createContentHandler svc reqBody w = (r, w') ->
  status r = 201 ->
  (exists content,
      created_content (body r) = Some content
      /\ getContents (storage w') = getContents (storage w) ++ [content])
  /\ getScripts (storage w')
     = getScripts (storage w) ++ created_scripts (body r)
  /\ getScheduledPosts (storage w')
     = getScheduledPosts (storage w) ++ created_posts (body r).
Proof.
  intros Hreach Hrun H201.
  pose proof (reachable_store_ok Hreach) as Hok.
  destruct (requestSchema_parse reqBody) as [e|request] eqn:Hparse.
  { destruct (requestSchema_parse_inl reqBody Hparse) as [issues ->].
    rewrite (createContentHandler_invalid svc reqBody w Hparse) in Hrun.
    injection Hrun as <- <-. discriminate H201. }
  destruct (@createContentHandler_201 svc reqBody request w r w' Hparse Hrun
              H201) as (topic & _ & Hgen).
  pose proof (generateFor_effects svc request topic w) as Heff.
  cbv zeta in Heff. rewrite Hgen in Heff. cbn [fst snd] in Heff.
  destruct Heff
    as (_ & _ & _ & _ & content & sp & Hc & Hsp & Hcs & Hss & Hps & _).
  destruct Hok as (_ & Hscript & _ & _ & _ & Hcontent & Hpost & _).
  split; [|split].
  - exists content. split; [exact Hc|].
    unfold getContents. rewrite Hcs. apply (values_set_next _ Hcontent).
  - unfold getScripts, created_scripts. rewrite Hss.
    destruct (created_script (body r)) as [script|].
    + apply (values_set_next _ Hscript).
    + now rewrite app_nil_r.
  - unfold getScheduledPosts, created_posts. rewrite Hps, Hsp.
    destruct sp as [post|].
    + apply (values_set_next _ Hpost).
    + now rewrite app_nil_r.
Qed.

(** The sample text run on the fresh server adds content 7 and scheduled
    post 4, and no script. *)
Lemma create_content_adds_exactly_witness :
  reachable (storage freshWorld)
  /\ status (fst scheduleTextRun) = 201
  /\ map content_id (getContents (storage (snd scheduleTextRun)))
     = [1; 2; 3; 7]
  /\ map script_id (getScripts (storage (snd scheduleTextRun))) = [1; 2]
  /\ map post_id (getScheduledPosts (storage (snd scheduleTextRun)))
     = [1; 2; 3; 4].
Proof.
  split; [exact freshWorld_reachable|]. split; [reflexivity|].
  destruct (@create_content_adds_exactly sampleServices scheduleTextBody
              freshWorld (fst scheduleTextRun) (snd scheduleTextRun)
              freshWorld_reachable scheduleTextRun_eq eq_refl)
    as ((content & Hc & Hcs) & Hss & Hps).
  rewrite Hcs, Hss, Hps. vm_compute in Hc. injection Hc as <-.
  repeat split.
Defined.

(* ===================================================================== *)
(** * Properties of the trending-topic routes                             *)
(* ===================================================================== *)

Lemma getTrendingTopicHandler_eq id w :
  getTrendingTopicHandler id w
  = (match getTrendingTopic id (storage w) with
     | Some t => reply 200 (Payload t)
     | None => reply 404 (MessageOnly "Trending topic not found")
     end, w).
Proof.
  unfold getTrendingTopicHandler, catchRest, bind, read.
  destruct (getTrendingTopic id (storage w)); reflexivity.
Qed.

Lemma getTrendingTopicsHandler_eq w :
  getTrendingTopicsHandler w
  = (reply 200 (Payload (getTrendingTopics (storage w))), w).
Proof. reflexivity. Qed.

Lemma deleteTrendingTopicHandler_eq id w :
  deleteTrendingTopicHandler id w
  = (if fst (deleteTrendingTopic id (storage w))
     then reply 204 NoContent
     else reply 404 (MessageOnly "Trending topic not found"),
     {| storage := snd (deleteTrendingTopic id (storage w));
        clock := clock w |}).
Proof.
  unfold deleteTrendingTopicHandler, catchRest, bind, call.
  destruct (deleteTrendingTopic id (storage w)) as [[|] s']; reflexivity.
Qed.

Lemma world_eta (w : World) : {| storage := storage w; clock := clock w |} = w.
Proof. destruct w; reflexivity. Qed.

(** X13: [DELETE /api/trending-topics/:id] on a running server answers
    [204] without a body when the topic is stored and [404] otherwise,
    in which case the world is left as it is.  After the call
    [GET /api/trending-topics/:id] answers [404], a second [DELETE]
    answers [404] and changes nothing, the other topics read as before
    and [GET /api/trending-topics] lists the topics listed before
    without the deleted one, in the same order. *)
Theorem delete_trending_topic_route (id : Z) (w : World) :
  reachable (storage w) ->
  (fst (deleteTrendingTopicHandler id w)
   = match getTrendingTopic id (storage w) with
     | Some _ => reply 204 NoContent
     | None => reply 404 (MessageOnly "Trending topic not found")
     end)
  /\ (getTrendingTopic id (storage w) = None ->
      snd (deleteTrendingTopicHandler id w) = w)
  /\ fst (getTrendingTopicHandler id (snd (deleteTrendingTopicHandler id w)))
     = reply 404 (MessageOnly "Trending topic not found")
  /\ deleteTrendingTopicHandler id (snd (deleteTrendingTopicHandler id w))
     = (reply 404 (MessageOnly "Trending topic not found"),
        snd (deleteTrendingTopicHandler id w))
  /\ (forall id', id' <> id ->
        fst (getTrendingTopicHandler id'
               (snd (deleteTrendingTopicHandler id w)))
        = fst (getTrendingTopicHandler id' w))
  /\ fst (getTrendingTopicsHandler (snd (deleteTrendingTopicHandler id w)))
     = reply 200
         (Payload (filter (fun t => negb (topic_id t =? id))
                          (getTrendingTopics (storage w)))).
Proof.
  intros Hreach.
  pose proof (store_ok_table KTrendingTopic (reachable_store_ok Hreach))
    as [Hnd Hall].
  cbn [table row_id counter] in Hnd, Hall.
  destruct (@deleteRow_table KTrendingTopic deleteTrendingTopic id
              (storage w) eq_refl) as (Hfst & Htable & Hsame).
  cbn [table] in Hfst, Htable, Hsame.
  change (RowOf KTrendingTopic) with TrendingTopic in *.
  assert (Hgone : getTrendingTopic id
                    (snd (deleteTrendingTopic id (storage w))) = None).
  { unfold getTrendingTopic. rewrite Htable.
    now apply JsMapRows.get_delete_same. }
  rewrite !deleteTrendingTopicHandler_eq. cbn [fst snd storage clock].
  split; [|split; [|split; [|split; [|split]]]].
  - rewrite Hfst, JsMapRows.delete_fst. unfold JsMap.has, getTrendingTopic.
    destruct (JsMap.get id (trendingTopics (storage w))); reflexivity.
  - intros Hnone. rewrite Hsame; [apply world_eta|].
    now apply JsMapRows.delete_absent.
  - rewrite getTrendingTopicHandler_eq. cbn [fst storage].
    now rewrite Hgone.
  - assert (Hfalse : fst (deleteTrendingTopic id
                            (snd (deleteTrendingTopic id (storage w))))
                     = false).
    { destruct (@deleteRow_table KTrendingTopic deleteTrendingTopic id
                  (snd (deleteTrendingTopic id (storage w))) eq_refl)
        as (Hfst2 & _).
      rewrite Hfst2, JsMapRows.delete_fst. unfold JsMap.has.
      cbn [table]. change (RowOf KTrendingTopic) with TrendingTopic.
      unfold getTrendingTopic in Hgone. now rewrite Hgone. }
    assert (Hsame2 : snd (deleteTrendingTopic id
                            (snd (deleteTrendingTopic id (storage w))))
                     = snd (deleteTrendingTopic id (storage w))).
    { destruct (@deleteRow_table KTrendingTopic deleteTrendingTopic id
                  (snd (deleteTrendingTopic id (storage w))) eq_refl)
        as (_ & _ & Hs). apply Hs. cbn [table].
      change (RowOf KTrendingTopic) with TrendingTopic.
      now apply JsMapRows.delete_absent. }
    now rewrite Hfalse, Hsame2.
  - intros id' Hne. rewrite !getTrendingTopicHandler_eq. cbn [fst storage].
    unfold getTrendingTopic. rewrite Htable.
    now rewrite JsMapRows.get_delete_other.
  - rewrite getTrendingTopicsHandler_eq. cbn [fst storage].
    unfold getTrendingTopics. rewrite Htable. f_equal. f_equal.
    apply JsMapRows.values_delete; [exact Hnd|].
    eapply Forall_impl; [|exact Hall]. simpl; tauto.
Qed.

(** Deleting topic 2 on the fresh server. *)
Lemma delete_trending_topic_route_witness :
  reachable (storage freshWorld)
  /\ fst (deleteTrendingTopicHandler 2 freshWorld) = reply 204 NoContent
  /\ fst (getTrendingTopicHandler 2
            (snd (deleteTrendingTopicHandler 2 freshWorld)))
     = reply 404 (MessageOnly "Trending topic not found")
  /\ fst (deleteTrendingTopicHandler 2
            (snd (deleteTrendingTopicHandler 2 freshWorld)))
     = reply 404 (MessageOnly "Trending topic not found").
Proof.
  split; [exact freshWorld_reachable|].
  destruct (@delete_trending_topic_route 2 freshWorld freshWorld_reachable)
    as (H1 & _ & H3 & H4 & _).
  split; [exact H1|]. split; [exact H3|]. now rewrite H4.
Defined.

(** ** Creating a topic through the API *)

Lemma insertTrendingTopicSchema_parse_inl body e :
  insertTrendingTopicSchema_parse body = inl e ->
  exists issues, e = ZodError issues.
Proof.
  unfold insertTrendingTopicSchema_parse.
  destruct body as [| | | | |props]; try (intros [= <-]; eexists; reflexivity).
  destruct (z_string (assoc "topic" props)) as [t|];
    destruct (z_string (assoc "category" props)) as [c|];
    destruct (z_string_nullish (assoc "description" props)) as [d|];
    destruct (z_integer (assoc "trendScore" props)) as [n|];
    intros H; try discriminate H; injection H as <-; eexists; reflexivity.
Qed.

(** X14: [POST /api/trending-topics] on a running server is all or
    nothing.  A body that fails validation is answered [400] and the
    world is left as it is.  A valid body is answered [201] with the new
    topic: it carries the validated fields, the time of the call as
    [discoveredAt] and an id that was not in use; afterwards
    [GET /api/trending-topics/:id] with that id answers [200] with the
    same topic and [GET /api/trending-topics] lists the topics listed
    before followed by it. *)
Theorem post_trending_topic_route (reqBody : Json) (w : World) :
  reachable (storage w) ->
  match insertTrendingTopicSchema_parse reqBody with
  | inl _ =>
      exists errors,
        postTrendingTopicHandler reqBody w
        = (json 400 (ZodErrorBody errors), w)
  | inr input =>
      exists t,
        fst (postTrendingTopicHandler reqBody w) = json 201 (TopicBody t)
        /\ topic_topic t = ins_topic_topic input
        /\ topic_category t = ins_topic_category input
        /\ topic_description t = or_null_str (ins_topic_description input)
        /\ topic_trendScore t = ins_topic_trendScore input
        /\ topic_discoveredAt t = clock w
        /\ fst (getTrendingTopicHandler (topic_id t) w)
           = reply 404 (MessageOnly "Trending topic not found")
        /\ fst (getTrendingTopicHandler (topic_id t)
                  (snd (postTrendingTopicHandler reqBody w)))
           = reply 200 (Payload t)
        /\ fst (getTrendingTopicsHandler
                  (snd (postTrendingTopicHandler reqBody w)))
           = reply 200 (Payload (getTrendingTopics (storage w) ++ [t]))
  end.
Proof.
  intros Hreach.
  pose proof (store_ok_table KTrendingTopic (reachable_store_ok Hreach))
    as Hok.
  cbn [table row_id counter] in Hok.
  change (RowOf KTrendingTopic) with TrendingTopic in *.
  destruct (insertTrendingTopicSchema_parse reqBody) as [e|input] eqn:Hparse.
  - destruct (insertTrendingTopicSchema_parse_inl reqBody Hparse)
      as [issues ->].
    exists issues. unfold postTrendingTopicHandler. rewrite Hparse.
    reflexivity.
  - eexists. unfold postTrendingTopicHandler. rewrite Hparse.
    unfold catchHandler, parse, bind, ret, callAt, bind, dateNow, call.
    cbn [fst snd createTrendingTopic].
    split; [reflexivity|]. repeat (split; [reflexivity|]).
    rewrite !getTrendingTopicHandler_eq, getTrendingTopicsHandler_eq.
    cbn [fst storage topic_id]. unfold getTrendingTopic, getTrendingTopics.
    cbn [trendingTopics set_trendingTopics set_topicId].
    split; [|split].
    + now rewrite (table_ok_fresh Hok).
    + now rewrite JsMapFacts.get_set_same.
    + now rewrite (values_set_next _ Hok).
Qed.

Example tiedTopicBody_parses :
  insertTrendingTopicSchema_parse
    (JObj [("topic", JStr "Local Speech Models"); ("category", JStr "AI");
           ("trendScore", JInt 92)])
  = inr tiedTopic.
Proof. vm_compute. reflexivity. Qed.

(** Entering the tied topic on the fresh server makes it topic 4. *)
Lemma post_trending_topic_route_witness :
  reachable (storage freshWorld)
  /\ exists t,
      fst (postTrendingTopicHandler
             (JObj [("topic", JStr "Local Speech Models");
                    ("category", JStr "AI"); ("trendScore", JInt 92)])
             freshWorld)
      = json 201 (TopicBody t)
      /\ topic_trendScore t = 92.
Proof.
  split; [exact freshWorld_reachable|].
  pose proof (@post_trending_topic_route
                (JObj [("topic", JStr "Local Speech Models");
                       ("category", JStr "AI"); ("trendScore", JInt 92)])
                freshWorld freshWorld_reachable) as H.
  rewrite tiedTopicBody_parses in H.
  destruct H as (t & H1 & _ & _ & _ & H5 & _).
  exists t. split; [exact H1 | exact H5].
Defined.

(** ** Updating a topic through the API *)

Lemma insertTrendingTopicSchema_partial_parse_inl body e :
  insertTrendingTopicSchema_partial_parse body = inl e ->
  exists issues, e = ZodError issues.
Proof.
  unfold insertTrendingTopicSchema_partial_parse.
  destruct body as [| | | | |props]; try (intros [= <-]; eexists; reflexivity).
  destruct (z_partial z_string (assoc "topic" props)) as [t|];
    destruct (z_partial z_string (assoc "category" props)) as [c|];
    destruct (z_string_nullish (assoc "description" props)) as [d|];
    destruct (z_partial z_integer (assoc "trendScore" props)) as [n|];
    intros H; try discriminate H; injection H as <-; eexists; reflexivity.
Qed.

(** X15: [PUT /api/trending-topics/:id] changes the store only when it
    answers [200].  A body that fails validation is answered [400], and
    an id that is not stored [404] "Trending topic not found", both with
    the world as before; validation comes first.  Otherwise the answer
    is [200] with the stored topic merged with the payload, which keeps
    its [id] and [discoveredAt]; afterwards
    [GET /api/trending-topics/:id] answers with that merged topic and
    the topics are listed under the same ids in the same order. *)
Theorem put_trending_topic_route (id : Z) (reqBody : Json) (w : World) :
  match insertTrendingTopicSchema_partial_parse reqBody with
  | inl _ =>
      exists errors,
        putTrendingTopicHandler id reqBody w
        = (json 400 (ZodErrorBody errors), w)
  | inr payload =>
      match getTrendingTopic id (storage w) with
      | None =>
          putTrendingTopicHandler id reqBody w
          = (json 404 (MessageBody "Trending topic not found"), w)
      | Some t =>
          fst (putTrendingTopicHandler id reqBody w)
          = json 200 (TopicBody (mergeTrendingTopic t payload))
          /\ topic_id (mergeTrendingTopic t payload) = topic_id t
          /\ topic_discoveredAt (mergeTrendingTopic t payload)
             = topic_discoveredAt t
          /\ fst (getTrendingTopicHandler id
                    (snd (putTrendingTopicHandler id reqBody w)))
             = reply 200 (Payload (mergeTrendingTopic t payload))
          /\ map topic_id
               (getTrendingTopics
                  (storage (snd (putTrendingTopicHandler id reqBody w))))
             = map topic_id (getTrendingTopics (storage w))
      end
  end.
Proof.
  destruct (insertTrendingTopicSchema_partial_parse reqBody)
    as [e|payload] eqn:Hparse.
  - destruct (insertTrendingTopicSchema_partial_parse_inl reqBody Hparse)
      as [issues ->].
    exists issues. unfold putTrendingTopicHandler. rewrite Hparse.
    reflexivity.
  - unfold putTrendingTopicHandler. rewrite Hparse.
    unfold catchHandler, parse, bind, ret, call, updateTrendingTopic.
    unfold getTrendingTopic.
    destruct (JsMap.get id (trendingTopics (storage w))) as [t|] eqn:Hget.
    + cbn [fst snd]. split; [reflexivity|]. split; [reflexivity|].
      split; [reflexivity|].
      rewrite getTrendingTopicHandler_eq. cbn [fst storage].
      unfold getTrendingTopic, getTrendingTopics.
      cbn [trendingTopics set_trendingTopics]. split.
      * now rewrite JsMapFacts.get_set_same.
      * eapply JsMapRows.map_values_set_present; [exact Hget|reflexivity].
    + cbn [fst snd]. now rewrite world_eta.
Qed.

(** [PUT /api/trending-topics/1] with a score of 1000 on the fresh
    server keeps the three topics in place. *)
Lemma put_trending_topic_route_witness :
  status (fst (putTrendingTopicHandler 1 thousandScoreBody freshWorld)) = 200
  /\ map topic_id
       (getTrendingTopics
          (storage (snd (putTrendingTopicHandler 1 thousandScoreBody
                           freshWorld))))
     = [1; 2; 3].
Proof.
  pose proof (put_trending_topic_route 1 thousandScoreBody freshWorld) as H.
  destruct (insertTrendingTopicSchema_partial_parse thousandScoreBody)
    as [e|payload] eqn:Hparse; [vm_compute in Hparse; discriminate Hparse|].
  destruct (getTrendingTopic 1 (storage freshWorld)) as [t|] eqn:Hget;
    [|vm_compute in Hget; discriminate Hget].
  destruct H as (H1 & _ & _ & _ & H5).
  split; [now rewrite H1|]. rewrite H5. vm_compute. reflexivity.
Defined.

(** ** The limit of the three limit queries *)

Lemma slice0_length_negative (A : Type) (limit : Z) (l : list A) :
  limit < 0 ->
  Z.of_nat (List.length (JsArray.slice0 limit l))
  = Z.max (Z.of_nat (List.length l) + limit) 0.
Proof.
  intros H. unfold JsArray.slice0.
  apply Z.ltb_lt in H. rewrite H. apply Z.ltb_lt in H.
  rewrite length_firstn. lia.
Qed.

Lemma slice0_answered (A : Type) (limit : option Z) (l : list A) :
  Z.of_nat (List.length (JsArray.slice0 (or_default_num limit 3) l))
  = answered limit (Z.of_nat (List.length l)).
Proof.
  unfold or_default_num, answered.
  destruct limit as [[|n|n]|]; cbn [Z.eqb Z.ltb Z.compare].
  - apply slice0_length_count. lia.
  - apply slice0_length_count. lia.
  - apply slice0_length_negative. lia.
  - apply slice0_length_count. lia.
Qed.

(** X16: the three limit queries [GET /api/trending-topics/top],
    [GET /api/content/recent] and [GET /api/scheduled-posts/upcoming]
    answer [200], leave the world alone and apply the limit in the same
    way.  Without a [limit], with one that is not a number or with
    [limit=0], they answer with 3 items (or all, when fewer are
    candidates): a limit of 0 does not give an empty answer.  A negative
    limit [-k] drops the last [k] of the sorted candidates.  The
    candidates are the stored topics, the stored contents, and the
    stored posts scheduled after the time of the call. *)
Theorem limit_queries_answer_count (limit : option Z) (w : World) :
  (exists topics,
      getTopTrendingTopicsHandler limit w = (reply 200 (Payload topics), w)
      /\ Z.of_nat (List.length topics)
         = answered limit
             (Z.of_nat (List.length (getTrendingTopics (storage w)))))
  /\ (exists contents,
         getRecentContentsHandler limit w
         = (reply 200 (Payload contents), w)
         /\ Z.of_nat (List.length contents)
            = answered limit
                (Z.of_nat (List.length (getContents (storage w)))))
  /\ (exists posts,
         getUpcomingScheduledPostsHandler limit w
         = (reply 200 (Payload posts), w)
         /\ Z.of_nat (List.length posts)
            = answered limit
                (Z.of_nat (List.length (futurePosts (clock w) (storage w))))).
Proof.
  split; [|split]; eexists; (split; [reflexivity|]).
  - unfold getTopTrendingTopics, getTrendingTopics.
    now rewrite slice0_answered, JsArrayFacts.sort_length.
  - unfold getRecentContents, getContents.
    now rewrite slice0_answered, JsArrayFacts.sort_length.
  - unfold getUpcomingScheduledPosts, futurePosts, getScheduledPosts.
    now rewrite slice0_answered, JsArrayFacts.sort_length.
Qed.

(** With [limit=0] the fresh server answers with its three topics, and
    with [limit=-1] with two of them. *)
Lemma limit_queries_answer_count_witness :
  (exists topics,
      getTopTrendingTopicsHandler (Some 0) freshWorld
      = (reply 200 (Payload topics), freshWorld)
      /\ Z.of_nat (List.length topics) = 3)
  /\ (exists topics,
         getTopTrendingTopicsHandler (Some (-1)) freshWorld
         = (reply 200 (Payload topics), freshWorld)
         /\ Z.of_nat (List.length topics) = 2).
Proof.
  split.
  - destruct (proj1 (limit_queries_answer_count (Some 0) freshWorld))
      as (topics & H1 & H2).
    exists topics. split; [exact H1|]. rewrite H2. vm_compute. reflexivity.
  - destruct (proj1 (limit_queries_answer_count (Some (-1)) freshWorld))
      as (topics & H1 & H2).
    exists topics. split; [exact H1|]. rewrite H2. vm_compute. reflexivity.
Defined.

(* ===================================================================== *)
(** * Properties of [/api/automation/schedule] and [/api/automation/queue] *)
(* ===================================================================== *)

Lemma scheduleRequestSchema_parse_spec isoDatetime body :
  match scheduleRequestSchema_parse isoDatetime body with
  | inl e => exists issues, e = ZodError issues
  | inr request =>
      sreq_status request = None
      \/ sreq_status request = Some "pending"
      \/ sreq_status request = Some "draft"
  end.
Proof.
  unfold scheduleRequestSchema_parse.
  destruct body as [| | | | |props]; try (eexists; reflexivity).
  destruct (z_number (assoc "contentId" props)) as [c|];
    destruct (z_number (assoc "platformAccountId" props)) as [a|];
    destruct (z_string_datetime isoDatetime (assoc "scheduledTime" props))
      as [t|];
    try (destruct (z_enum_optional ["pending"; "draft"]
                     (assoc "status" props)); eexists; reflexivity).
  unfold z_enum_optional.
  destruct (assoc "status" props) as [[| | |s| |]|];
    try (eexists; reflexivity); [|now left].
  cbn [existsb].
  destruct (String.eqb_spec s "pending") as [->|_];
    [right; now left|].
  destruct (String.eqb_spec s "draft") as [->|_];
    [right; now right|].
  eexists; reflexivity.
Qed.

(** X17: [POST /api/automation/schedule] on a running server answers
    [201], [400] or [404], and leaves the world as it is unless it
    answers [201].  A [201] carries the created post: it refers to a
    content and to a platform account that are stored, its id was not in
    use and now reads as this post, its [status] is "pending" or
    "draft", and its [postId] and [error] are null.  The content is
    looked up first: when it is missing the answer is "Content not
    found" whatever the account. *)
Theorem schedule_checks_references (isoDatetime : string -> option Z)
  (reqBody : Json) (w : World) :
  reachable (storage w) ->
  In (reply_status (fst (scheduleHandler isoDatetime reqBody w)))
     [201; 400; 404]
  /\ (reply_status (fst (scheduleHandler isoDatetime reqBody w)) <> 201 ->
      snd (scheduleHandler isoDatetime reqBody w) = w)
  /\ (forall post,
        reply_body (fst (scheduleHandler isoDatetime reqBody w))
        = Payload post ->
        reply_status (fst (scheduleHandler isoDatetime reqBody w)) = 201
        /\ getContent (post_contentId post) (storage w) <> None
        /\ getPlatformAccount (post_platformAccountId post) (storage w)
           <> None
        /\ getScheduledPost (post_id post) (storage w) = None
        /\ getScheduledPost (post_id post)
             (storage (snd (scheduleHandler isoDatetime reqBody w)))
           = Some post
        /\ (post_status post = "pending" \/ post_status post = "draft")
        /\ post_postId post = None
        /\ post_error post = None)
  /\ (forall request,
        scheduleRequestSchema_parse isoDatetime reqBody = inr request ->
        (forall id, Qint (sreq_contentId request) = Some id ->
                    getContent id (storage w) = None) ->
        fst (scheduleHandler isoDatetime reqBody w)
        = reply 404 (ErrorOnly "Content not found")).
Proof.
  intros Hreach.
  pose proof (store_ok_table KScheduledPost (reachable_store_ok Hreach))
    as Hok.
  cbn [table row_id counter] in Hok.
  change (RowOf KScheduledPost) with ScheduledPost in *.
  pose proof (scheduleRequestSchema_parse_spec isoDatetime reqBody) as Hspec.
  unfold scheduleHandler, catchAutomation.
  destruct (scheduleRequestSchema_parse isoDatetime reqBody)
    as [e|request]; unfold parse, bind, throw, ret, read, call.
  { destruct Hspec as [issues ->]. cbn [fst snd reply_status reply_body reply].
    split; [simpl; tauto|]. split; [reflexivity|].
    split; [discriminate | discriminate]. }
  destruct (Qint (sreq_contentId request)) as [contentId|] eqn:Hcid.
  2:{ cbn [fst snd reply_status reply_body reply].
      split; [simpl; tauto|]. split; [reflexivity|].
      split; [discriminate|]. intros request' [= <-] _. reflexivity. }
  destruct (getContent contentId (storage w)) as [content|] eqn:Hc.
  2:{ cbn [fst snd reply_status reply_body reply].
      split; [simpl; tauto|]. split; [reflexivity|].
      split; [discriminate|]. intros request' [= <-] _. reflexivity. }
  assert (Hlast : forall request' : ScheduleRequest,
             inr request = @inr Thrown _ request' ->
             (forall id, Qint (sreq_contentId request') = Some id ->
                         getContent id (storage w) = None) -> False).
  { intros request' [= <-] Hnone.
    specialize (Hnone contentId Hcid). congruence. }
  destruct (Qint (sreq_platformAccountId request)) as [accountId|].
  2:{ cbn [fst snd reply_status reply_body reply].
      split; [simpl; tauto|]. split; [reflexivity|].
      split; [discriminate|]. intros request' Heq Hnone.
      destruct (Hlast request' Heq Hnone). }
  destruct (getPlatformAccount accountId (storage w)) as [account|] eqn:Ha.
  2:{ cbn [fst snd reply_status reply_body reply].
      split; [simpl; tauto|]. split; [reflexivity|].
      split; [discriminate|]. intros request' Heq Hnone.
      destruct (Hlast request' Heq Hnone). }
  cbn [fst snd reply_status reply_body reply createScheduledPost].
  split; [simpl; tauto|]. split; [intros H; now destruct H|].
  split.
  - intros post [= <-]. cbn [post_contentId post_platformAccountId post_id
                             post_status post_postId post_error storage].
    split; [reflexivity|]. split; [congruence|]. split; [congruence|].
    unfold getScheduledPost. cbn [scheduledPosts set_scheduledPosts
                                  set_postId].
    split; [exact (table_ok_fresh Hok)|].
    split; [apply JsMapFacts.get_set_same|].
    split; [|split; reflexivity].
    destruct Hspec as [E | [E | E]]; rewrite E; cbn; tauto.
  - intros request' Heq Hnone. destruct (Hlast request' Heq Hnone).
Qed.

Example scheduleBody_parses :
  scheduleRequestSchema_parse sampleDatetime scheduleBody
  = inr {| sreq_contentId := inject_Z 1;
           sreq_platformAccountId := inject_Z 2;
           sreq_scheduledTime := 1893456000000;
           sreq_status := None |}.
Proof. vm_compute. reflexivity. Qed.

(** Scheduling content 1 on account 2 of the fresh server creates
    post 4, pending. *)
Lemma schedule_checks_references_witness :
  reachable (storage freshWorld)
  /\ exists post,
      fst (scheduleHandler sampleDatetime scheduleBody freshWorld)
      = reply 201 (Payload post)
      /\ post_id post = 4
      /\ post_status post = "pending"
      /\ getContent (post_contentId post) (storage freshWorld) <> None.
Proof.
  split; [exact freshWorld_reachable|].
  destruct (fst (scheduleHandler sampleDatetime scheduleBody freshWorld))
    as [code [post| | | | |]] eqn:Hrun;
    try (vm_compute in Hrun; discriminate Hrun).
  destruct (@schedule_checks_references sampleDatetime scheduleBody
              freshWorld freshWorld_reachable) as (_ & _ & Hpost & _).
  rewrite Hrun in Hpost. destruct (Hpost post eq_refl) as (_ & Hc & _).
  exists post. vm_compute in Hrun. injection Hrun as <- <-.
  split; [reflexivity|]. split; [reflexivity|]. split; [reflexivity|].
  exact Hc.
Defined.

(** ** The queue *)

Lemma sorted_posts_asc (l : list ScheduledPost) :
  StronglySorted by_time_asc
    (JsArray.sort (fun a b => post_scheduledTime a - post_scheduledTime b) l).
Proof.
  apply JsArrayFacts.sort_sorted with (key := post_scheduledTime).
  reflexivity.
Qed.

(** X18: [GET /api/automation/queue] answers [200] and leaves the world
    alone.  The [queueSize] it reports is the number of stored posts
    scheduled after the time of the call, capped at 10; there are no
    processing jobs; [lastProcessed] is two hours before the call; and
    [nextScheduled] is null exactly when no stored post is scheduled
    after the call, and otherwise the earliest [scheduledTime] among
    those posts. *)
Theorem queue_reports_upcoming (w : World) :
  exists q,
    queueHandler w = (reply 200 (Payload q), w)
    /\ queueSize q
       = Z.min 10 (Z.of_nat (List.length (futurePosts (clock w) (storage w))))
    /\ processingJobs q = []
    /\ lastProcessed q = clock w - 2 * 60 * 60 * 1000
    /\ (nextScheduled q = None <-> futurePosts (clock w) (storage w) = [])
    /\ (forall t, nextScheduled q = Some t ->
          (exists p, In p (futurePosts (clock w) (storage w))
                     /\ post_scheduledTime p = t)
          /\ (forall p, In p (futurePosts (clock w) (storage w)) ->
                        t <= post_scheduledTime p)).
Proof.
  eexists. split; [reflexivity|].
  cbn [queueSize processingJobs lastProcessed nextScheduled].
  unfold getUpcomingScheduledPosts. fold (getScheduledPosts (storage w)).
  fold (futurePosts (clock w) (storage w)).
  set (future := futurePosts (clock w) (storage w)).
  set (cmp := fun a b => post_scheduledTime a - post_scheduledTime b).
  pose proof (sorted_posts_asc future) as Hsorted. fold cmp in Hsorted.
  assert (Hlen : Z.of_nat (List.length (JsArray.slice0 10
                                          (JsArray.sort cmp future)))
                 = Z.min 10 (Z.of_nat (List.length future))).
  { rewrite slice0_length_count by lia.
    now rewrite JsArrayFacts.sort_length. }
  split; [cbn [List.length]; lia|]. split; [reflexivity|].
  split; [reflexivity|].
  destruct (JsArray.slice0 10 (JsArray.sort cmp future)) as [|first rest]
    eqn:Hslice.
  - split.
    + split; [intros _|reflexivity].
      cbn [List.length] in Hlen. destruct future; [reflexivity|].
      cbn [List.length] in Hlen. lia.
    + discriminate.
  - assert (Hin : In first (JsArray.slice0 10 (JsArray.sort cmp future)))
      by (rewrite Hslice; now left).
    split.
    + split; [discriminate|]. intros Hnil. rewrite Hnil in Hslice.
      discriminate Hslice.
    + intros t [= <-]. split.
      * exists first. split; [|reflexivity].
        apply JsArrayFacts.slice0_In in Hin.
        now apply JsArrayFacts.sort_In in Hin.
      * intros p Hp. apply (JsArrayFacts.sort_In cmp) in Hp.
        destruct (JsArrayFacts.slice0_prefix 10 (JsArray.sort cmp future))
          as [tail Htail].
        rewrite Hslice in Htail. rewrite Htail in Hsorted, Hp.
        cbn [app] in Hsorted, Hp.
        inversion Hsorted as [|? ? _ Hfirst]; subst.
        destruct Hp as [<-|Hp]; [lia|].
        apply (proj1 (Forall_forall _ _) Hfirst) in Hp. exact Hp.
Qed.

(** At clock reading 0 the fresh server has three posts to come; the
    next one is post 1, two hours ahead. *)
Lemma queue_reports_upcoming_witness :
  exists q,
    queueHandler freshWorld = (reply 200 (Payload q), freshWorld)
    /\ queueSize q = 3
    /\ nextScheduled q = Some (2 * 60 * 60 * 1000).
Proof.
  destruct (queue_reports_upcoming freshWorld) as (q & Hq & Hsize & _).
  exists q. split; [exact Hq|]. split.
  - rewrite Hsize. vm_compute. reflexivity.
  - vm_compute in Hq. injection Hq as <-. reflexivity.
Defined.

(* ===================================================================== *)
(** * Further properties of the text-to-speech service                    *)
(* ===================================================================== *)

Lemma set_has_add_same x l : TTS.set_has x (TTS.set_add x l) = true.
Proof.
  unfold TTS.set_add. destruct (TTS.set_has x l) eqn:E; [exact E|].
  unfold TTS.set_has. rewrite existsb_app. simpl.
  rewrite String.eqb_refl. now rewrite orb_true_r.
Qed.




(** ** [batchProcess] *)






(** ** File names are not reused *)

Lemma occurs_append c a b :
  occurs c (a ++ b)%string = occurs c a || occurs c b.
Proof.
  induction a as [|x a IH]; simpl; [reflexivity|].
  now rewrite IH, orb_assoc.
Qed.

(** Two strings that agree up to and after the first occurrence of a
    separator. *)
Lemma append_sep_inj c a1 a2 r1 r2 :
  occurs c a1 = false -> occurs c a2 = false ->
  (a1 ++ String c r1 = a2 ++ String c r2)%string ->
  a1 = a2 /\ r1 = r2.
Proof.
  revert a2. induction a1 as [|x a1 IH]; intros [|y a2]; simpl.
  - intros _ _ [= ->]. now split.
  - intros _ H [= <- _]. rewrite Ascii.eqb_refl in H. discriminate H.
  - intros H _ [= -> _]. rewrite Ascii.eqb_refl in H. discriminate H.
  - intros H1 H2 [= -> Heq].
    apply orb_false_iff in H1 as [_ H1]. apply orb_false_iff in H2 as [_ H2].
    destruct (IH a2 H1 H2 Heq) as [-> ->]. now split.
Qed.

Lemma string_of_uint_no_underscore d :
  occurs "_" (NilEmpty.string_of_uint d) = false.
Proof. induction d; simpl; auto. Qed.

Lemma show_no_underscore n : occurs "_" (TTS.show n) = false.
Proof.
  unfold TTS.show, NilZero.string_of_int, NilZero.string_of_uint.
  destruct (Z.to_int n) as [d|d]; destruct d; simpl;
    auto using string_of_uint_no_underscore.
Qed.

Lemma show_inj a b : TTS.show a = TTS.show b -> a = b.
Proof.
  unfold TTS.show. intros H. apply DecimalZ.to_int_inj.
  assert (Hnil : forall n, Z.to_int n <> Decimal.Pos Decimal.Nil
                           /\ Z.to_int n <> Decimal.Neg Decimal.Nil).
  { intros [|p|p]; simpl; split; try discriminate;
      intros [= Hp]; exact (DecimalPos.Unsigned.to_uint_nonnil p Hp). }
  pose proof (@NilZero.isi _ (proj1 (Hnil a)) (proj2 (Hnil a))) as Ha.
  pose proof (@NilZero.isi _ (proj1 (Hnil b)) (proj2 (Hnil b))) as Hb.
  rewrite H in Ha. rewrite Ha in Hb. now injection Hb.
Qed.

Lemma numbered_inj p1 p2 c1 c2 r1 r2 :
  occurs "_" p1 = false -> occurs "_" p2 = false ->
  numbered p1 c1 r1 = numbered p2 c2 r2 ->
  p1 = p2 /\ c1 = c2 /\ r1 = r2.
Proof.
  unfold numbered. intros H1 H2 Heq.
  change (p1 ++ String "_" (TTS.show c1 ++ String "_" r1)
          = p2 ++ String "_" (TTS.show c2 ++ String "_" r2))%string in Heq.
  destruct (@append_sep_inj _ _ _ _ _ H1 H2 Heq) as [-> Heq'].
  destruct (@append_sep_inj _ _ _ _ _ (show_no_underscore c1)
              (show_no_underscore c2) Heq') as [Hc ->].
  apply show_inj in Hc. now repeat split.
Qed.

Lemma numbered_from_le lo lo' file :
  lo <= lo' -> numbered_from lo' file -> numbered_from lo file.
Proof.
  intros Hle (p & c & rest & Hp & Hc & ->).
  exists p, c, rest. repeat split; [exact Hp | lia].
Qed.

(** A name with counter [c] is none of the names with counters above
    [c]. *)
Lemma numbered_fresh prefix c rest files :
  occurs "_" prefix = false ->
  Forall (numbered_from (c + 1)) files ->
  ~ In (numbered prefix c rest) files.
Proof.
  intros Hp Hall Hin.
  apply (proj1 (Forall_forall _ _) Hall) in Hin
    as (p' & c' & rest' & Hp' & Hc' & Heq).
  apply numbered_inj in Heq as (_ & Hc & _); [lia | exact Hp | exact Hp'].
Qed.

Lemma run_call_numbered prepare c t :
  match TTSBatch.run_call prepare c t with
  | (Some file, t') =>
      (exists prefix rest,
          occurs "_" prefix = false
          /\ file = numbered prefix (TTS.audioCounter t) rest)
      /\ TTS.audioCounter t' = TTS.audioCounter t + 1
  | (None, t') => TTS.audioCounter t' = TTS.audioCounter t
  end.
Proof.
  assert (Htext : forall timestamp text voiceId format,
             match TTS.textToAudio timestamp text voiceId format t with
             | (inr result, t') =>
                 (exists prefix rest,
                     occurs "_" prefix = false
                     /\ TTS.audio_file result
                        = numbered prefix (TTS.audioCounter t) rest)
                 /\ TTS.audioCounter t' = TTS.audioCounter t + 1
             | (inl _, t') => TTS.audioCounter t' = TTS.audioCounter t
             end).
  { intros timestamp text voiceId format.
    unfold TTS.textToAudio, TTS.downloadVoice.
    cbn [TTS.downloadedVoices TTS.audioCounter TTS.isProcessing].
    destruct (TTS.set_has voiceId (TTS.downloadedVoices t)); cbn [negb];
      [|destruct (TTS.lookupVoice voiceId); cbn [negb]];
      try reflexivity;
      (split; [|reflexivity]);
      exists "tts", (TTS.show timestamp ++ "." ++ format)%string;
      (split; reflexivity). }
  destruct c as [voiceId|timestamp text voiceId format
                 |timestamp scriptContent voiceId format
                 |timestamp segments defaultVoiceId format];
    cbn [TTSBatch.run_call].
  - unfold TTS.downloadVoice. destruct (TTS.lookupVoice voiceId); reflexivity.
  - specialize (Htext timestamp text voiceId format).
    destruct (TTS.textToAudio timestamp text voiceId format t)
      as [[e|result] t']; exact Htext.
  - unfold TTS.scriptToAudio.
    specialize (Htext timestamp (prepare scriptContent) voiceId format).
    destruct (TTS.textToAudio timestamp (prepare scriptContent) voiceId
                format t) as [[e|result] t']; exact Htext.
  - unfold TTSBatch.batchProcess.
    destruct (fold_left (TTSBatch.processSegment defaultVoiceId) segments
                        (0, [])) as [total details].
    cbn [TTSBatch.batch_file TTS.audioCounter]. split; [|reflexivity].
    exists "script", (TTS.show timestamp ++ "." ++ format)%string.
    split; reflexivity.
Qed.

Lemma run_calls_from prepare calls :
  forall t,
    Forall (numbered_from (TTS.audioCounter t))
           (fst (TTSBatch.run_calls prepare calls t)).
Proof.
  induction calls as [|c calls IH]; intros t; cbn [TTSBatch.run_calls].
  - constructor.
  - pose proof (run_call_numbered prepare c t) as Hc.
    destruct (TTSBatch.run_call prepare c t) as [[file|] t1];
      specialize (IH t1);
      destruct (TTSBatch.run_calls prepare calls t1) as [files t2];
      cbn [fst] in *.
    + destruct Hc as [(prefix & rest & Hp & ->) Hnext].
      rewrite Hnext in IH. constructor.
      * exists prefix, (TTS.audioCounter t), rest.
        repeat split; [exact Hp | lia].
      * eapply Forall_impl; [|exact IH].
        intros f. apply numbered_from_le. lia.
    + now rewrite Hc in IH.
Qed.

(** X21: the audio file names are unique.  Whatever sequence of
    [downloadVoice], [textToAudio], [scriptToAudio] and [batchProcess]
    calls is made on a [LocalTTS] instance, at whatever clock readings
    and with whatever formats, no two calls that produce audio name the
    same file. *)
Theorem tts_file_names_unique (prepare : string -> string)
  (calls : list TTSBatch.Call) (t : TTS.LocalTTS) :
  NoDup (fst (TTSBatch.run_calls prepare calls t)).
Proof.
  revert t. induction calls as [|c calls IH]; intros t;
    cbn [TTSBatch.run_calls]; [constructor|].
  pose proof (run_call_numbered prepare c t) as Hc.
  destruct (TTSBatch.run_call prepare c t) as [[file|] t1];
    specialize (IH t1); pose proof (run_calls_from prepare calls t1) as Hfrom;
    destruct (TTSBatch.run_calls prepare calls t1) as [files t2];
    cbn [fst] in *; [|exact IH].
  destruct Hc as [(prefix & rest & Hp & ->) Hnext]. rewrite Hnext in Hfrom.
  constructor; [|exact IH]. now apply numbered_fresh.
Qed.

(** Four calls at the same clock reading and with the same format, one
    of them refused: the three files get different names. *)
Lemma tts_file_names_unique_witness :
  fst (TTSBatch.run_calls (fun s => s) TTSBatch.sampleCalls TTS.newLocalTTS)
  = ["tts_1_1000.mp3"; "script_2_1000.mp3"; "tts_3_1000.mp3"]
  /\ NoDup (fst (TTSBatch.run_calls (fun s => s) TTSBatch.sampleCalls
                   TTS.newLocalTTS)).
Proof.
  split; [vm_compute; reflexivity|].
  exact (tts_file_names_unique (fun s => s) TTSBatch.sampleCalls
           TTS.newLocalTTS).
Defined.

(* ===================================================================== *)
(** * Properties of the image generator                                   *)
(* ===================================================================== *)

(** The three listed models. *)
Lemma own_listed modelId model :
  ImageGen.own modelId ImageGen.availableModels = Some model ->
  In model ImageGen.listedModels /\ ImageGen.model_id model = modelId.
Proof.
  cbv [ImageGen.own ImageGen.availableModels ImageGen.listedModels map snd].
  repeat match goal with
         | |- context [String.eqb ?lit modelId] =>
             let E := fresh "E" in
             destruct (String.eqb lit modelId) eqn:E;
             [ apply String.eqb_eq in E; subst modelId; intros [= <-];
               split; [simpl; tauto | reflexivity] | ]
         end.
  discriminate.
Qed.

Lemma lookupModel_own modelId model :
  ImageGen.lookupModel modelId = ImageGen.OwnModel model ->
  In model ImageGen.listedModels.
Proof.
  unfold ImageGen.lookupModel.
  destruct (ImageGen.own modelId ImageGen.availableModels) as [m|] eqn:E.
  - intros [= <-]. now apply (own_listed modelId).
  - destruct (existsb _ _); discriminate.
Qed.

Lemma choose_supported requested supported first rest :
  supported = first :: rest ->
  existsb (String.eqb "") supported = false ->
  supported_choice requested supported
                   (ImageGen.choose requested supported).
Proof.
  intros -> Hempty. unfold supported_choice, ImageGen.choose.
  destruct requested as [r|]; cbn [nth_error].
  - destruct (existsb (String.eqb r) (first :: rest)) eqn:Hin.
    + destruct (String.eqb_spec r "") as [->|Hne].
      * rewrite Hempty in Hin. discriminate Hin.
      * cbn [negb andb]. split; [|reflexivity].
        exists r. split; [reflexivity|].
        apply existsb_exists in Hin as (x & Hx & Heq).
        apply String.eqb_eq in Heq. now subst.
    + rewrite andb_false_r. split; [|reflexivity].
      exists first. split; [reflexivity | now left].
  - split; [|reflexivity]. exists first. split; [reflexivity | now left].
Qed.

(** X22: [generateImage] with a listed model (the one the parameters
    name, or else the active one) never fails.  The size, style and
    format of the result are values that the model supports: the value
    asked for when the model supports it, and the model's first
    supported value otherwise.  The file is named
    [img_<counter>_<timestamp>.<format>] with that format, the counter
    advances by one, and the model is downloaded afterwards; the active
    model changes, to this model, only if it had to be downloaded. *)
Theorem generateImage_listed_model (timestamp : Z) (params : ImageGen.Params)
  (g : ImageGen.LocalImageGenerator) (model : ImageGen.ImageModel) :
  ImageGen.lookupModel (ImageGen.requestedModel params g)
  = ImageGen.OwnModel model ->
  exists result g',
    ImageGen.generateImage timestamp params g = (inr result, g')
    /\ supported_choice (ImageGen.size params) (ImageGen.supportedSizes model)
                        (ImageGen.gen_size result)
    /\ supported_choice (ImageGen.style params)
                        (ImageGen.supportedStyles model)
                        (ImageGen.gen_style result)
    /\ supported_choice (ImageGen.format params)
                        (ImageGen.supportedFormats model)
                        (ImageGen.gen_format result)
    /\ ImageGen.gen_file result
       = ("img_" ++ TTS.show (ImageGen.imageCounter g) ++ "_"
          ++ TTS.show timestamp ++ "."
          ++ ImageGen.interpolate (ImageGen.gen_format result))%string
    /\ ImageGen.gen_prompt result = ImageGen.prompt params
    /\ ImageGen.imageCounter g' = ImageGen.imageCounter g + 1
    /\ TTS.set_has (ImageGen.requestedModel params g)
                   (ImageGen.downloadedModels g') = true
    /\ ImageGen.activeModel g'
       = (if TTS.set_has (ImageGen.requestedModel params g)
                         (ImageGen.downloadedModels g)
          then ImageGen.activeModel g
          else ImageGen.requestedModel params g).
Proof.
  intros Hmodel. pose proof (lookupModel_own _ Hmodel) as Hlisted.
  unfold ImageGen.generateImage, ImageGen.ensureModel.
  unfold ImageGen.requestedModel in *.
  cbn [ImageGen.activeModel ImageGen.downloadedModels ImageGen.imageCounter
       ImageGen.isProcessing].
  rewrite Hmodel.
  assert (Hchoices :
            forall r1 r2 r3,
              supported_choice r1 (ImageGen.supportedSizes model)
                (ImageGen.choose r1 (ImageGen.supportedSizes model))
              /\ supported_choice r2 (ImageGen.supportedStyles model)
                   (ImageGen.choose r2 (ImageGen.supportedStyles model))
              /\ supported_choice r3 (ImageGen.supportedFormats model)
                   (ImageGen.choose r3 (ImageGen.supportedFormats model))).
  { intros r1 r2 r3.
    cbv [ImageGen.listedModels ImageGen.availableModels map snd In] in Hlisted.
    destruct Hlisted as [<-|[<-|[<-|[]]]];
      cbn [ImageGen.supportedSizes ImageGen.supportedStyles
           ImageGen.supportedFormats];
      repeat split;
      (eapply choose_supported; [reflexivity | reflexivity]). }
  destruct (Hchoices (ImageGen.size params) (ImageGen.style params)
                     (ImageGen.format params)) as (H1 & H2 & H3).
  destruct (TTS.set_has
              (or_default_str (ImageGen.modelId params)
                              (ImageGen.activeModel g))
              (ImageGen.downloadedModels g)) eqn:Hd;
    cbn [negb snd ImageGen.activeModel ImageGen.downloadedModels
         ImageGen.imageCounter];
    do 2 eexists; (split; [reflexivity|]);
    cbn [ImageGen.gen_size ImageGen.gen_style ImageGen.gen_format
         ImageGen.gen_file ImageGen.gen_prompt ImageGen.imageCounter
         ImageGen.downloadedModels ImageGen.activeModel];
    (split; [exact H1|]); (split; [exact H2|]); (split; [exact H3|]);
    repeat (split; [reflexivity|]).
  - split; [exact Hd | reflexivity].
  - split; [apply set_has_add_same | reflexivity].
Qed.

(** The parameters of the automation pipeline on a new instance: the
    active model does not support the style "artistic" and has no
    default format, so the image is a minimalist SVG. *)
Lemma generateImage_listed_model_witness :
  exists model result g',
    ImageGen.lookupModel
      (ImageGen.requestedModel (ImageGen.pipelineParams "a lighthouse")
                               ImageGen.newLocalImageGenerator)
    = ImageGen.OwnModel model
    /\ ImageGen.generateImage 1000 (ImageGen.pipelineParams "a lighthouse")
                              ImageGen.newLocalImageGenerator
       = (inr result, g')
    /\ ImageGen.gen_size result = Some "1024x1024"
    /\ ImageGen.gen_style result = Some "minimalist"
    /\ ImageGen.gen_file result = "img_1_1000.svg".
Proof.
  destruct (ImageGen.lookupModel
              (ImageGen.requestedModel (ImageGen.pipelineParams "a lighthouse")
                                       ImageGen.newLocalImageGenerator))
    as [model| |] eqn:Hmodel;
    try (vm_compute in Hmodel; discriminate Hmodel).
  destruct (@generateImage_listed_model 1000
              (ImageGen.pipelineParams "a lighthouse")
              ImageGen.newLocalImageGenerator model Hmodel)
    as (result & g' & Hrun & _).
  exists model, result, g'. split; [reflexivity|]. split; [exact Hrun|].
  vm_compute in Hrun. injection Hrun as <- <-. repeat split.
Defined.

Lemma lookupModel_inherited_set name g :
  ImageGen.lookupModel name = ImageGen.Inherited ->
  ImageGen.ensureModel name g
  = (true, snd (ImageGen.ensureModel name g))
  /\ ImageGen.activeModel (snd (ImageGen.ensureModel name g)) = name
  /\ ImageGen.imageCounter (snd (ImageGen.ensureModel name g))
     = ImageGen.imageCounter g.
Proof.
  intros H. unfold ImageGen.ensureModel. rewrite H.
  destruct (TTS.set_has name (ImageGen.downloadedModels g));
    repeat split.
Qed.

Lemma generateImage_inherited timestamp params g :
  ImageGen.lookupModel (ImageGen.requestedModel params g)
  = ImageGen.Inherited ->
  exists e g',
    ImageGen.generateImage timestamp params g = (inl e, g')
    /\ ImageGen.activeModel g'
       = (if TTS.set_has (ImageGen.requestedModel params g)
                         (ImageGen.downloadedModels g)
          then ImageGen.activeModel g
          else ImageGen.requestedModel params g)
    /\ ImageGen.imageCounter g' = ImageGen.imageCounter g.
Proof.
  intros H. unfold ImageGen.generateImage, ImageGen.ensureModel.
  unfold ImageGen.requestedModel in *.
  cbn [ImageGen.activeModel ImageGen.downloadedModels ImageGen.imageCounter
       ImageGen.isProcessing].
  rewrite H.
  destruct (TTS.set_has _ (ImageGen.downloadedModels g));
    cbn [negb snd]; do 2 eexists; repeat split.
Qed.

(** X23: a model name that the list of models lacks but
    [Object.prototype] has (such as "constructor" or "toString") passes
    the check of [ensureModel]: the call resolves to [true] and makes the
    name the active model.  From then on every [generateImage] call that
    leaves the choice of the model to the service throws, produces no
    file and leaves the name active, however many such calls follow. *)
Theorem ensureModel_inherited_name_stops_images (name : string)
  (g : ImageGen.LocalImageGenerator) (calls : list ImageGen.Call) :
  ImageGen.lookupModel name = ImageGen.Inherited ->
  Forall ImageGen.usesActiveModel calls ->
  fst (ImageGen.ensureModel name g) = true
  /\ ImageGen.activeModel (snd (ImageGen.ensureModel name g)) = name
  /\ (forall timestamp params,
         ImageGen.modelId params = None ->
         exists e,
           fst (ImageGen.generateImage timestamp params
                  (snd (ImageGen.ensureModel name g))) = inl e)
  /\ fst (ImageGen.run_calls calls (snd (ImageGen.ensureModel name g))) = []
  /\ ImageGen.activeModel
       (snd (ImageGen.run_calls calls (snd (ImageGen.ensureModel name g))))
     = name.
Proof.
  intros Hname Hcalls.
  destruct (lookupModel_inherited_set name g Hname) as (Hens & Hactive & _).
  split; [now rewrite Hens|]. split; [exact Hactive|].
  assert (Hthrows :
            forall g1 timestamp params,
              ImageGen.activeModel g1 = name ->
              ImageGen.modelId params = None ->
              exists e g2,
                ImageGen.generateImage timestamp params g1 = (inl e, g2)
                /\ ImageGen.activeModel g2 = name).
  { intros g1 timestamp params Hg1 Hparams.
    assert (Hreq : ImageGen.requestedModel params g1 = name).
    { unfold ImageGen.requestedModel. now rewrite Hparams. }
    destruct (@generateImage_inherited timestamp params g1)
      as (e & g2 & Hrun & Hact & _); [now rewrite Hreq|].
    exists e, g2. split; [exact Hrun|].
    rewrite Hact, Hreq, Hg1.
    destruct (TTS.set_has name (ImageGen.downloadedModels g1)); reflexivity. }
  split.
  { intros timestamp params Hparams.
    destruct (Hthrows _ timestamp params Hactive Hparams)
      as (e & g2 & Hrun & _).
    exists e. now rewrite Hrun. }
  clear Hens. revert Hactive.
  generalize (snd (ImageGen.ensureModel name g)).
  induction Hcalls as [|c calls Hc Hcalls IH];
    intros g1 Hactive; [split; [reflexivity | exact Hactive]|].
  cbn [ImageGen.run_calls].
  destruct c as [| timestamp params | | |]; try contradiction.
  cbn [ImageGen.usesActiveModel] in Hc. cbn [ImageGen.run_call].
  destruct (Hthrows g1 timestamp params Hactive Hc) as (e & g2 & -> & Hg2).
  specialize (IH g2 Hg2).
  destruct (ImageGen.run_calls calls g2) as [more g3].
  cbn [fst snd app] in *. exact IH.
Qed.

(** After a request to download the model "constructor" on a new
    instance, two calls with the parameters of the automation pipeline
    produce nothing. *)
Lemma ensureModel_inherited_name_stops_images_witness :
  ImageGen.lookupModel "constructor" = ImageGen.Inherited
  /\ Forall ImageGen.usesActiveModel
            [ImageGen.CallGenerateImage 1000 (ImageGen.pipelineParams "a");
             ImageGen.CallGenerateImage 2000 (ImageGen.pipelineParams "b")]
  /\ fst (ImageGen.run_calls
            [ImageGen.CallGenerateImage 1000 (ImageGen.pipelineParams "a");
             ImageGen.CallGenerateImage 2000 (ImageGen.pipelineParams "b")]
            (snd (ImageGen.ensureModel "constructor"
                    ImageGen.newLocalImageGenerator))) = [].
Proof.
  assert (H1 : ImageGen.lookupModel "constructor" = ImageGen.Inherited)
    by reflexivity.
  assert (H2 : Forall ImageGen.usesActiveModel
                 [ImageGen.CallGenerateImage 1000
                    (ImageGen.pipelineParams "a");
                  ImageGen.CallGenerateImage 2000
                    (ImageGen.pipelineParams "b")])
    by (repeat constructor).
  split; [exact H1|]. split; [exact H2|].
  exact (proj1 (proj2 (proj2 (proj2
    (@ensureModel_inherited_name_stops_images "constructor"
       ImageGen.newLocalImageGenerator _ H1 H2))))).
Defined.

Lemma numberedFiles_between prefix timestamp turns :
  occurs "_" prefix = false ->
  forall counter i,
    Forall (numbered_between counter (counter + Z.of_nat turns))
           (ImageGen.numberedFiles prefix timestamp counter i turns)
    /\ NoDup (ImageGen.numberedFiles prefix timestamp counter i turns).
Proof.
  intros Hp. induction turns as [|turns IH]; intros counter i;
    cbn [ImageGen.numberedFiles]; [split; constructor|].
  destruct (IH (counter + 1) (i + 1)) as [Hall Hnodup].
  change (prefix ++ "_" ++ TTS.show counter ++ "_" ++ TTS.show timestamp
          ++ "_" ++ TTS.show i ++ ".png")%string
    with (numbered prefix counter
            (TTS.show timestamp ++ "_" ++ TTS.show i ++ ".png")).
  split.
  - constructor.
    + exists prefix, counter,
        (TTS.show timestamp ++ "_" ++ TTS.show i ++ ".png")%string.
      repeat split; [exact Hp | lia | lia].
    + eapply Forall_impl; [|exact Hall].
      intros f (p & c & r & Hp' & Hc & ->). exists p, c, r.
      repeat split; [exact Hp' | lia | lia].
  - constructor; [|exact Hnodup].
    apply numbered_fresh; [exact Hp|].
    eapply Forall_impl; [|exact Hall].
    intros f (p & c & r & Hp' & Hc & ->). exists p, c, r.
    repeat split; [exact Hp' | lia].
Qed.

Lemma image_run_call_between c g :
  ImageGen.imageCounter g <= ImageGen.imageCounter (snd (ImageGen.run_call c g))
  /\ Forall (numbered_between (ImageGen.imageCounter g)
               (ImageGen.imageCounter (snd (ImageGen.run_call c g))))
            (fst (ImageGen.run_call c g))
  /\ NoDup (fst (ImageGen.run_call c g)).
Proof.
  assert (Hone : forall prefix rest (counter : Z),
             occurs "_" prefix = false ->
             Forall (numbered_between counter (counter + 1))
                    [numbered prefix counter rest]
             /\ NoDup [numbered prefix counter rest]).
  { intros prefix rest counter Hp. split.
    - constructor; [|constructor]. exists prefix, counter, rest.
      repeat split; [exact Hp | lia | lia].
    - constructor; [intros []|constructor]. }
  destruct c as [modelId | timestamp params | timestamp topic style size
                 | timestamp script style frameCount
                 | timestamp basePath variationCount];
    cbn [ImageGen.run_call].
  - unfold ImageGen.ensureModel.
    destruct (ImageGen.lookupModel modelId);
      try destruct (TTS.set_has modelId (ImageGen.downloadedModels g));
      cbn [fst snd ImageGen.imageCounter];
      (split; [lia|]); split; constructor.
  - unfold ImageGen.generateImage, ImageGen.ensureModel.
    cbn [ImageGen.activeModel ImageGen.downloadedModels ImageGen.imageCounter
         ImageGen.isProcessing].
    destruct (ImageGen.lookupModel _) as [model| |];
      destruct (TTS.set_has _ (ImageGen.downloadedModels g));
      cbn [negb fst snd ImageGen.imageCounter ImageGen.gen_file];
      (split; [lia|]);
      first [ solve [split; constructor]
            | apply (Hone "img"
                       (TTS.show timestamp ++ "."
                        ++ ImageGen.interpolate
                             (ImageGen.choose (ImageGen.format params)
                                (ImageGen.supportedFormats model)))%string);
              reflexivity ].
  - cbn [ImageGen.generateThumbnail fst snd ImageGen.imageCounter
         thumb_file].
    split; [lia|].
    apply (Hone "thumb" (TTS.show timestamp ++ ".png")%string). reflexivity.
  - cbn [ImageGen.generateVideoFrames fst snd ImageGen.imageCounter
         ImageGen.frame_files].
    split; [lia|]. now apply numberedFiles_between.
  - cbn [ImageGen.generateVariations fst snd ImageGen.imageCounter
         ImageGen.variation_files].
    split; [lia|]. now apply numberedFiles_between.
Qed.

Lemma image_run_calls_from calls :
  forall g,
    Forall (numbered_from (ImageGen.imageCounter g))
           (fst (ImageGen.run_calls calls g)).
Proof.
  induction calls as [|c calls IH]; intros g; cbn [ImageGen.run_calls];
    [constructor|].
  destruct (image_run_call_between c g) as (Hle & Hfiles & _).
  destruct (ImageGen.run_call c g) as [files g1]. specialize (IH g1).
  destruct (ImageGen.run_calls calls g1) as [more g2]. cbn [fst snd] in *.
  apply Forall_app. split.
  - eapply Forall_impl; [|exact Hfiles].
    intros f (p & k & r & Hp & Hk & ->). exists p, k, r.
    repeat split; [exact Hp | lia].
  - eapply Forall_impl; [|exact IH]. intros f. now apply numbered_from_le.
Qed.

(** X24: the image file names are unique.  Whatever sequence of
    [ensureModel], [generateImage], [generateThumbnail],
    [generateVideoFrames] and [generateVariations] calls is made on a
    [LocalImageGenerator] instance, one after the other, at whatever
    clock readings and with whatever parameters, no two of the files
    they name have the same name, also when some of the calls throw. *)
Theorem image_file_names_unique (calls : list ImageGen.Call)
  (g : ImageGen.LocalImageGenerator) :
  NoDup (fst (ImageGen.run_calls calls g)).
Proof.
  revert g. induction calls as [|c calls IH]; intros g;
    cbn [ImageGen.run_calls]; [constructor|].
  destruct (image_run_call_between c g) as (_ & Hfiles & Hnodup).
  destruct (ImageGen.run_call c g) as [files g1]. specialize (IH g1).
  pose proof (image_run_calls_from calls g1) as Hfrom.
  destruct (ImageGen.run_calls calls g1) as [more g2]. cbn [fst snd] in *.
  induction Hfiles as [|file files Hfile Hfiles IHfiles];
    cbn [app]; [exact IH|].
  inversion Hnodup as [|? ? Hnotin Hnodup']; subst.
  constructor; [|now apply IHfiles].
  intros Hin. apply in_app_or in Hin as [Hin|Hin]; [now apply Hnotin|].
  destruct Hfile as (p & k & r & Hp & Hk & ->).
  apply (proj1 (Forall_forall _ _) Hfrom) in Hin
    as (p' & k' & r' & Hp' & Hk' & Heq).
  apply numbered_inj in Heq as (_ & Hkk & _); [lia | exact Hp | exact Hp'].
Qed.

(** An image, a thumbnail, three variations, two frames and one more
    image, all at the same clock reading. *)
Lemma image_file_names_unique_witness :
  fst (ImageGen.run_calls ImageGen.sampleCalls ImageGen.newLocalImageGenerator)
  = ["img_1_1000.svg"; "thumb_2_1000.png"; "var_3_1000_0.png";
     "var_4_1000_1.png"; "var_5_1000_2.png"; "frame_6_1000_0.png";
     "frame_7_1000_1.png"; "img_8_1000.svg"]
  /\ NoDup (fst (ImageGen.run_calls ImageGen.sampleCalls
                   ImageGen.newLocalImageGenerator)).
Proof.
  split; [vm_compute; reflexivity|].
  exact (image_file_names_unique ImageGen.sampleCalls
           ImageGen.newLocalImageGenerator).
Defined.
